(** * Mitr AI: the context-and-safety orchestration pipeline

    A shallow embedding of the server flows of the Mitr AI therapeutic chat
    application and of the part of the chat interface that consumes their
    responses:

    - [findRelevantKnowledge] and [manageContext]
      (enhanced-context-management flow),
    - [analyzeEmotions] (emotion-analysis flow),
    - [comprehensiveMitrFlow] (comprehensive flow),
    - [fastMitrFlow] (fast flow) and [handleSendMessage]
      (EnhancedChatInterface), with the analysis state that the interface
      updates while the user types,
    - [analyzeText] and [estimateAlliance] (utils/sentiment-analyzer),
    - the class [PerformanceMonitor] (utils/performance-monitor) and the
      keys of [ClientCache] (utils/client-cache), as functions on their
      state.

    Every hosted-model prompt, [Math.random], [new Date] and [console.error]
    is an event of a small free monad [Flow]; an [Oracle] answers events from
    the history of the events answered so far, so a model may fail, return no
    output, or answer the same prompt differently at different times.

    Conventions.
    - A JavaScript number is a rational ([Q]); the schemas reject NaN, so a
      number is falsy exactly when it is zero.
    - A value of a zod object type is a record; an optional field is an
      [option]; the schema validation done by the framework is not modelled:
      a record stands for a value that passed it.
    - The text [JSON.stringify(v)] is represented by [JSON_stringify v], the
      value it serialises, so two equal values give the same text. *)

From Stdlib Require Import QArith Qround ZArith String Ascii List Bool Lia Lqa
  DecimalString.
Import ListNotations.
Local Close Scope Q_scope.
Local Open Scope string_scope.
Local Open Scope list_scope.

Set Implicit Arguments.

(* ================================================================== *)
(** * JavaScript values and helpers *)
(* ================================================================== *)

Definition number := Q.

(** A thrown JavaScript exception. *)
Inductive Exn : Type :=
| Error (message : string)
| TypeError (message : string).

(** The settlement of a promise, or the result of a call that may throw. *)
Inductive Outcome (A : Type) : Type :=
| Resolved (value : A)
| Rejected (reason : Exn).
Arguments Resolved {A} value.
Arguments Rejected {A} reason.

(** A prompt field of type string that the flows fill either with
    [JSON.stringify(v)] or with a fixed placeholder text. *)
Inductive Text (A : Type) : Type :=
| JSON_stringify (v : A)
| Literal (s : string).
Arguments JSON_stringify {A} v.
Arguments Literal {A} s.

(** A value of zod type [any]. *)
#[local] Unset Elimination Schemes.
Inductive Any : Type :=
| AnyNull
| AnyBool (b : bool)
| AnyNumber (n : number)
| AnyString (s : string)
| AnyArray (l : list Any)
| AnyObject (l : list (string * Any)).
#[local] Set Elimination Schemes.

(** Truthiness of the primitive types the flows test. *)
Definition truthy_string (s : string) : bool := negb (s =? "").
Definition truthy_number (n : number) : bool := negb (Qeq_bool n 0%Q).

(** [a || d] at type string, number and boolean. *)
Definition or_string (a d : string) : string := if truthy_string a then a else d.
Definition or_number (a d : number) : number := if truthy_number a then a else d.
Definition or_boolean (a d : bool) : bool := if a then a else d.

(** [a?.f || d]: [a] is null or undefined, or the field is falsy. *)
Definition opt_or_string {A} (a : option A) (f : A -> string) (d : string) : string :=
  match a with Some x => or_string (f x) d | None => d end.
Definition opt_or_number {A} (a : option A) (f : A -> number) (d : number) : number :=
  match a with Some x => or_number (f x) d | None => d end.
Definition opt_or_boolean {A} (a : option A) (f : A -> bool) (d : bool) : bool :=
  match a with Some x => or_boolean (f x) d | None => d end.
(** Truthiness of a value that is an object, null or undefined. *)
Definition present {A} (a : option A) : bool :=
  match a with Some _ => true | None => false end.

(** The same at an array or object type: every array and object is truthy. *)
Definition opt_or_object {A B} (a : option A) (f : A -> B) (d : B) : B :=
  match a with Some x => f x | None => d end.

Definition newline : string := String (ascii_of_nat 10) EmptyString.

(** [arr.slice(-n)]: the last [n] elements. *)
Definition slice_last {A} (n : nat) (l : list A) : list A :=
  skipn (length l - n) l.

(** [arr.slice(0, n)]. *)
Definition slice_first {A} (n : nat) (l : list A) : list A := firstn n l.

(** [arr.join(sep)] on an array of strings. *)
Definition join (sep : string) (l : list string) : string := String.concat sep l.

(** [s.toLowerCase()] on the code units of the ASCII range; other code units
    are left as they are. *)
Definition lower_ascii (c : ascii) : ascii :=
  let n := nat_of_ascii c in
  if (65 <=? n)%nat && (n <=? 90)%nat then ascii_of_nat (n + 32) else c.

Fixpoint toLowerCase (s : string) : string :=
  match s with
  | EmptyString => EmptyString
  | String c r => String (lower_ascii c) (toLowerCase r)
  end.

(** [s.includes(sub)]. *)
Fixpoint includes (s sub : string) : bool :=
  String.prefix sub s ||
  match s with
  | EmptyString => false
  | String _ r => includes r sub
  end.

(** [arr.includes(x)] on an array of strings. *)
Definition array_includes (l : list string) (x : string) : bool :=
  existsb (String.eqb x) l.

(** [Array.from(new Set(arr))] on an array of references: every reference
    once, at the place of its first occurrence. *)
Fixpoint uniq_aux (seen : list nat) (l : list nat) : list nat :=
  match l with
  | [] => []
  | x :: r =>
      if existsb (Nat.eqb x) seen then uniq_aux seen r
      else x :: uniq_aux (x :: seen) r
  end.

Definition Array_from_Set (l : list nat) : list nat := uniq_aux [] l.

(* ================================================================== *)
(** * Data model *)
(* ================================================================== *)

(** An object whose keys are emotion labels and whose values are optional
    scores: the keys that are present, with their scores. *)
Definition Scores := list (string * number).

Module ConversationTurn.
Record t : Type := Build {
  speaker : string;
  message : string;
  timestamp : string;
  emotions : option Scores;
  intent : option string }.
End ConversationTurn.

Module AudioFeatures.
Record t : Type := Build {
  pitch : option number;
  energy : option number;
  spectralCentroid : option number;
  mfcc : option (list number);
  duration : option number }.
End AudioFeatures.

(** ** Emotion analysis *)

Module FacialEmotions.
Record t : Type := Build {
  primary : string;
  confidence : number;
  emotions : Scores;
  arousal : number;
  valence : number }.
End FacialEmotions.

Module VoiceEmotions.
Record t : Type := Build {
  primary : string;
  confidence : number;
  emotions : Scores;
  stress : number;
  energy : number }.
End VoiceEmotions.

Module TextEmotions.
Record t : Type := Build {
  primary : string;
  confidence : number;
  emotions : Scores;
  sentiment : number;
  intensity : number }.
End TextEmotions.

Module FusedEmotions.
Record t : Type := Build {
  primary : string;
  confidence : number;
  emotions : Scores;
  arousal : number;
  valence : number;
  distressLevel : number }.
End FusedEmotions.

Module AvatarExpression.
Record t : Type := Build {
  expression : string;
  intensity : number;
  duration : number }.
End AvatarExpression.

(** Output of the multimodal fusion prompt. *)
Module FusionOutput.
Record t : Type := Build {
  primary : string;
  confidence : number;
  emotions : Scores;
  arousal : number;
  valence : number;
  distressLevel : number;
  recommendations : list string;
  avatarExpression : AvatarExpression.t }.
End FusionOutput.

Module EmotionAnalysisInput.
Record t : Type := Build {
  imageData : option string;
  audioFeatures : option AudioFeatures.t;
  textContent : option string;
  conversationHistory : option string }.
End EmotionAnalysisInput.

Module EmotionAnalysisOutput.
Record t : Type := Build {
  facialEmotions : option FacialEmotions.t;
  voiceEmotions : option VoiceEmotions.t;
  textEmotions : option TextEmotions.t;
  fusedEmotions : FusedEmotions.t;
  recommendations : list string;
  avatarExpression : AvatarExpression.t }.
End EmotionAnalysisOutput.

(** ** Wearables *)

Module HeartRate.
Record t : Type := Build {
  current : option number;
  resting : option number;
  variability : option number }.
End HeartRate.

Module Sleep.
Record t : Type := Build { duration : option number; quality : option number }.
End Sleep.

Module Activity.
Record t : Type := Build { steps : option number; activeMinutes : option number }.
End Activity.

Module Stress.
Record t : Type := Build { level : option number }.
End Stress.

Module WearablesData.
Record t : Type := Build {
  heartRate : option HeartRate.t;
  sleep : option Sleep.t;
  activity : option Activity.t;
  stress : option Stress.t;
  timestamp : string }.
End WearablesData.

Module WearableAlert.
Record t : Type := Build {
  type : string;
  severity : string;
  message : string;
  action : string }.
End WearableAlert.

Module OverallWellness.
Record t : Type := Build {
  score : number;
  trend : string;
  primaryConcerns : list string }.
End OverallWellness.

Module PhysicalHealth.
Record t : Type := Build {
  cardiovascularHealth : number;
  sleepQuality : number;
  activityLevel : number;
  recoveryStatus : string }.
End PhysicalHealth.

Module MentalHealth.
Record t : Type := Build {
  stressLevel : number;
  fatigueLevel : number;
  moodIndicators : list (string * number);
  cognitiveLoad : number }.
End MentalHealth.

Module HealthRecommendations.
Record t : Type := Build {
  immediate : list string;
  shortTerm : list string;
  longTerm : list string }.
End HealthRecommendations.

Module TherapeuticInsights.
Record t : Type := Build {
  emotionalState : string;
  stressFactors : list string;
  copingCapacity : number;
  interventionNeeded : bool }.
End TherapeuticInsights.

Module WearablesAnalysisOutput.
Record t : Type := Build {
  overallWellness : OverallWellness.t;
  physicalHealth : PhysicalHealth.t;
  mentalHealth : MentalHealth.t;
  recommendations : HealthRecommendations.t;
  therapeuticInsights : TherapeuticInsights.t;
  alerts : list WearableAlert.t }.
End WearablesAnalysisOutput.

(** ** Context management *)

Module ContextUserProfile.
Record t : Type := Build {
  preferences : option (list (string * Any));
  therapeuticGoals : option (list string);
  triggers : option (list string);
  copingStrategies : option (list string);
  sessionHistory : option (list string) }.
End ContextUserProfile.

Module EmotionalContext.
Record t : Type := Build {
  currentEmotion : option string;
  emotionIntensity : option number;
  emotionTrend : option string;
  distressLevel : option number }.
End EmotionalContext.

Module HealthContext.
Record t : Type := Build {
  wellnessScore : option number;
  stressLevel : option number;
  sleepQuality : option number;
  activityLevel : option number }.
End HealthContext.

Module ContextManagementInput.
Record t : Type := Build {
  currentMessage : string;
  conversationHistory : list ConversationTurn.t;
  userProfile : option ContextUserProfile.t;
  emotionalContext : option EmotionalContext.t;
  healthContext : option HealthContext.t }.
End ContextManagementInput.

Module RelevantContext.
Record t : Type := Build {
  content : string;
  relevanceScore : number;
  source : string;
  timestamp : option string }.
End RelevantContext.

Module TherapeuticIntent.
Record t : Type := Build {
  primary : string;
  secondary : list string;
  confidence : number }.
End TherapeuticIntent.

Module ResponseStrategy.
Record t : Type := Build {
  approach : string;
  tone : string;
  techniques : list string;
  avoidances : list string }.
End ResponseStrategy.

Module ContextualFactors.
Record t : Type := Build {
  emotionalState : string;
  urgencyLevel : string;
  sessionPhase : string;
  therapeuticAlliance : number }.
End ContextualFactors.

Module KnowledgeMatch.
Record t : Type := Build {
  topic : string;
  content : string;
  relevanceScore : number;
  category : string }.
End KnowledgeMatch.

Module ContextManagementOutput.
Record t : Type := Build {
  relevantContext : list RelevantContext.t;
  therapeuticIntent : TherapeuticIntent.t;
  responseStrategy : ResponseStrategy.t;
  contextualFactors : ContextualFactors.t;
  knowledgeBaseMatches : list KnowledgeMatch.t;
  adaptivePrompt : string }.
End ContextManagementOutput.

(** ** Safety assessment and response generation *)

Module SafetyInput.
Record t : Type := Build {
  userMessage : string;
  emotionData : Text FusedEmotions.t;
  healthData : option string;
  conversationHistory : option string }.
End SafetyInput.

Module SafetyOutput.
Record t : Type := Build {
  riskLevel : string;
  concerns : list string;
  actions : list string;
  followUp : bool;
  urgentIntervention : bool }.
End SafetyOutput.

Module Interventions.
Record t : Type := Build {
  immediate : list string;
  session : list string;
  longTerm : list string }.
End Interventions.

Module SafetyAssessment.
Record t : Type := Build {
  riskLevel : string;
  concerns : list string;
  actions : list string;
  followUp : bool }.
End SafetyAssessment.

Module ResponseInput.
Record t : Type := Build {
  userMessage : string;
  emotionAnalysis : Text EmotionAnalysisOutput.t;
  healthAnalysis : option string;
  contextualGuidance : Text ContextManagementOutput.t;
  safetyFactors : Text (option SafetyOutput.t) }.
End ResponseInput.

Module ResponseOutput.
Record t : Type := Build {
  response : string;
  interventions : Interventions.t;
  safetyAssessment : SafetyAssessment.t }.
End ResponseOutput.

(** ** The comprehensive and the fast flow *)

Module UserProfile.
Record t : Type := Build {
  therapeuticGoals : option (list string);
  triggers : option (list string);
  copingStrategies : option (list string);
  preferences : option (list (string * Any)) }.
End UserProfile.

Module SessionContext.
Record t : Type := Build {
  sessionId : option string;
  sessionPhase : option string;
  duration : option number }.
End SessionContext.

Module ComprehensiveMitrInput.
Record t : Type := Build {
  userMessage : string;
  conversationHistory : option (list ConversationTurn.t);
  imageData : option string;
  audioFeatures : option AudioFeatures.t;
  wearablesData : option WearablesData.t;
  userProfile : option UserProfile.t;
  sessionContext : option SessionContext.t }.
End ComprehensiveMitrInput.

Module EmotionSummary.
Record t : Type := Build {
  primary : string;
  confidence : number;
  distressLevel : number;
  recommendations : list string }.
End EmotionSummary.

Module HealthAlert.
Record t : Type := Build {
  type : string;
  severity : string;
  message : string }.
End HealthAlert.

Module HealthSummary.
Record t : Type := Build {
  wellnessScore : number;
  stressLevel : number;
  alerts : list HealthAlert.t;
  recommendations : list string }.
End HealthSummary.

Module ContextualInsights.
Record t : Type := Build {
  therapeuticIntent : string;
  urgencyLevel : string;
  sessionPhase : string;
  therapeuticAlliance : number }.
End ContextualInsights.

Module AvatarControl.
Record t : Type := Build {
  expression : string;
  intensity : number;
  duration : number;
  emotionalState : string }.
End AvatarControl.

Module DataQuality.
Record t : Type := Build {
  emotional : number;
  health : number;
  contextual : number }.
End DataQuality.

Module Metadata.
Record t : Type := Build {
  analysisTimestamp : string;
  confidenceScore : number;
  dataQuality : DataQuality.t }.
End Metadata.

Module ComprehensiveMitrOutput.
Record t : Type := Build {
  response : string;
  emotionAnalysis : EmotionSummary.t;
  healthAnalysis : option HealthSummary.t;
  contextualInsights : ContextualInsights.t;
  avatarControl : AvatarControl.t;
  interventions : Interventions.t;
  safetyAssessment : SafetyAssessment.t;
  metadata : Metadata.t }.
End ComprehensiveMitrOutput.

Module FastTurn.
Record t : Type := Build {
  speaker : string;
  message : string;
  timestamp : string }.
End FastTurn.

Module FastMitrInput.
Record t : Type := Build {
  userMessage : string;
  conversationHistory : option (list FastTurn.t) }.
End FastMitrInput.

Module FastMitrOutput.
Record t : Type := Build {
  response : string;
  emotionAnalysis : EmotionSummary.t;
  healthAnalysis : HealthSummary.t;
  contextualInsights : ContextualInsights.t;
  avatarControl : AvatarControl.t;
  interventions : Interventions.t;
  safetyAssessment : SafetyAssessment.t;
  metadata : Metadata.t }.
End FastMitrOutput.

(* ================================================================== *)
(** * The knowledge matcher (enhanced-context-management) *)
(* ================================================================== *)

Module KnowledgeEntry.
Record t : Type := Build {
  topic : string;
  content : string;
  category : string;
  keywords : list string }.
End KnowledgeEntry.

(** The fixed in-memory table. *)
Definition therapeuticKnowledgeBase : list KnowledgeEntry.t :=
  [ KnowledgeEntry.Build "Active Listening"
      "Reflect back what you hear, validate emotions, ask open-ended questions, avoid judgment"
      "communication_techniques"
      ["listening"; "validation"; "empathy"; "understanding"];
    KnowledgeEntry.Build "Cognitive Behavioral Therapy"
      "Help identify thought patterns, challenge negative thinking, explore behavior-emotion connections"
      "therapeutic_approaches"
      ["thoughts"; "thinking"; "behavior"; "patterns"; "negative"];
    KnowledgeEntry.Build "Mindfulness Techniques"
      "Guide breathing exercises, present-moment awareness, body scans, non-judgmental observation"
      "coping_strategies"
      ["mindfulness"; "breathing"; "present"; "awareness"; "meditation"];
    KnowledgeEntry.Build "Crisis Intervention"
      "Assess safety, provide immediate support, connect to resources, create safety plan"
      "crisis_management"
      ["crisis"; "safety"; "emergency"; "harm"; "suicide"; "danger"];
    KnowledgeEntry.Build "Anxiety Management"
      "Teach grounding techniques, progressive muscle relaxation, exposure therapy principles"
      "anxiety_support"
      ["anxiety"; "worry"; "fear"; "panic"; "nervous"; "stressed"];
    KnowledgeEntry.Build "Depression Support"
      "Validate feelings, encourage small steps, behavioral activation, hope instillation"
      "depression_support"
      ["depression"; "sad"; "hopeless"; "empty"; "worthless"; "tired"];
    KnowledgeEntry.Build "Trauma-Informed Care"
      "Create safety, avoid re-traumatization, respect autonomy, build trust gradually"
      "trauma_support"
      ["trauma"; "abuse"; "ptsd"; "flashbacks"; "triggers"; "safety"];
    KnowledgeEntry.Build "Motivational Interviewing"
      "Explore ambivalence, enhance motivation, support self-efficacy, avoid confrontation"
      "change_facilitation"
      ["motivation"; "change"; "ambivalence"; "goals"; "commitment"] ].

(** The table is an array of object references; [new Set] tells references
    apart, not contents. A reference is the position of the object in the
    table. *)
Definition Ref := nat.

Definition noEntry : KnowledgeEntry.t := KnowledgeEntry.Build "" "" "" [].

Definition item (r : Ref) : KnowledgeEntry.t := nth r therapeuticKnowledgeBase noEntry.

Definition kb_refs : list Ref := seq 0 (length therapeuticKnowledgeBase).

(** [therapeuticKnowledgeBase.filter(p)], as references. *)
Definition kb_filter (p : KnowledgeEntry.t -> bool) : list Ref :=
  filter (fun r => p (item r)) kb_refs.

(** The object literal [emotionKeywords]: its own properties. *)
Definition emotionKeywords : list (string * list string) :=
  [ ("anxious", ["anxiety"; "worry"; "fear"]);
    ("sad", ["depression"; "sad"; "hopeless"]);
    ("angry", ["anger"; "frustration"; "irritation"]);
    ("stressed", ["stress"; "overwhelm"; "pressure"]);
    ("confused", ["confusion"; "uncertainty"; "clarity"]);
    ("hopeful", ["hope"; "optimism"; "positive"]) ].

(** The properties every object literal inherits from [Object.prototype]:
    eleven functions and the accessor [__proto__]. *)
Definition Object_prototype_keys : list string :=
  [ "constructor"; "__defineGetter__"; "__defineSetter__"; "hasOwnProperty";
    "__lookupGetter__"; "__lookupSetter__"; "isPrototypeOf";
    "propertyIsEnumerable"; "toString"; "valueOf"; "__proto__";
    "toLocaleString" ].

(** The value of [emotionKeywords[label]]. *)
Inductive Property : Type :=
| OwnArray (keys : list string)   (* an own property: an array of keywords *)
| Inherited                       (* a function or object of the prototype *)
| Undefined.

Definition emotionKeywords_get (label : string) : Property :=
  match find (fun kv => fst kv =? label) emotionKeywords with
  | Some kv => OwnArray (snd kv)
  | None => if array_includes Object_prototype_keys label then Inherited else Undefined
  end.

(** [emotionalContext?.currentEmotion], when it is truthy. *)
Definition currentEmotion_truthy (emotionalContext : option EmotionalContext.t)
  : option string :=
  match emotionalContext with
  | Some ctx =>
      match EmotionalContext.currentEmotion ctx with
      | Some label => if truthy_string label then Some label else None
      | None => None
      end
  | None => None
  end.

Definition keyword_match (messageLower : string) (it : KnowledgeEntry.t) : bool :=
  existsb (fun keyword => includes messageLower keyword) (KnowledgeEntry.keywords it).

Definition emotion_match (emotionKeys : list string) (it : KnowledgeEntry.t) : bool :=
  existsb (fun key => array_includes (KnowledgeEntry.keywords it) key) emotionKeys.

(** The references collected in [relevantKnowledge] before de-duplication.
    [emotionKeys.some] is called for the first entry of the table; when
    [emotionKeywords[label]] is an inherited property it is truthy, so the
    [|| []] does not apply, and it has no method [some]. *)
Definition collectKnowledge (message : string)
  (emotionalContext : option EmotionalContext.t) : Outcome (list Ref) :=
  let messageLower := toLowerCase message in
  let relevantKnowledge := kb_filter (keyword_match messageLower) in
  match currentEmotion_truthy emotionalContext with
  | Some label =>
      match emotionKeywords_get label with
      | OwnArray emotionKeys =>
          Resolved (relevantKnowledge ++ kb_filter (emotion_match emotionKeys))
      | Undefined =>
          Resolved (relevantKnowledge ++ kb_filter (emotion_match []))
      | Inherited =>
          Rejected (TypeError "emotionKeys.some is not a function")
      end
  | None => Resolved relevantKnowledge
  end.

Definition findRelevantKnowledge_refs (message : string)
  (emotionalContext : option EmotionalContext.t) : Outcome (list Ref) :=
  match collectKnowledge message emotionalContext with
  | Resolved relevantKnowledge =>
      let uniqueKnowledge := Array_from_Set relevantKnowledge in
      Resolved (slice_first 5 uniqueKnowledge)
  | Rejected e => Rejected e
  end.

Definition findRelevantKnowledge (message : string)
  (emotionalContext : option EmotionalContext.t) : Outcome (list KnowledgeEntry.t) :=
  match findRelevantKnowledge_refs message emotionalContext with
  | Resolved refs => Resolved (map item refs)
  | Rejected e => Rejected e
  end.

Definition emotionalContext_of (label : string) : EmotionalContext.t :=
  EmotionalContext.Build (Some label) None None None.

(* ================================================================== *)
(** * Flows: events, oracles and runs *)
(* ================================================================== *)

Module FastTherapistOutput.
Record t : Type := Build { response : string }.
End FastTherapistOutput.

(** What a flow asks of its environment, indexed by the type of the answer.
    A prompt call settles as a promise of the prompt's [output], which is
    null ([None]) when the model produced none. *)
Inductive Event : Type -> Type :=
| facialEmotionPrompt (imageData : string)
    : Event (Outcome (option FacialEmotions.t))
| voiceEmotionPrompt (audioFeatures : AudioFeatures.t)
    : Event (Outcome (option VoiceEmotions.t))
| textEmotionPrompt (textContent : string) (conversationHistory : option string)
    : Event (Outcome (option TextEmotions.t))
| multimodalFusionPrompt
    (facialData : option (Text FacialEmotions.t))
    (voiceData : option (Text VoiceEmotions.t))
    (textData : option (Text TextEmotions.t))
    : Event (Outcome (option FusionOutput.t))
| intentClassificationPrompt (message : string) (conversationContext : option string)
    : Event (Outcome (option TherapeuticIntent.t))
| contextAnalysisPrompt (input : ContextManagementInput.t)
    : Event (Outcome (option ContextManagementOutput.t))
| safetyAssessmentPrompt (input : SafetyInput.t)
    : Event (Outcome (option SafetyOutput.t))
| therapeuticResponsePrompt (input : ResponseInput.t)
    : Event (Outcome (option ResponseOutput.t))
| fastTherapistPrompt (userMessage : string) (conversationHistory : option string)
    : Event (Outcome (option FastTherapistOutput.t))
| Math_random : Event number
| Date_toISOString : Event string
| crypto_randomUUID : Event string
| console_error (label : string) (error : Exn) : Event unit.

(** An asynchronous function body: it returns, throws, or performs an event
    and goes on with the answer. *)
Inductive Flow (A : Type) : Type :=
| Ret (a : A)
| Throw (e : Exn)
| Vis (X : Type) (ev : Event X) (k : X -> Flow A).
Arguments Ret {A} a.
Arguments Throw {A} e.
Arguments Vis {A X} ev k.

Fixpoint bind {A B} (m : Flow A) (f : A -> Flow B) : Flow B :=
  match m with
  | Ret a => f a
  | Throw e => Throw e
  | Vis ev k => Vis ev (fun x => bind (k x) f)
  end.

(** [try { m } catch (error) { h error }]. *)
Fixpoint tryCatch {A} (m : Flow A) (h : Exn -> Flow A) : Flow A :=
  match m with
  | Ret a => Ret a
  | Throw e => h e
  | Vis ev k => Vis ev (fun x => tryCatch (k x) h)
  end.

Definition trigger {X} (ev : Event X) : Flow X := Vis ev (fun x => Ret x).

(** [await p]: the value of a resolved promise; a rejection is thrown. *)
Definition settle {A} (r : Outcome A) : Flow A :=
  match r with
  | Resolved a => Ret a
  | Rejected e => Throw e
  end.

Definition await {A} (ev : Event (Outcome A)) : Flow A := Vis ev settle.

Declare Scope flow_scope.
Delimit Scope flow_scope with flow.
Notation "x <- m ;; k" := (bind m (fun x => k))
  (at level 61, m at next level, right associativity) : flow_scope.
Notation "m ;; k" := (bind m (fun _ => k))
  (at level 61, right associativity) : flow_scope.
Local Open Scope flow_scope.

(** [try { m } catch (error) { console.error(label, error) }] around a
    computation of a variable that starts out unset. *)
Definition recover {A} (label : string) (m : Flow (option A)) : Flow (option A) :=
  tryCatch m (fun error => trigger (console_error label error) ;; Ret None).

(** One answered event. *)
Inductive Entry : Type :=
| Logged (X : Type) (ev : Event X) (answer : X).
Arguments Logged {X} ev answer.

(** The environment: it answers an event knowing everything that was asked
    and answered before. *)
Definition Oracle : Type := forall X : Type, list Entry -> Event X -> X.

(** [run o m hist]: how [m] settles when [o] answers, after the history
    [hist], and the entries [m] adds to the history. *)
Fixpoint run {A} (o : Oracle) (m : Flow A) (hist : list Entry)
  : Outcome A * list Entry :=
  match m with
  | Ret a => (Resolved a, [])
  | Throw e => (Rejected e, [])
  | Vis ev k =>
      let x := o _ hist ev in
      let (r, tr) := run o (k x) (hist ++ [Logged ev x]) in
      (r, Logged ev x :: tr)
  end.

Definition outcome {A} (o : Oracle) (m : Flow A) (hist : list Entry) : Outcome A :=
  fst (run o m hist).

Definition trace {A} (o : Oracle) (m : Flow A) (hist : list Entry) : list Entry :=
  snd (run o m hist).

(** ** Reading a trace *)

Definition safetyCall (en : Entry)
  : option (SafetyInput.t * Outcome (option SafetyOutput.t)) :=
  match en with
  | Logged ev x =>
      match ev in Event X return X -> option _ with
      | safetyAssessmentPrompt i => fun x => Some (i, x)
      | _ => fun _ => None
      end x
  end.

Definition responseCall (en : Entry)
  : option (ResponseInput.t * Outcome (option ResponseOutput.t)) :=
  match en with
  | Logged ev x =>
      match ev in Event X return X -> option _ with
      | therapeuticResponsePrompt i => fun x => Some (i, x)
      | _ => fun _ => None
      end x
  end.

Definition intentCall (en : Entry)
  : option (string * option string * Outcome (option TherapeuticIntent.t)) :=
  match en with
  | Logged ev x =>
      match ev in Event X return X -> option _ with
      | intentClassificationPrompt m c => fun x => Some (m, c, x)
      | _ => fun _ => None
      end x
  end.

Definition contextCall (en : Entry)
  : option (ContextManagementInput.t * Outcome (option ContextManagementOutput.t)) :=
  match en with
  | Logged ev x =>
      match ev in Event X return X -> option _ with
      | contextAnalysisPrompt i => fun x => Some (i, x)
      | _ => fun _ => None
      end x
  end.

Definition randomCall (en : Entry) : option number :=
  match en with
  | Logged ev x =>
      match ev in Event X return X -> option _ with
      | Math_random => fun x => Some x
      | _ => fun _ => None
      end x
  end.

(** Is the entry a call of a hosted-model prompt? *)
Definition isModelCall (en : Entry) : bool :=
  match en with
  | Logged ev _ =>
      match ev with
      | Math_random | Date_toISOString | crypto_randomUUID | console_error _ _ => false
      | _ => true
      end
  end.

(** The entries of a trace that [f] selects, in order. *)
Fixpoint select {B} (f : Entry -> option B) (tr : list Entry) : list B :=
  match tr with
  | [] => []
  | en :: r => match f en with Some b => b :: select f r | None => select f r end
  end.

Definition safetyCalls := select safetyCall.
Definition responseCalls := select responseCall.
Definition intentCalls := select intentCall.
Definition contextCalls := select contextCall.
Definition randomCalls := select randomCall.
Definition modelCalls (tr : list Entry) : list Entry := filter isModelCall tr.

(* ================================================================== *)
(** * The emotion-analysis flow *)
(* ================================================================== *)

(** The three guarded analyzers of [emotionAnalysisFlow]: each runs when its
    signal is truthy, and a failure is logged and leaves the field unset. *)
Definition facialStage (input : EmotionAnalysisInput.t) : Flow (option FacialEmotions.t) :=
  match EmotionAnalysisInput.imageData input with
  | Some imageData =>
      if truthy_string imageData then
        recover "Facial emotion analysis failed:"
          (await (facialEmotionPrompt imageData))
      else Ret None
  | None => Ret None
  end.

Definition voiceStage (input : EmotionAnalysisInput.t) : Flow (option VoiceEmotions.t) :=
  match EmotionAnalysisInput.audioFeatures input with
  | Some audioFeatures =>
      recover "Voice emotion analysis failed:"
        (await (voiceEmotionPrompt audioFeatures))
  | None => Ret None
  end.

Definition textStage (input : EmotionAnalysisInput.t) : Flow (option TextEmotions.t) :=
  match EmotionAnalysisInput.textContent input with
  | Some textContent =>
      if truthy_string textContent then
        recover "Text emotion analysis failed:"
          (await (textEmotionPrompt textContent
                    (EmotionAnalysisInput.conversationHistory input)))
      else Ret None
  | None => Ret None
  end.

(** [x ? JSON.stringify(x) : undefined]. *)
Definition stringify_if_present {A} (x : option A) : option (Text A) :=
  match x with
  | Some v => Some (JSON_stringify v)
  | None => None
  end.

(** The fields of the fusion output are read without a null check. *)
Definition fuse (facial : option FacialEmotions.t) (voice : option VoiceEmotions.t)
  (text : option TextEmotions.t) (fusionResult : option FusionOutput.t)
  : Flow EmotionAnalysisOutput.t :=
  match fusionResult with
  | Some f =>
      Ret (EmotionAnalysisOutput.Build facial voice text
             (FusedEmotions.Build
                (FusionOutput.primary f)
                (FusionOutput.confidence f)
                (FusionOutput.emotions f)
                (FusionOutput.arousal f)
                (FusionOutput.valence f)
                (FusionOutput.distressLevel f))
             (FusionOutput.recommendations f)
             (FusionOutput.avatarExpression f))
  | None =>
      Throw (TypeError "Cannot read properties of null (reading 'primary')")
  end.

Definition emotionAnalysisFlow (input : EmotionAnalysisInput.t)
  : Flow EmotionAnalysisOutput.t :=
  facialEmotions <- facialStage input ;;
  voiceEmotions <- voiceStage input ;;
  textEmotions <- textStage input ;;
  fusionResult <- await (multimodalFusionPrompt
                           (stringify_if_present facialEmotions)
                           (stringify_if_present voiceEmotions)
                           (stringify_if_present textEmotions)) ;;
  fuse facialEmotions voiceEmotions textEmotions fusionResult.

Definition analyzeEmotions (input : EmotionAnalysisInput.t)
  : Flow EmotionAnalysisOutput.t :=
  emotionAnalysisFlow input.

(* ================================================================== *)
(** * The context-management flow *)
(* ================================================================== *)

(** [`${msg.speaker}: ${msg.message}`]. *)
Definition turn_line (msg : ConversationTurn.t) : string :=
  ConversationTurn.speaker msg ++ ": " ++ ConversationTurn.message msg.

(** [history.slice(-n).map(line).join('\n')]. *)
Definition recent_lines (n : nat) (history : list ConversationTurn.t) : string :=
  join newline (map turn_line (slice_last n history)).

Definition toMatch (it : KnowledgeEntry.t) : KnowledgeMatch.t :=
  KnowledgeMatch.Build
    (KnowledgeEntry.topic it)
    (KnowledgeEntry.content it)
    0.8%Q
    (KnowledgeEntry.category it).

(** The two assignments to [contextResult] before it is returned. *)
Definition enhance (contextResult : ContextManagementOutput.t)
  (relevantKnowledge : list KnowledgeEntry.t) (intentResult : TherapeuticIntent.t)
  : ContextManagementOutput.t :=
  ContextManagementOutput.Build
    (ContextManagementOutput.relevantContext contextResult)
    intentResult
    (ContextManagementOutput.responseStrategy contextResult)
    (ContextManagementOutput.contextualFactors contextResult)
    (map toMatch relevantKnowledge)
    (ContextManagementOutput.adaptivePrompt contextResult).

Definition contextManagementFlow (input : ContextManagementInput.t)
  : Flow ContextManagementOutput.t :=
  let conversationContext :=
    Some (recent_lines 5 (ContextManagementInput.conversationHistory input)) in
  intentResult <- await (intentClassificationPrompt
                           (ContextManagementInput.currentMessage input)
                           conversationContext) ;;
  relevantKnowledge <- settle (findRelevantKnowledge
                                 (ContextManagementInput.currentMessage input)
                                 (ContextManagementInput.emotionalContext input)) ;;
  contextResult <- await (contextAnalysisPrompt input) ;;
  match contextResult with
  | None => Throw (Error "Context analysis failed to produce results")
  | Some contextResult =>
      match intentResult with
      | None => Throw (Error "Intent classification failed to produce results")
      | Some intentResult =>
          Ret (enhance contextResult relevantKnowledge intentResult)
      end
  end.

Definition manageContext (input : ContextManagementInput.t)
  : Flow ContextManagementOutput.t :=
  contextManagementFlow input.

(* ================================================================== *)
(** * The comprehensive flow *)
(* ================================================================== *)

(** Step 1: the emotion analysis, with its local recovery. *)
Definition emotionInput (input : ComprehensiveMitrInput.t) : EmotionAnalysisInput.t :=
  EmotionAnalysisInput.Build
    (ComprehensiveMitrInput.imageData input)
    (ComprehensiveMitrInput.audioFeatures input)
    (Some (ComprehensiveMitrInput.userMessage input))
    (option_map (fun h => join newline (map turn_line h))
       (ComprehensiveMitrInput.conversationHistory input)).

Definition emotionStep (input : ComprehensiveMitrInput.t)
  : Flow (option EmotionAnalysisOutput.t) :=
  recover "Emotion analysis failed:"
    (emotionAnalysis <- analyzeEmotions (emotionInput input) ;;
     Ret (Some emotionAnalysis)).

(** Step 2: the health analysis that the flow writes down itself;
    [random] is the value of [Math.random()]. *)
Definition minimalHealthAnalysis (random : number) : WearablesAnalysisOutput.t :=
  WearablesAnalysisOutput.Build
    (OverallWellness.Build (75 + inject_Z (Qfloor (random * 15)))%Q "stable" [])
    (PhysicalHealth.Build 80%Q 70%Q 65%Q "good")
    (MentalHealth.Build 35%Q 40%Q
       [("calm", 0.7%Q); ("energetic", 0.6%Q); ("focused", 0.7%Q)] 50%Q)
    (HealthRecommendations.Build
       ["Take a deep breath"; "Stay hydrated"]
       ["Maintain regular sleep schedule"]
       ["Build consistent exercise routine"])
    (TherapeuticInsights.Build "calm" [] 80%Q false)
    [].

Definition healthStep : Flow (option WearablesAnalysisOutput.t) :=
  random <- trigger Math_random ;;
  Ret (Some (minimalHealthAnalysis random)).

(** Step 3: the context management, with its local recovery. *)
Definition toContextProfile (p : UserProfile.t) : ContextUserProfile.t :=
  ContextUserProfile.Build
    (UserProfile.preferences p)
    (UserProfile.therapeuticGoals p)
    (UserProfile.triggers p)
    (UserProfile.copingStrategies p)
    None.

Definition contextInput (input : ComprehensiveMitrInput.t)
  (emotionAnalysis : option EmotionAnalysisOutput.t)
  (healthAnalysis : option WearablesAnalysisOutput.t) : ContextManagementInput.t :=
  ContextManagementInput.Build
    (ComprehensiveMitrInput.userMessage input)
    (match ComprehensiveMitrInput.conversationHistory input with
     | Some h => h
     | None => []
     end)
    (option_map toContextProfile (ComprehensiveMitrInput.userProfile input))
    (match emotionAnalysis with
     | Some ea =>
         let fused := EmotionAnalysisOutput.fusedEmotions ea in
         Some (EmotionalContext.Build
                 (Some (FusedEmotions.primary fused))
                 (Some (FusedEmotions.confidence fused))
                 None
                 (Some (FusedEmotions.distressLevel fused)))
     | None => None
     end)
    (match healthAnalysis with
     | Some ha =>
         Some (HealthContext.Build
                 (Some (OverallWellness.score (WearablesAnalysisOutput.overallWellness ha)))
                 (Some (MentalHealth.stressLevel (WearablesAnalysisOutput.mentalHealth ha)))
                 (Some (PhysicalHealth.sleepQuality (WearablesAnalysisOutput.physicalHealth ha)))
                 (Some (PhysicalHealth.activityLevel (WearablesAnalysisOutput.physicalHealth ha))))
     | None => None
     end).

Definition contextStep (input : ComprehensiveMitrInput.t)
  (emotionAnalysis : option EmotionAnalysisOutput.t)
  (healthAnalysis : option WearablesAnalysisOutput.t)
  : Flow (option ContextManagementOutput.t) :=
  recover "Context management failed:"
    (contextualGuidance <-
       manageContext (contextInput input emotionAnalysis healthAnalysis) ;;
     Ret (Some contextualGuidance)).

(** Step 4: the input of the safety assessment. No health data is passed. *)
Definition safetyInput (input : ComprehensiveMitrInput.t)
  (emotionAnalysis : option EmotionAnalysisOutput.t) : SafetyInput.t :=
  SafetyInput.Build
    (ComprehensiveMitrInput.userMessage input)
    (match emotionAnalysis with
     | Some ea => JSON_stringify (EmotionAnalysisOutput.fusedEmotions ea)
     | None => Literal "No emotion data"
     end)
    None
    (option_map (recent_lines 3) (ComprehensiveMitrInput.conversationHistory input)).

(** Step 5: the input of the response generation. *)
Definition responseInput (input : ComprehensiveMitrInput.t)
  (emotionAnalysis : option EmotionAnalysisOutput.t)
  (contextualGuidance : option ContextManagementOutput.t)
  (safetyOutput : option SafetyOutput.t) : ResponseInput.t :=
  ResponseInput.Build
    (ComprehensiveMitrInput.userMessage input)
    (match emotionAnalysis with
     | Some ea => JSON_stringify ea
     | None => Literal "No emotion analysis available"
     end)
    None
    (match contextualGuidance with
     | Some cg => JSON_stringify cg
     | None => Literal "No contextual guidance available"
     end)
    (JSON_stringify safetyOutput).

(** Step 6: the merge. Every default is substituted with [||]. *)
Definition apology : string :=
  "I apologize, but I encountered an issue generating a response. Please try again.".

Definition defaultInterventions : Interventions.t :=
  Interventions.Build
    ["Take a deep breath"; "Ground yourself in the present moment"]
    ["Explore your feelings"; "Practice mindfulness"]
    ["Develop coping strategies"; "Build emotional resilience"].

Definition defaultAvatarControl : AvatarControl.t :=
  AvatarControl.Build "empathetic" 0.7%Q 5%Q "supportive".

Definition toHealthAlert (a : WearableAlert.t) : HealthAlert.t :=
  HealthAlert.Build (WearableAlert.type a) (WearableAlert.severity a)
    (WearableAlert.message a).

Definition healthSummary (ha : WearablesAnalysisOutput.t) : HealthSummary.t :=
  HealthSummary.Build
    (OverallWellness.score (WearablesAnalysisOutput.overallWellness ha))
    (MentalHealth.stressLevel (WearablesAnalysisOutput.mentalHealth ha))
    (map toHealthAlert (WearablesAnalysisOutput.alerts ha))
    (HealthRecommendations.immediate (WearablesAnalysisOutput.recommendations ha)).

Definition fused_of (ea : EmotionAnalysisOutput.t) : FusedEmotions.t :=
  EmotionAnalysisOutput.fusedEmotions ea.

Definition factors_of (cg : ContextManagementOutput.t) : ContextualFactors.t :=
  ContextManagementOutput.contextualFactors cg.

Definition intent_of (cg : ContextManagementOutput.t) : TherapeuticIntent.t :=
  ContextManagementOutput.therapeuticIntent cg.

Definition compileResponse (timestamp : string)
  (emotionAnalysis : option EmotionAnalysisOutput.t)
  (healthAnalysis : option WearablesAnalysisOutput.t)
  (contextualGuidance : option ContextManagementOutput.t)
  (safetyOutput : option SafetyOutput.t)
  (responseOutput : option ResponseOutput.t) : ComprehensiveMitrOutput.t :=
  ComprehensiveMitrOutput.Build
    (opt_or_string responseOutput ResponseOutput.response apology)
    (EmotionSummary.Build
       (opt_or_string emotionAnalysis (fun ea => FusedEmotions.primary (fused_of ea)) "neutral")
       (opt_or_number emotionAnalysis (fun ea => FusedEmotions.confidence (fused_of ea)) 0.5%Q)
       (opt_or_number emotionAnalysis (fun ea => FusedEmotions.distressLevel (fused_of ea)) 0.3%Q)
       (opt_or_object emotionAnalysis EmotionAnalysisOutput.recommendations []))
    (option_map healthSummary healthAnalysis)
    (ContextualInsights.Build
       (opt_or_string contextualGuidance
          (fun cg => TherapeuticIntent.primary (intent_of cg)) "emotional_support")
       (opt_or_string contextualGuidance
          (fun cg => ContextualFactors.urgencyLevel (factors_of cg)) "low")
       (opt_or_string contextualGuidance
          (fun cg => ContextualFactors.sessionPhase (factors_of cg)) "exploration")
       (opt_or_number contextualGuidance
          (fun cg => ContextualFactors.therapeuticAlliance (factors_of cg)) 70%Q))
    (match emotionAnalysis with
     | Some ea =>
         let av := EmotionAnalysisOutput.avatarExpression ea in
         AvatarControl.Build
           (AvatarExpression.expression av)
           (AvatarExpression.intensity av)
           (AvatarExpression.duration av)
           "supportive"
     | None => defaultAvatarControl
     end)
    (opt_or_object responseOutput ResponseOutput.interventions defaultInterventions)
    (SafetyAssessment.Build
       (opt_or_string safetyOutput SafetyOutput.riskLevel "low")
       (opt_or_object safetyOutput SafetyOutput.concerns [])
       (opt_or_object safetyOutput SafetyOutput.actions [])
       (opt_or_boolean safetyOutput SafetyOutput.followUp false))
    (Metadata.Build
       timestamp
       ((opt_or_number emotionAnalysis
           (fun ea => FusedEmotions.confidence (fused_of ea)) 0.5
         + opt_or_number contextualGuidance
             (fun cg => TherapeuticIntent.confidence (intent_of cg)) 0.5) / 2)%Q
       (DataQuality.Build
          (if present emotionAnalysis then 0.8%Q else 0.3%Q)
          (if present healthAnalysis then 0.9%Q else 0.0%Q)
          (if present contextualGuidance then 0.8%Q else 0.5%Q))).

Definition comprehensiveMitrFlow (input : ComprehensiveMitrInput.t)
  : Flow ComprehensiveMitrOutput.t :=
  timestamp <- trigger Date_toISOString ;;
  emotionAnalysis <- emotionStep input ;;
  healthAnalysis <- healthStep ;;
  contextualGuidance <- contextStep input emotionAnalysis healthAnalysis ;;
  safetyOutput <- await (safetyAssessmentPrompt (safetyInput input emotionAnalysis)) ;;
  responseOutput <- await (therapeuticResponsePrompt
                             (responseInput input emotionAnalysis contextualGuidance
                                safetyOutput)) ;;
  Ret (compileResponse timestamp emotionAnalysis healthAnalysis contextualGuidance
         safetyOutput responseOutput).

Definition processComprehensiveMitrRequest (input : ComprehensiveMitrInput.t)
  : Flow ComprehensiveMitrOutput.t :=
  comprehensiveMitrFlow input.

(* ================================================================== *)
(** * The fast flow *)
(* ================================================================== *)

Definition fast_line (msg : FastTurn.t) : string :=
  FastTurn.speaker msg ++ ": " ++ FastTurn.message msg.

Definition fastMitrFlow (input : FastMitrInput.t) : Flow FastMitrOutput.t :=
  timestamp <- trigger Date_toISOString ;;
  let recentConversation :=
    option_map (fun h => join newline (map fast_line (slice_last 3 h)))
      (FastMitrInput.conversationHistory input) in
  responseOutput <- await (fastTherapistPrompt (FastMitrInput.userMessage input)
                             recentConversation) ;;
  Ret (FastMitrOutput.Build
         (opt_or_string responseOutput FastTherapistOutput.response
            "I understand. How can I help you today?")
         (EmotionSummary.Build "neutral" 0.8%Q 0.3%Q
            ["Focus on the present"; "Express your feelings"])
         (HealthSummary.Build 75%Q 35%Q [] ["Take regular breaks"; "Stay hydrated"])
         (ContextualInsights.Build "supportive_listening" "low" "exploration" 75%Q)
         (AvatarControl.Build "empathetic" 0.7%Q 3%Q "attentive")
         (Interventions.Build
            ["Take a deep breath"; "Ground yourself in the present moment"]
            ["Express your feelings"; "Practice mindfulness"]
            ["Develop coping strategies"; "Build emotional resilience"])
         (SafetyAssessment.Build "low" [] [] false)
         (Metadata.Build timestamp 0.8%Q (DataQuality.Build 0.7%Q 0.7%Q 0.7%Q))).

Definition processFastMitrRequest (input : FastMitrInput.t) : Flow FastMitrOutput.t :=
  fastMitrFlow input.

(* ================================================================== *)
(** * The chat interface: consuming a response *)
(* ================================================================== *)

Definition upper_ascii (c : ascii) : ascii :=
  let n := nat_of_ascii c in
  if (97 <=? n)%nat && (n <=? 122)%nat then ascii_of_nat (n - 32) else c.

Fixpoint toUpperCase (s : string) : string :=
  match s with
  | EmptyString => EmptyString
  | String c r => String (upper_ascii c) (toUpperCase r)
  end.

Module EnhancedMessage.
Record t : Type := Build {
  id : string;
  speaker : string;
  text : string;
  timestamp : string;
  emotions : option Scores;
  intent : option string;
  analysis : option FastMitrOutput.t }.
End EnhancedMessage.

Module Toast.
Record t : Type := Build {
  variant : option string;
  title : string;
  description : string }.
End Toast.

Module AnalysisEmotion.
Record t : Type := Build {
  primary : string; confidence : number; distressLevel : number }.
End AnalysisEmotion.

Module AnalysisHealth.
Record t : Type := Build {
  wellnessScore : number; stressLevel : number; alerts : list HealthAlert.t }.
End AnalysisHealth.

Module AnalysisContext.
Record t : Type := Build {
  intent : string; urgency : string; alliance : number }.
End AnalysisContext.

Module AnalysisSafety.
Record t : Type := Build { riskLevel : string; concerns : list string }.
End AnalysisSafety.

Module CurrentAnalysis.
Record t : Type := Build {
  emotion : AnalysisEmotion.t;
  health : AnalysisHealth.t;
  context : AnalysisContext.t;
  safety : AnalysisSafety.t }.
End CurrentAnalysis.

(** The React state of [EnhancedChatInterface] that [handleSendMessage]
    writes, and the toasts shown so far. *)
Module Ui.
Record t : Type := Build {
  conversationHistory : list EnhancedMessage.t;
  currentAnalysis : option CurrentAnalysis.t;
  error : option string;
  isLoading : bool;
  isAnalyzing : bool;
  toasts : list Toast.t }.
End Ui.

Definition analysisOf (aiOutput : FastMitrOutput.t) : CurrentAnalysis.t :=
  let e := FastMitrOutput.emotionAnalysis aiOutput in
  let h := FastMitrOutput.healthAnalysis aiOutput in
  let c := FastMitrOutput.contextualInsights aiOutput in
  let s := FastMitrOutput.safetyAssessment aiOutput in
  CurrentAnalysis.Build
    (AnalysisEmotion.Build (EmotionSummary.primary e) (EmotionSummary.confidence e)
       (EmotionSummary.distressLevel e))
    (AnalysisHealth.Build (HealthSummary.wellnessScore h) (HealthSummary.stressLevel h)
       (HealthSummary.alerts h))
    (AnalysisContext.Build (ContextualInsights.therapeuticIntent c)
       (ContextualInsights.urgencyLevel c) (ContextualInsights.therapeuticAlliance c))
    (AnalysisSafety.Build (SafetyAssessment.riskLevel s) (SafetyAssessment.concerns s)).

(** The toast of the branch [riskLevel === 'critical']. *)
Definition criticalToast (aiOutput : FastMitrOutput.t) : Toast.t :=
  let s := FastMitrOutput.safetyAssessment aiOutput in
  Toast.Build (Some "destructive")
    (toUpperCase (SafetyAssessment.riskLevel s) ++ " Risk Detected")
    (join ", " (SafetyAssessment.concerns s)).

(** The body of the [try] after the request has resolved with [aiOutput]:
    the analysis state, the AI message, and the alert. *)
Definition onResponse (ui : Ui.t) (aiOutput : FastMitrOutput.t)
  (id timestamp : string) : Ui.t :=
  let e := FastMitrOutput.emotionAnalysis aiOutput in
  let aiMessage :=
    EnhancedMessage.Build id "ai" (FastMitrOutput.response aiOutput) timestamp
      (Some [(EmotionSummary.primary e, EmotionSummary.confidence e)])
      (Some (ContextualInsights.therapeuticIntent
               (FastMitrOutput.contextualInsights aiOutput)))
      (Some aiOutput) in
  Ui.Build
    (Ui.conversationHistory ui ++ [aiMessage])
    (Some (analysisOf aiOutput))
    (Ui.error ui)
    (Ui.isLoading ui)
    (Ui.isAnalyzing ui)
    (if SafetyAssessment.riskLevel (FastMitrOutput.safetyAssessment aiOutput) =? "critical"
     then Ui.toasts ui ++ [criticalToast aiOutput]
     else Ui.toasts ui).

Definition errorMessageText : string :=
  "Sorry, I couldn't process your message right now. Please try again later.".

(** The [catch] block. *)
Definition onError (ui : Ui.t) (id timestamp : string) : Ui.t :=
  let errorMessage :=
    EnhancedMessage.Build id "ai" errorMessageText timestamp None None None in
  Ui.Build
    (Ui.conversationHistory ui ++ [errorMessage])
    (Ui.currentAnalysis ui)
    (Some errorMessageText)
    (Ui.isLoading ui)
    (Ui.isAnalyzing ui)
    (Ui.toasts ui).

(** The [finally] block. *)
Definition onFinally (ui : Ui.t) : Ui.t :=
  Ui.Build (Ui.conversationHistory ui) (Ui.currentAnalysis ui) (Ui.error ui)
    false false (Ui.toasts ui).

Definition toFastTurn (msg : EnhancedMessage.t) : FastTurn.t :=
  FastTurn.Build (EnhancedMessage.speaker msg) (EnhancedMessage.text msg)
    (EnhancedMessage.timestamp msg).

(** The request and response part of [handleSendMessage], from its [try] to
    its [finally]: [ui] is the state the synchronous part before it leaves,
    [history] the conversation captured by the handler, and [text] the
    trimmed user input. The server action is the parameter [request], so
    that the handler can be run on every response; the component binds it
    to [processFastMitrRequest]. *)
Definition fastInputOf (text : string) (history : list EnhancedMessage.t)
  : FastMitrInput.t :=
  FastMitrInput.Build text (Some (map toFastTurn history)).

Definition handleSendMessageWith
  (request : FastMitrInput.t -> Flow FastMitrOutput.t)
  (ui : Ui.t) (history : list EnhancedMessage.t) (text : string) : Flow Ui.t :=
  ui' <- tryCatch
    (let fastInput := fastInputOf text history in
     aiOutput <- request fastInput ;;
     id <- trigger crypto_randomUUID ;;
     timestamp <- trigger Date_toISOString ;;
     Ret (onResponse ui aiOutput id timestamp))
    (fun err =>
       trigger (console_error "Error calling comprehensive MITR AI:" err) ;;
       id <- trigger crypto_randomUUID ;;
       timestamp <- trigger Date_toISOString ;;
       Ret (onError ui id timestamp)) ;;
  Ret (onFinally ui').

Definition handleSendMessage : Ui.t -> list EnhancedMessage.t -> string -> Flow Ui.t :=
  handleSendMessageWith processFastMitrRequest.

(* ================================================================== *)
(** * Vocabulary of the statements *)
(* ================================================================== *)

(** [quiet f m]: no event of [m] is one that [f] selects. *)
Fixpoint quiet {A B} (f : Entry -> option B) (m : Flow A) : Prop :=
  match m with
  | Ret _ => True
  | Throw _ => True
  | Vis ev k => (forall x, f (Logged ev x) = None) /\ (forall x, quiet f (k x))
  end.

(** Projections that select none of the events of the emotion analysis,
    and none of the events of the context management. *)
Definition skips_emotion {B} (f : Entry -> option B) : Prop :=
  (forall i x, f (Logged (facialEmotionPrompt i) x) = None) /\
  (forall a x, f (Logged (voiceEmotionPrompt a) x) = None) /\
  (forall t c x, f (Logged (textEmotionPrompt t c) x) = None) /\
  (forall a b c x, f (Logged (multimodalFusionPrompt a b c) x) = None) /\
  (forall l e x, f (Logged (console_error l e) x) = None).

Definition skips_context {B} (f : Entry -> option B) : Prop :=
  (forall m c x, f (Logged (intentClassificationPrompt m c) x) = None) /\
  (forall i x, f (Logged (contextAnalysisPrompt i) x) = None) /\
  (forall l e x, f (Logged (console_error l e) x) = None).

(** A prompt call that failed: it was rejected, or it produced no output. *)
Definition failed {A} (r : Outcome (option A)) : bool :=
  match r with
  | Resolved (Some _) => false
  | Resolved None => true
  | Rejected _ => true
  end.

(** Does the trace hold a failed call of the intent classifier or of the
    context analysis? *)
Definition contextFailure (tr : list Entry) : bool :=
  existsb (fun c => failed (snd c)) (intentCalls tr) ||
  existsb (fun c => failed (snd c)) (contextCalls tr).

(** The topics of the table are pairwise different, so a reference is
    known by the topic of its entry. *)
Definition topic_of (r : Ref) : string := KnowledgeEntry.topic (item r).

(** What the matcher selects: the entries with a keyword that occurs in
    the lower-cased message, and, for a truthy emotion label that is an own
    key of [emotionKeywords], the entries with one of its keywords. *)
Definition selected (message : string) (emotionalContext : option EmotionalContext.t)
  (r : Ref) : Prop :=
  r < length therapeuticKnowledgeBase /\
  (keyword_match (toLowerCase message) (item r) = true \/
   exists label emotionKeys,
     currentEmotion_truthy emotionalContext = Some label /\
     emotionKeywords_get label = OwnArray emotionKeys /\
     emotion_match emotionKeys (item r) = true).

Definition intentEvent (input : ContextManagementInput.t)
  : Event (Outcome (option TherapeuticIntent.t)) :=
  intentClassificationPrompt
    (ContextManagementInput.currentMessage input)
    (Some (recent_lines 5 (ContextManagementInput.conversationHistory input))).

Definition knowledgeFor (input : ContextManagementInput.t)
  : Outcome (list KnowledgeEntry.t) :=
  findRelevantKnowledge
    (ContextManagementInput.currentMessage input)
    (ContextManagementInput.emotionalContext input).

(** Does the input carry a signal that starts an analyzer? *)
Definition hasSignal (input : EmotionAnalysisInput.t) : bool :=
  match EmotionAnalysisInput.imageData input with
  | Some imageData => truthy_string imageData
  | None => false
  end
  || present (EmotionAnalysisInput.audioFeatures input)
  || match EmotionAnalysisInput.textContent input with
     | Some textContent => truthy_string textContent
     | None => false
     end.

Definition fusionEvent (facial : option FacialEmotions.t)
  (voice : option VoiceEmotions.t) (text : option TextEmotions.t)
  : Event (Outcome (option FusionOutput.t)) :=
  multimodalFusionPrompt (stringify_if_present facial) (stringify_if_present voice)
    (stringify_if_present text).

Definition fusedRecord (f : FusionOutput.t) : FusedEmotions.t :=
  FusedEmotions.Build (FusionOutput.primary f) (FusionOutput.confidence f)
    (FusionOutput.emotions f) (FusionOutput.arousal f) (FusionOutput.valence f)
    (FusionOutput.distressLevel f).

(** The input with its wearables data replaced. *)
Definition withWearables (wearables : option WearablesData.t)
  (input : ComprehensiveMitrInput.t) : ComprehensiveMitrInput.t :=
  ComprehensiveMitrInput.Build
    (ComprehensiveMitrInput.userMessage input)
    (ComprehensiveMitrInput.conversationHistory input)
    (ComprehensiveMitrInput.imageData input)
    (ComprehensiveMitrInput.audioFeatures input)
    wearables
    (ComprehensiveMitrInput.userProfile input)
    (ComprehensiveMitrInput.sessionContext input).

(** A fused record as the specification wants it: the primary emotion is a
    key of the emotions map and the confidence lies in [0,1]. *)
Definition validFused (f : FusedEmotions.t) : Prop :=
  In (FusedEmotions.primary f) (map fst (FusedEmotions.emotions f)) /\
  (0 <= FusedEmotions.confidence f <= 1)%Q.

(* ================================================================== *)
(** * Scripted environments *)
(* ================================================================== *)

(** An environment that gives each kind of event one fixed answer. *)
Module Script.
Record t : Type := Build {
  facial : Outcome (option FacialEmotions.t);
  voice : Outcome (option VoiceEmotions.t);
  text : Outcome (option TextEmotions.t);
  fusion : Outcome (option FusionOutput.t);
  intent : Outcome (option TherapeuticIntent.t);
  context : Outcome (option ContextManagementOutput.t);
  safety : Outcome (option SafetyOutput.t);
  response : Outcome (option ResponseOutput.t);
  fast : Outcome (option FastTherapistOutput.t);
  random : number;
  now : string;
  uuid : string }.
End Script.

Definition scripted (s : Script.t) : Oracle :=
  fun X _ ev =>
    match ev in Event X return X with
    | facialEmotionPrompt _ => Script.facial s
    | voiceEmotionPrompt _ => Script.voice s
    | textEmotionPrompt _ _ => Script.text s
    | multimodalFusionPrompt _ _ _ => Script.fusion s
    | intentClassificationPrompt _ _ => Script.intent s
    | contextAnalysisPrompt _ => Script.context s
    | safetyAssessmentPrompt _ => Script.safety s
    | therapeuticResponsePrompt _ => Script.response s
    | fastTherapistPrompt _ _ => Script.fast s
    | Math_random => Script.random s
    | Date_toISOString => Script.now s
    | crypto_randomUUID => Script.uuid s
    | console_error _ _ => tt
    end.

Definition timeout : Exn := Error "provider timeout".

(** Every model call times out. *)
Definition allDown (random : number) : Script.t :=
  Script.Build (Rejected timeout) (Rejected timeout) (Rejected timeout)
    (Rejected timeout) (Rejected timeout) (Rejected timeout) (Rejected timeout)
    (Rejected timeout) (Rejected timeout) random "2025-01-01T00:00:00.000Z" "uuid-1".

Definition sampleFusion : FusionOutput.t :=
  FusionOutput.Build "sad" 0%Q [("sad", 0.9%Q)] 0.4%Q 0.2%Q 0%Q
    ["Name the feeling"] (AvatarExpression.Build "concerned" 0.6%Q 4%Q).

Definition sampleIntent : TherapeuticIntent.t :=
  TherapeuticIntent.Build "depression_support" ["emotional_support"] 0.9%Q.

Definition sampleContext : ContextManagementOutput.t :=
  ContextManagementOutput.Build []
    (TherapeuticIntent.Build "small_talk" [] 0.2%Q)
    (ResponseStrategy.Build "supportive" "warm" ["validation"] [])
    (ContextualFactors.Build "low mood" "medium" "exploration" 60%Q)
    []
    "Respond with warmth.".

Definition sampleSafety : SafetyOutput.t :=
  SafetyOutput.Build "medium" ["low mood"] ["check in"] false false.

Definition sampleResponse : ResponseOutput.t :=
  ResponseOutput.Build "" defaultInterventions
    (SafetyAssessment.Build "low" [] [] false).

(** Every model call answers. *)
Definition allUp (random : number) : Script.t :=
  Script.Build (Rejected timeout) (Rejected timeout) (Rejected timeout)
    (Resolved (Some sampleFusion)) (Resolved (Some sampleIntent))
    (Resolved (Some sampleContext)) (Resolved (Some sampleSafety))
    (Resolved (Some sampleResponse)) (Rejected timeout) random
    "2025-01-01T00:00:00.000Z" "uuid-1".

Definition sampleInput (wearables : option WearablesData.t) : ComprehensiveMitrInput.t :=
  ComprehensiveMitrInput.Build "I feel hopeless and exhausted all the time"
    None None None wearables None None.

Definition emptyUi : Ui.t := Ui.Build [] None None true true [].

Definition criticalOutput : FastMitrOutput.t :=
  FastMitrOutput.Build "I am here with you."
    (EmotionSummary.Build "sad" 0.9%Q 0.9%Q [])
    (HealthSummary.Build 75%Q 35%Q [] [])
    (ContextualInsights.Build "crisis_intervention" "critical" "intervention" 75%Q)
    (AvatarControl.Build "concerned" 0.9%Q 5%Q "attentive")
    defaultInterventions
    (SafetyAssessment.Build "critical" ["suicidal ideation"; "no support"] [] true)
    (Metadata.Build "2025-01-01T00:00:00.000Z" 0.8%Q (DataQuality.Build 0.7%Q 0.7%Q 0.7%Q)).

Definition safetyDown : Script.t :=
  Script.Build (Rejected timeout) (Rejected timeout) (Rejected timeout)
    (Resolved (Some sampleFusion)) (Resolved (Some sampleIntent))
    (Resolved (Some sampleContext)) (Rejected timeout)
    (Resolved (Some sampleResponse)) (Rejected timeout) 0%Q
    "2025-01-01T00:00:00.000Z" "uuid-1".

Definition noSignalInput : EmotionAnalysisInput.t :=
  EmotionAnalysisInput.Build None None (Some "") None.

Definition skewedFusion : FusionOutput.t :=
  FusionOutput.Build "happy" 7%Q [("sad", 0.9%Q)] 0.4%Q 0.2%Q 0.1%Q []
    (AvatarExpression.Build "calm" 0.5%Q 3%Q).

Definition skewed : Script.t :=
  Script.Build (Rejected timeout) (Rejected timeout) (Rejected timeout)
    (Resolved (Some skewedFusion)) (Rejected timeout) (Rejected timeout)
    (Rejected timeout) (Rejected timeout) (Rejected timeout) 0%Q
    "2025-01-01T00:00:00.000Z" "uuid-1".

Definition emotionDown : Script.t :=
  Script.Build (Rejected timeout) (Rejected timeout) (Rejected timeout)
    (Rejected timeout) (Rejected timeout) (Rejected timeout)
    (Resolved None) (Resolved None) (Rejected timeout) 0%Q
    "2025-01-01T00:00:00.000Z" "uuid-1".

Definition contextDown : Script.t :=
  Script.Build (Rejected timeout) (Rejected timeout) (Rejected timeout)
    (Resolved (Some sampleFusion)) (Resolved None)
    (Resolved (Some sampleContext)) (Resolved (Some sampleSafety))
    (Resolved (Some sampleResponse)) (Rejected timeout) 0%Q
    "2025-01-01T00:00:00.000Z" "uuid-1".

Definition sampleContextInput : ContextManagementInput.t :=
  ContextManagementInput.Build "I feel hopeless and exhausted all the time" []
    None (Some (emotionalContext_of "sad")) None.

Definition sampleAnalysis : EmotionAnalysisOutput.t :=
  EmotionAnalysisOutput.Build None None None (fusedRecord sampleFusion)
    (FusionOutput.recommendations sampleFusion)
    (FusionOutput.avatarExpression sampleFusion).

(** A guidance whose strings are empty and whose numbers are 0. *)
Definition emptyGuidance : ContextManagementOutput.t :=
  ContextManagementOutput.Build []
    (TherapeuticIntent.Build "" [] 0%Q)
    (ResponseStrategy.Build "supportive" "warm" [] [])
    (ContextualFactors.Build "" "" "" 0%Q)
    []
    "".

(* ================================================================== *)
(** * The sentiment analyzer (utils/sentiment-analyzer) *)
(* ================================================================== *)

(** [Math.min] and [Math.max] on two numbers. *)
Definition Math_min (a b : number) : number := if Qle_bool a b then a else b.
Definition Math_max (a b : number) : number := if Qle_bool a b then b else a.

(** A count, as a number. *)
Definition num (n : nat) : number := inject_Z (Z.of_nat n).

(** The table [EMOTION_KEYWORDS], in the order of [Object.entries]. *)
Definition EMOTION_KEYWORDS : list (string * list string) :=
  [ ("happy", ["happy"; "joy"; "great"; "excited"; "wonderful"; "awesome"; "good"]);
    ("sad", ["sad"; "upset"; "unhappy"; "depressed"; "down"; "hurt"; "pain"]);
    ("angry", ["angry"; "frustrated"; "mad"; "annoyed"; "irritated"; "furious"]);
    ("anxious", ["anxious"; "worried"; "nervous"; "scared"; "afraid"; "stressed"]);
    ("neutral", ["okay"; "fine"; "alright"; "normal"; "regular"]);
    ("grateful", ["grateful"; "thankful"; "blessed"; "appreciative"]);
    ("hopeful", ["hope"; "looking forward"; "optimistic"; "better"; "improve"]);
    ("overwhelmed", ["overwhelmed"; "too much"; "exhausted"; "cant handle"; "can't handle"]) ].

(** [keywords.reduce((count, keyword) =>
      count + (lowerText.includes(keyword) ? 1 : 0), 0)]. *)
Definition countMatches (lowerText : string) (keywords : list string) : nat :=
  fold_left
    (fun count keyword => count + (if includes lowerText keyword then 1 else 0))
    keywords 0.

(** The state of the loop over the table: the map [emotionScores], as the
    list of its entries, [maxScore] and [primaryEmotion]. *)
Module Scan.
Record t : Type := Build {
  emotionScores : list (string * nat);
  maxScore : nat;
  primaryEmotion : string }.
End Scan.

Definition scanStep (lowerText : string) (st : Scan.t) (entry : string * list string)
  : Scan.t :=
  let emotion := fst entry in
  let score := countMatches lowerText (snd entry) in
  if Nat.ltb (Scan.maxScore st) score
  then Scan.Build (Scan.emotionScores st ++ [(emotion, score)]) score emotion
  else Scan.Build (Scan.emotionScores st ++ [(emotion, score)])
         (Scan.maxScore st) (Scan.primaryEmotion st).

Definition scanEmotions (lowerText : string) : Scan.t :=
  fold_left (scanStep lowerText) EMOTION_KEYWORDS (Scan.Build [] 0 "neutral").

(** [emotionScores.get(emotion) || 0]. *)
Definition scoreOf (emotionScores : list (string * nat)) (emotion : string) : nat :=
  match find (fun kv => fst kv =? emotion) emotionScores with
  | Some kv => snd kv
  | None => 0
  end.

(** [emotions.reduce((total, emotion) =>
      total + (emotionScores.get(emotion) || 0), 0)]. *)
Definition totalOf (emotionScores : list (string * nat)) (emotions : list string) : nat :=
  fold_left (fun total emotion => total + scoreOf emotionScores emotion) emotions 0.

Definition distressEmotions : list string := ["sad"; "angry"; "anxious"; "overwhelmed"].
Definition positiveEmotions : list string := ["happy"; "grateful"; "hopeful"].

Definition positiveMarkers : list string :=
  ["thank"; "helps"; "understand"; "good"; "better";
   "appreciate"; "support"; "listen"; "care"; "right"].

Definition negativeMarkers : list string :=
  ["dont understand"; "don't understand"; "unhelpful";
   "wrong"; "bad"; "waste"; "useless"; "stupid"].

Definition estimateAlliance (text : string) : number :=
  let lowerText := toLowerCase text in
  let positiveCount := countMatches lowerText positiveMarkers in
  let negativeCount := countMatches lowerText negativeMarkers in
  let baseScore := 75%Q in
  let adjustedScore := (baseScore + num positiveCount * 5 - num negativeCount * 10)%Q in
  Math_max 0%Q (Math_min 100%Q adjustedScore).

Module SentimentHealth.
Record t : Type := Build { wellnessScore : number; stressLevel : number }.
End SentimentHealth.

Module SentimentContext.
Record t : Type := Build { alliance : number }.
End SentimentContext.

Module SentimentMetrics.
Record t : Type := Build {
  emotion : AnalysisEmotion.t;
  health : SentimentHealth.t;
  context : SentimentContext.t }.
End SentimentMetrics.

Definition analyzeText (text : string) : SentimentMetrics.t :=
  let lowerText := toLowerCase text in
  let scan := scanEmotions lowerText in
  let confidence := Math_min 1%Q (num (Scan.maxScore scan) / 3)%Q in
  let distressScore := totalOf (Scan.emotionScores scan) distressEmotions in
  let distressLevel := Math_min 1%Q (num distressScore / 5)%Q in
  let positiveScore := totalOf (Scan.emotionScores scan) positiveEmotions in
  let wellnessScore :=
    Math_max 0%Q
      (Math_min 100%Q (50 + num positiveScore * 10 - num distressScore * 10)%Q) in
  let stressLevel := Math_max 0%Q (Math_min 100%Q (distressLevel * 100)%Q) in
  let allianceScore := estimateAlliance text in
  SentimentMetrics.Build
    (AnalysisEmotion.Build (Scan.primaryEmotion scan) confidence distressLevel)
    (SentimentHealth.Build wellnessScore stressLevel)
    (SentimentContext.Build allianceScore).

(** The keyword counts that the analysis is computed from. *)
Definition keywordsOf (emotion : string) : list string :=
  match find (fun kv => fst kv =? emotion) EMOTION_KEYWORDS with
  | Some kv => snd kv
  | None => []
  end.

Definition emotionCount (text : string) (emotion : string) : nat :=
  countMatches (toLowerCase text) (keywordsOf emotion).

Definition distressCount (text : string) : nat :=
  emotionCount text "sad" + emotionCount text "angry" + emotionCount text "anxious"
  + emotionCount text "overwhelmed".

Definition positiveCount (text : string) : nat :=
  emotionCount text "happy" + emotionCount text "grateful" + emotionCount text "hopeful".

(** The fields of an analysis, and the highest keyword count of the loop. *)
Definition primaryOf (text : string) : string :=
  AnalysisEmotion.primary (SentimentMetrics.emotion (analyzeText text)).
Definition confidenceOf (text : string) : number :=
  AnalysisEmotion.confidence (SentimentMetrics.emotion (analyzeText text)).
Definition distressOf (text : string) : number :=
  AnalysisEmotion.distressLevel (SentimentMetrics.emotion (analyzeText text)).
Definition wellnessOf (text : string) : number :=
  SentimentHealth.wellnessScore (SentimentMetrics.health (analyzeText text)).
Definition stressOf (text : string) : number :=
  SentimentHealth.stressLevel (SentimentMetrics.health (analyzeText text)).
Definition allianceOf (text : string) : number :=
  SentimentContext.alliance (SentimentMetrics.context (analyzeText text)).
Definition topCount (text : string) : nat :=
  Scan.maxScore (scanEmotions (toLowerCase text)).

(** Does a keyword of the emotion table occur in the text? *)
Definition mentionsEmotion (text : string) : bool :=
  existsb (fun e => existsb (includes (toLowerCase text)) (snd e)) EMOTION_KEYWORDS.

(** The number of keywords of one row of the table that occur in the text. *)
Definition countOf (lowerText : string) (entry : string * list string) : nat :=
  countMatches lowerText (snd entry).

(* ================================================================== *)
(** * The chat interface: the analysis state *)
(* ================================================================== *)

Module FacialData.
Record t : Type := Build {
  emotions : Scores;
  engagement : number;
  attention : number;
  timestamp : string }.
End FacialData.

Module VoiceData.
Record t : Type := Build {
  volume : number;
  pitch : number;
  tone : string;
  speechRate : number;
  clarity : number;
  timestamp : string }.
End VoiceData.

(** The [context] of an analysis as it is at run time: an update that
    spreads an empty object leaves [intent] and [urgency] undefined. *)
Module ContextData.
Record t : Type := Build {
  intent : option string;
  urgency : option string;
  alliance : number }.
End ContextData.

(** The interface [AnalysisData], the type of the state [currentAnalysis]. *)
Module AnalysisData.
Record t : Type := Build {
  emotion : AnalysisEmotion.t;
  health : option AnalysisHealth.t;
  facial : option FacialData.t;
  voice : option VoiceData.t;
  context : ContextData.t;
  safety : AnalysisSafety.t }.
End AnalysisData.

(** The analysis that [handleSendMessage] sets from a response. *)
Definition ofCurrent (a : CurrentAnalysis.t) : AnalysisData.t :=
  AnalysisData.Build (CurrentAnalysis.emotion a) (Some (CurrentAnalysis.health a))
    None None
    (ContextData.Build (Some (AnalysisContext.intent (CurrentAnalysis.context a)))
       (Some (AnalysisContext.urgency (CurrentAnalysis.context a)))
       (AnalysisContext.alliance (CurrentAnalysis.context a)))
    (CurrentAnalysis.safety a).

(** The object that the updaters spread when there is no analysis yet. *)
Definition fallbackAnalysis : AnalysisData.t :=
  AnalysisData.Build
    (AnalysisEmotion.Build "neutral" 0.5%Q 0.3%Q)
    (Some (AnalysisHealth.Build 75%Q 35%Q []))
    None None
    (ContextData.Build (Some "supportive_listening") (Some "low") 75%Q)
    (AnalysisSafety.Build "low" []).

(** [prev || fallback]. *)
Definition orFallback (prev : option AnalysisData.t) : AnalysisData.t :=
  match prev with Some p => p | None => fallbackAnalysis end.

(** The alerts of [prev?.health || { alerts: [] }]. *)
Definition prevAlerts (prev : option AnalysisData.t) : list HealthAlert.t :=
  match prev with
  | Some p =>
      match AnalysisData.health p with
      | Some h => AnalysisHealth.alerts h
      | None => []
      end
  | None => []
  end.

(** [{ ...(prev?.context || {}), alliance }]. *)
Definition contextWith (prev : option AnalysisData.t) (alliance : number)
  : ContextData.t :=
  match prev with
  | Some p =>
      ContextData.Build (ContextData.intent (AnalysisData.context p))
        (ContextData.urgency (AnalysisData.context p)) alliance
  | None => ContextData.Build None None alliance
  end.

(** The updater that [handleSendMessage] applies before the request. *)
Definition sendUpdate (prev : option AnalysisData.t) (m : SentimentMetrics.t)
  : AnalysisData.t :=
  let base := orFallback prev in
  AnalysisData.Build
    (SentimentMetrics.emotion m)
    (Some (AnalysisHealth.Build
             (SentimentHealth.wellnessScore (SentimentMetrics.health m))
             (SentimentHealth.stressLevel (SentimentMetrics.health m))
             (prevAlerts prev)))
    (AnalysisData.facial base)
    (AnalysisData.voice base)
    (contextWith prev (SentimentContext.alliance (SentimentMetrics.context m)))
    (AnalysisData.safety base).

(** [a > b] and [a < b] on numbers. *)
Definition num_gt (a b : number) : bool := negb (Qle_bool a b).
Definition num_lt (a b : number) : bool := negb (Qle_bool b a).

Definition stressAlert : HealthAlert.t :=
  HealthAlert.Build "stress" "high"
    "High stress levels detected. Consider taking a break or practicing relaxation techniques.".

Definition wellnessAlert : HealthAlert.t :=
  HealthAlert.Build "wellness" "medium"
    "Your wellness score seems low. Would you like to talk about what's bothering you?".

Definition emotionalAlert : HealthAlert.t :=
  HealthAlert.Build "emotional" "high"
    "You seem to be experiencing significant distress. Let's work through this together.".

(** The alerts that the typing analysis pushes, in order. *)
Definition healthAlertsOf (m : SentimentMetrics.t) : list HealthAlert.t :=
  (if num_gt (SentimentHealth.stressLevel (SentimentMetrics.health m)) 75%Q
   then [stressAlert] else [])
  ++ (if num_lt (SentimentHealth.wellnessScore (SentimentMetrics.health m)) 40%Q
      then [wellnessAlert] else [])
  ++ (if num_gt (AnalysisEmotion.distressLevel (SentimentMetrics.emotion m)) 0.7%Q
      then [emotionalAlert] else []).

Definition typingRisk (m : SentimentMetrics.t) : string :=
  if num_gt (AnalysisEmotion.distressLevel (SentimentMetrics.emotion m)) 0.8%Q then "high"
  else if num_gt (AnalysisEmotion.distressLevel (SentimentMetrics.emotion m)) 0.6%Q then "medium"
  else "low".

(** The updater of the debounced analysis of the text being typed. *)
Definition typingUpdate (prev : option AnalysisData.t) (m : SentimentMetrics.t)
  : AnalysisData.t :=
  let base := orFallback prev in
  let healthAlerts := healthAlertsOf m in
  AnalysisData.Build
    (SentimentMetrics.emotion m)
    (Some (AnalysisHealth.Build
             (SentimentHealth.wellnessScore (SentimentMetrics.health m))
             (SentimentHealth.stressLevel (SentimentMetrics.health m))
             healthAlerts))
    (AnalysisData.facial base)
    (AnalysisData.voice base)
    (contextWith prev (SentimentContext.alliance (SentimentMetrics.context m)))
    (AnalysisSafety.Build (typingRisk m) (map HealthAlert.message healthAlerts)).

(** The effect on [userInput]: nothing for the empty input, else the update
    with the analysis of the input as typed. *)
Definition typingAnalysis (prev : option AnalysisData.t) (userInput : string)
  : option AnalysisData.t :=
  if truthy_string userInput
  then Some (typingUpdate prev (analyzeText userInput))
  else prev.

(** The updater of the five-second refresh. *)
Definition refreshUpdate (prev : option AnalysisData.t) (m : SentimentMetrics.t)
  : option AnalysisData.t :=
  match prev with
  | None => None
  | Some p =>
      Some (AnalysisData.Build
              (AnalysisEmotion.Build
                 (AnalysisEmotion.primary (AnalysisData.emotion p))
                 (AnalysisEmotion.confidence (SentimentMetrics.emotion m))
                 (AnalysisEmotion.distressLevel (SentimentMetrics.emotion m)))
              (match AnalysisData.health p with
               | Some h =>
                   Some (AnalysisHealth.Build
                           (SentimentHealth.wellnessScore (SentimentMetrics.health m))
                           (SentimentHealth.stressLevel (SentimentMetrics.health m))
                           (AnalysisHealth.alerts h))
               | None => None
               end)
              (AnalysisData.facial p)
              (AnalysisData.voice p)
              (ContextData.Build
                 (ContextData.intent (AnalysisData.context p))
                 (ContextData.urgency (AnalysisData.context p))
                 (SentimentContext.alliance (SentimentMetrics.context m)))
              (AnalysisData.safety p))
  end.

(** [history.filter(msg => msg.speaker === 'user').slice(-1)[0]?.text]. *)
Definition lastUserText (history : list EnhancedMessage.t) : option string :=
  match slice_last 1 (filter (fun msg => EnhancedMessage.speaker msg =? "user") history) with
  | msg :: _ => Some (EnhancedMessage.text msg)
  | [] => None
  end.

(** One tick of the refresh interval. *)
Definition refreshTick (history : list EnhancedMessage.t)
  (current : option AnalysisData.t) : option AnalysisData.t :=
  match lastUserText history with
  | Some text =>
      if truthy_string text then refreshUpdate current (analyzeText text) else current
  | None => current
  end.

Definition hasAlert (type : string) (a : AnalysisData.t) : bool :=
  match AnalysisData.health a with
  | Some h => existsb (fun al => HealthAlert.type al =? type) (AnalysisHealth.alerts h)
  | None => false
  end.

(* ================================================================== *)
(** * Vocabulary of the further properties *)
(* ================================================================== *)

(** The conversation text that the fast flow passes to its prompt. *)
Definition fastHistoryOf (input : FastMitrInput.t) : option string :=
  option_map (fun h => join newline (map fast_line (slice_last 3 h)))
    (FastMitrInput.conversationHistory input).



(** The fast prompt answers without an output; every other call times out. *)
Definition fastUp : Script.t :=
  Script.Build (Rejected timeout) (Rejected timeout) (Rejected timeout)
    (Rejected timeout) (Rejected timeout) (Rejected timeout) (Rejected timeout)
    (Rejected timeout) (Resolved None) 0%Q "2025-01-01T00:00:00.000Z" "uuid-1".

Definition fastTurns (n : nat) : list FastTurn.t :=
  map (fun k => FastTurn.Build "user" "hello" "2025-01-01T00:00:00.000Z") (seq 0 n).

(** The intent classifier answers without an output. *)
Definition intentSilent : Script.t :=
  Script.Build (Rejected timeout) (Rejected timeout) (Rejected timeout)
    (Rejected timeout) (Resolved None) (Resolved (Some sampleContext))
    (Rejected timeout) (Rejected timeout) (Rejected timeout) 0%Q
    "2025-01-01T00:00:00.000Z" "uuid-1".

Definition contextTurns (n : nat) : list ConversationTurn.t :=
  map (fun k => ConversationTurn.Build "user" "hello" "2025-01-01T00:00:00.000Z" None None)
    (seq 0 n).

(** ** Reading the calls of the emotion analysis *)

Definition facialCall (en : Entry)
  : option (string * Outcome (option FacialEmotions.t)) :=
  match en with
  | Logged ev x =>
      match ev in Event X return X -> option _ with
      | facialEmotionPrompt i => fun x => Some (i, x)
      | _ => fun _ => None
      end x
  end.

Definition voiceCall (en : Entry)
  : option (AudioFeatures.t * Outcome (option VoiceEmotions.t)) :=
  match en with
  | Logged ev x =>
      match ev in Event X return X -> option _ with
      | voiceEmotionPrompt a => fun x => Some (a, x)
      | _ => fun _ => None
      end x
  end.

Definition textCall (en : Entry)
  : option (string * option string * Outcome (option TextEmotions.t)) :=
  match en with
  | Logged ev x =>
      match ev in Event X return X -> option _ with
      | textEmotionPrompt t c => fun x => Some (t, c, x)
      | _ => fun _ => None
      end x
  end.

Definition fusionCall (en : Entry)
  : option (option (Text FacialEmotions.t) * option (Text VoiceEmotions.t)
            * option (Text TextEmotions.t) * Outcome (option FusionOutput.t)) :=
  match en with
  | Logged ev x =>
      match ev in Event X return X -> option _ with
      | multimodalFusionPrompt f v t => fun x => Some (f, v, t, x)
      | _ => fun _ => None
      end x
  end.

Definition facialCalls := select facialCall.
Definition voiceCalls := select voiceCall.
Definition textCalls := select textCall.
Definition fusionCalls := select fusionCall.

(** The signals that pass the guards [if (input.imageData)] and
    [if (input.textContent)]: a string that is present and not empty. *)
Definition facialSignal (input : EmotionAnalysisInput.t) : option string :=
  match EmotionAnalysisInput.imageData input with
  | Some imageData => if truthy_string imageData then Some imageData else None
  | None => None
  end.

Definition textSignal (input : EmotionAnalysisInput.t) : option string :=
  match EmotionAnalysisInput.textContent input with
  | Some textContent => if truthy_string textContent then Some textContent else None
  | None => None
  end.

Definition asList {A} (a : option A) : list A :=
  match a with Some x => [x] | None => [] end.

(** What the calls of one analyzer left in [results]: the output of the
    call when it resolved with one, nothing otherwise. *)
Definition heard {I A} (calls : list (I * Outcome (option A))) : option A :=
  match calls with
  | (_, Resolved v) :: _ => v
  | _ => None
  end.

(** Only the voice analyzer answers; the fusion answers too. *)
Definition voiceOnly (v : VoiceEmotions.t) : Script.t :=
  Script.Build (Rejected timeout) (Resolved (Some v)) (Resolved None)
    (Resolved (Some sampleFusion)) (Rejected timeout) (Rejected timeout)
    (Rejected timeout) (Rejected timeout) (Rejected timeout) 0%Q
    "2025-01-01T00:00:00.000Z" "uuid-1".

(* ================================================================== *)
(** * The performance monitor (utils/performance-monitor) *)
(* ================================================================== *)

Module PerformanceMetric.
Record t : Type := Build {
  operation : string;
  startTime : number;
  endTime : option number;
  duration : option number;
  success : bool;
  cacheHit : option bool;
  error : option string }.
End PerformanceMetric.

Module Stats.
Record t : Type := Build {
  totalOperations : number;
  averageTime : number;
  successRate : number;
  cacheHitRate : number;
  fastestTime : number;
  slowestTime : number }.
End Stats.

Module Trends.
Record t : Type := Build {
  improving : bool;
  recentAverage : number;
  previousAverage : number }.
End Trends.

(** [s.split('_')[0]]: the part of [s] before its first underscore. *)
Fixpoint split_head (s : string) : string :=
  match s with
  | EmptyString => EmptyString
  | String c r => if Ascii.eqb c "_" then EmptyString else String c (split_head r)
  end.

(** [arr.filter(p).pop()] followed by assignments to the fields of the
    object it returns: that object is the last element of [arr] that
    satisfies [p], and it is changed where it stands. The result is the
    changed object and the array, or nothing when [pop] gives undefined. *)
Fixpoint updateLast {A} (p : A -> bool) (f : A -> A) (l : list A) : option (A * list A) :=
  match l with
  | [] => None
  | x :: r =>
      match updateLast p f r with
      | Some (y, r') => Some (y, x :: r')
      | None => if p x then Some (f x, f x :: r) else None
      end
  end.


Module PerformanceMonitor.

(** The field [metrics] of the monitor. The clock [performance.now()] and the
    texts of [Date.now()] and [Math.random()] are arguments of the methods
    that read them. *)
Definition t : Type := list PerformanceMetric.t.

Definition maxMetrics : nat := 100.

Definition startTiming (operation now random : string) (performance_now : number)
  (metrics : t) : string * t :=
  let id := (operation ++ "_" ++ now ++ "_" ++ random)%string in
  let metric :=
    PerformanceMetric.Build operation performance_now None None false None None in
  let metrics := metrics ++ [metric] in
  let metrics :=
    if Nat.ltb maxMetrics (length metrics) then slice_last maxMetrics metrics
    else metrics in
  (id, metrics).

(** [m.operation === operationName && !m.endTime]. *)
Definition unfinished (operationName : string) (m : PerformanceMetric.t) : bool :=
  (PerformanceMetric.operation m =? operationName)
  && negb (match PerformanceMetric.endTime m with
           | Some t => truthy_number t
           | None => false
           end).

Definition finish (endTime : number) (success cacheHit : bool) (error : option string)
  (metric : PerformanceMetric.t) : PerformanceMetric.t :=
  PerformanceMetric.Build
    (PerformanceMetric.operation metric)
    (PerformanceMetric.startTime metric)
    (Some endTime)
    (Some (endTime - PerformanceMetric.startTime metric)%Q)
    success
    (Some cacheHit)
    error.

Definition endTiming (id : string) (success cacheHit : bool) (error : option string)
  (performance_now : number) (metrics : t) : number * t :=
  let endTime := performance_now in
  let operationName := split_head id in
  match updateLast (unfinished operationName) (finish endTime success cacheHit error)
          metrics with
  | Some (metric, metrics) =>
      (match PerformanceMetric.duration metric with Some d => d | None => 0%Q end,
       metrics)
  | None => (0%Q, metrics)
  end.

(** [m.duration] as a condition, and [m.duration!] as a value. *)
Definition hasDuration (m : PerformanceMetric.t) : bool :=
  match PerformanceMetric.duration m with
  | Some d => truthy_number d
  | None => false
  end.

Definition durationOf (m : PerformanceMetric.t) : number :=
  match PerformanceMetric.duration m with Some d => d | None => 0%Q end.


Definition clear (metrics : t) : t := [].

(** The statistics add, divide and multiply doubles, and each of these
    operations rounds its exact result. The three operations of the doubles
    are the parameters [plus], [div] and [times] of this section, of which
    nothing is assumed; the counts, the comparisons and [Math.min] and
    [Math.max], which select one of their arguments, are exact. *)
Section Rounded.

Variable plus : number -> number -> number.
Variable div : number -> number -> number.
Variable times : number -> number -> number.


(** [l.reduce((a, b) => a + b.duration!, 0) / l.length]. *)
Definition totalDuration (l : t) : number :=
  fold_left (fun a b => plus a (durationOf b)) l 0%Q.

Definition averageOf (l : t) : number := div (totalDuration l) (num (length l)).

Definition getTrends (metrics : t) : Trends.t :=
  let allMetrics := filter hasDuration metrics in
  if Nat.ltb (length allMetrics) 10 then Trends.Build false 0%Q 0%Q
  else
    let half := Nat.div (length allMetrics) 2 in
    let recent := slice_last half allMetrics in
    let previous := slice_first half allMetrics in
    let recentAverage := averageOf recent in
    let previousAverage := averageOf previous in
    Trends.Build (num_lt recentAverage previousAverage) recentAverage previousAverage.

End Rounded.

(** A call of a method that changes the monitor, and the monitor after a
    sequence of calls on the exported instance, which starts empty. *)
Inductive Call : Type :=
| StartTiming (operation now random : string) (performance_now : number)
| EndTiming (id : string) (success cacheHit : bool) (error : option string)
    (performance_now : number)
| Clear.

Definition step (metrics : t) (c : Call) : t :=
  match c with
  | StartTiming operation now random performance_now =>
      snd (startTiming operation now random performance_now metrics)
  | EndTiming id success cacheHit error performance_now =>
      snd (endTiming id success cacheHit error performance_now metrics)
  | Clear => clear metrics
  end.

Definition after (calls : list Call) : t := fold_left step calls [].

End PerformanceMonitor.

(** A metric is open (started, nothing else set) or finished (its duration
    is the end time minus the start time). *)
Definition wellFormed (m : PerformanceMetric.t) : Prop :=
  match PerformanceMetric.endTime m, PerformanceMetric.duration m with
  | None, None =>
      PerformanceMetric.success m = false /\ PerformanceMetric.cacheHit m = None /\
      PerformanceMetric.error m = None
  | Some e, Some d =>
      d = (e - PerformanceMetric.startTime m)%Q /\ PerformanceMetric.cacheHit m <> None
  | _, _ => False
  end.

(** The metrics a call of [endTiming] can complete. *)
Definition openFor (operationName : string) (metrics : PerformanceMonitor.t)
  : list PerformanceMetric.t :=
  filter (PerformanceMonitor.unfinished operationName) metrics.

(* ================================================================== *)
(** * The client cache: its keys (utils/client-cache) *)
(* ================================================================== *)

(** [ToInt32]: the signed 32-bit integer of an integer-valued number. *)
Definition toInt32 (z : Z) : Z := ((z + 2 ^ 31) mod 2 ^ 32 - 2 ^ 31)%Z.

(** [a << n] and [a & b]. Every number of the hash loop is an integer below
    2^53 in size, so the arithmetic on doubles is exact; the numbers of the
    loop are integers ([Z]) here. *)
Definition shiftLeft (a n : Z) : Z := toInt32 (Z.shiftl (toInt32 a) n).
Definition bitAnd (a b : Z) : Z := Z.land (toInt32 a) (toInt32 b).

(** [s.charCodeAt(i)] for every index [i] of [s]. *)
Definition charCodes (s : string) : list Z :=
  map (fun c => Z.of_nat (nat_of_ascii c)) (list_ascii_of_string s).

(** The text of a non-negative integer below 10^21 in a template literal. *)
Definition decimal (z : Z) : string := NilZero.string_of_int (Z.to_int z).

Module ClientCache.

(** The body of the loop of [generateKey]. *)
Definition hashStep (hash char : Z) : Z :=
  let hash := (shiftLeft hash 5 - hash + char)%Z in
  bitAnd hash hash.

Definition hashOf (combined : string) : Z :=
  fold_left hashStep (charCodes combined) 0%Z.

(** [generateKey(userMessage, context)], where [contextString] is the text
    that [context ? JSON.stringify(context) : ''] gives. *)
Definition generateKey (userMessage contextString : string) : string :=
  let combined := (userMessage ++ "_" ++ contextString)%string in
  ("response_" ++ decimal (Z.abs (hashOf combined)))%string.

End ClientCache.

(** The hash [s[0]*31^(n-1) + ... + s[n-1]] of the code units of a string,
    before it is wrapped to 32 bits. *)
Definition polynomial31 (codes : list Z) : Z :=
  fold_left (fun h c => (31 * h + c)%Z) codes 0%Z.

(** ** Sample values *)

Definition calmVoice : VoiceEmotions.t :=
  VoiceEmotions.Build "calm" 0.7%Q [("calm", 0.7%Q)] 0.2%Q 0.5%Q.

Definition voiceAndText : EmotionAnalysisInput.t :=
  EmotionAnalysisInput.Build (Some "")
    (Some (AudioFeatures.Build None None None None None)) (Some "I am fine") None.

Definition finished (operation : string) (startTime endTime : number) (success : bool)
  : PerformanceMetric.t :=
  PerformanceMetric.Build operation startTime (Some endTime)
    (Some (endTime - startTime)%Q) success (Some false) None.

Definition tenAndOne : PerformanceMonitor.t :=
  map (fun k => finished "chat" 0%Q 30%Q true) (seq 0 5)
  ++ [finished "chat" 0%Q 1000%Q true]
  ++ map (fun k => finished "chat" 0%Q 20%Q true) (seq 0 5).

(* ================================================================== *)
(** * Running flows: general lemmas *)
(* ================================================================== *)

Section RunLemmas.

Variable o : Oracle.
Arguments o : clear implicits.

Lemma run_bind {A B} (m : Flow A) (f : A -> Flow B) hist :
  run o (bind m f) hist =
  match run o m hist with
  | (Resolved a, tr) =>
      let (r, tr') := run o (f a) (hist ++ tr) in (r, tr ++ tr')
  | (Rejected e, tr) => (Rejected e, tr)
  end.
Proof.
  revert hist. induction m as [a | e | X ev k IH]; intros hist; simpl.
  - rewrite app_nil_r. destruct (run o (f a) hist); reflexivity.
  - reflexivity.
  - rewrite IH.
    destruct (run o (k (o _ hist ev)) (hist ++ [Logged ev (o _ hist ev)]))
      as [[a | e] tr]; simpl.
    + rewrite <- app_assoc. simpl.
      destruct (run o (f a) (hist ++ Logged ev (o _ hist ev) :: tr)); reflexivity.
    + reflexivity.
Qed.

Lemma run_tryCatch {A} (m : Flow A) (h : Exn -> Flow A) hist :
  run o (tryCatch m h) hist =
  match run o m hist with
  | (Resolved a, tr) => (Resolved a, tr)
  | (Rejected e, tr) =>
      let (r, tr') := run o (h e) (hist ++ tr) in (r, tr ++ tr')
  end.
Proof.
  revert hist. induction m as [a | e | X ev k IH]; intros hist; simpl.
  - reflexivity.
  - rewrite app_nil_r. destruct (run o (h e) hist); reflexivity.
  - rewrite IH.
    destruct (run o (k (o _ hist ev)) (hist ++ [Logged ev (o _ hist ev)]))
      as [[a | e] tr]; simpl.
    + reflexivity.
    + rewrite <- app_assoc. simpl.
      destruct (run o (h e) (hist ++ Logged ev (o _ hist ev) :: tr)); reflexivity.
Qed.

Lemma run_settle {A} (r : Outcome A) hist : run o (settle r) hist = (r, []).
Proof. destruct r; reflexivity. Qed.

Lemma run_await {A} (ev : Event (Outcome A)) hist :
  run o (await ev) hist = (o _ hist ev, [Logged ev (o _ hist ev)]).
Proof.
  unfold await. simpl. rewrite run_settle. reflexivity.
Qed.

Lemma run_trigger {X} (ev : Event X) hist :
  run o (trigger ev) hist = (Resolved (o _ hist ev), [Logged ev (o _ hist ev)]).
Proof. reflexivity. Qed.

Lemma run_recover {A} label (m : Flow (option A)) hist :
  run o (recover label m) hist =
  match run o m hist with
  | (Resolved a, tr) => (Resolved a, tr)
  | (Rejected e, tr) =>
      (Resolved None,
       tr ++ [Logged (console_error label e)
                (o _ (hist ++ tr) (console_error label e))])
  end.
Proof.
  unfold recover. rewrite run_tryCatch.
  destruct (run o m hist) as [[a | e] tr]; reflexivity.
Qed.

(** A recovered computation never throws. *)
Lemma recover_resolves {A} label (m : Flow (option A)) hist :
  exists a, outcome o (recover label m) hist = Resolved a.
Proof.
  unfold outcome. rewrite run_recover.
  destruct (run o m hist) as [[a | e] tr]; simpl; eauto.
Qed.

End RunLemmas.

(** ** Selecting entries *)

Lemma select_app {B} (f : Entry -> option B) (l1 l2 : list Entry) :
  select f (l1 ++ l2) = select f l1 ++ select f l2.
Proof.
  induction l1 as [| en l1 IH]; simpl; [reflexivity |].
  destruct (f en); simpl; rewrite IH; reflexivity.
Qed.

Lemma quiet_select {A B} (f : Entry -> option B) (o : Oracle) (m : Flow A) hist :
  quiet f m -> select f (trace o m hist) = [].
Proof.
  unfold trace. revert hist.
  induction m as [a | e | X ev k IH]; intros hist Hq; simpl; try reflexivity.
  destruct Hq as [Hev Hk].
  specialize (IH (o _ hist ev) (hist ++ [Logged ev (o _ hist ev)]) (Hk _)).
  destruct (run o (k (o _ hist ev)) (hist ++ [Logged ev (o _ hist ev)])) as [r tr].
  simpl in *. rewrite Hev. exact IH.
Qed.

Lemma quiet_bind {A B C} (f : Entry -> option C) (m : Flow A) (k : A -> Flow B) :
  quiet f m -> (forall a, quiet f (k a)) -> quiet f (bind m k).
Proof.
  induction m as [a | e | X ev k' IH]; simpl; intros Hm Hk; auto.
  destruct Hm as [Hev Hk']. split; auto.
Qed.

Lemma quiet_tryCatch {A C} (f : Entry -> option C) (m : Flow A) (h : Exn -> Flow A) :
  quiet f m -> (forall e, quiet f (h e)) -> quiet f (tryCatch m h).
Proof.
  induction m as [a | e | X ev k' IH]; simpl; intros Hm Hh; auto.
  destruct Hm as [Hev Hk']. split; auto.
Qed.

Lemma quiet_settle {A C} (f : Entry -> option C) (r : Outcome A) : quiet f (settle r).
Proof. destruct r; exact I. Qed.

Lemma quiet_await {A C} (f : Entry -> option C) (ev : Event (Outcome A)) :
  (forall x, f (Logged ev x) = None) -> quiet f (await ev).
Proof. intros H. split; [exact H | intros x; apply quiet_settle]. Qed.

Lemma quiet_recover {A C} (f : Entry -> option C) label (m : Flow (option A)) :
  (forall e x, f (Logged (console_error label e) x) = None) ->
  quiet f m -> quiet f (recover label m).
Proof.
  intros Hc Hm. apply quiet_tryCatch; [exact Hm |].
  intros e. simpl. split; [apply Hc | intros; exact I].
Qed.

(* ================================================================== *)
(** * The knowledge matcher: properties *)
(* ================================================================== *)

Section KnowledgeMatcher.

(** The helpers on concrete values. *)
Example slice_last_example : slice_last 3 [1; 2; 3; 4; 5] = [3; 4; 5].
Proof. reflexivity. Qed.

Example slice_last_short : slice_last 3 [1; 2] = [1; 2].
Proof. reflexivity. Qed.

Example Array_from_Set_example : Array_from_Set [4; 5; 4; 1; 5] = [4; 5; 1].
Proof. reflexivity. Qed.

Example includes_example :
  includes (toLowerCase "I feel HOPELESS today") "hopeless" = true /\
  includes (toLowerCase "I am worried") "worry" = false.
Proof. split; reflexivity. Qed.

(** A keyword match and an emotion match, each found once. *)
Example findRelevantKnowledge_anxious :
  findRelevantKnowledge "I am so WORRIED, I think I panic" (Some (emotionalContext_of "sad"))
  = Resolved [item 4; item 5].
Proof. vm_compute. reflexivity. Qed.

(** The entry matched by keyword and by emotion is returned once. *)
Example findRelevantKnowledge_once :
  findRelevantKnowledge_refs "I feel sad" (Some (emotionalContext_of "sad"))
  = Resolved [5].
Proof. vm_compute. reflexivity. Qed.

(** Eight entries match; the first five of the table are returned. *)
Example findRelevantKnowledge_top5 :
  findRelevantKnowledge_refs
    "listening to my thoughts, breathing through a crisis of anxiety, sad about trauma and change"
    None
  = Resolved [0; 1; 2; 3; 4].
Proof. vm_compute. reflexivity. Qed.

(** An unknown label adds nothing; an empty label is no label. *)
Example findRelevantKnowledge_unknown_label :
  findRelevantKnowledge_refs "hello" (Some (emotionalContext_of "bored")) = Resolved [] /\
  findRelevantKnowledge_refs "hello" (Some (emotionalContext_of "")) = Resolved [].
Proof. split; vm_compute; reflexivity. Qed.

Lemma existsb_eqb_In (x : nat) (seen : list nat) :
  existsb (Nat.eqb x) seen = true <-> In x seen.
Proof.
  rewrite existsb_exists. split.
  - intros [y [Hin Heq]]. apply Nat.eqb_eq in Heq. subst. exact Hin.
  - intros Hin. exists x. split; [exact Hin | apply Nat.eqb_refl].
Qed.

Lemma uniq_aux_In seen l x :
  In x (uniq_aux seen l) <-> In x l /\ ~ In x seen.
Proof.
  revert seen. induction l as [| y l IH]; intros seen; simpl.
  - tauto.
  - destruct (existsb (Nat.eqb y) seen) eqn:E.
    + apply existsb_eqb_In in E. rewrite IH. split.
      * intros [H1 H2]. auto.
      * intros [[H1 | H1] H2]; [subst; contradiction | auto].
    + assert (Hy : ~ In y seen).
      { intros H. apply existsb_eqb_In in H. congruence. }
      simpl. rewrite IH. simpl. split.
      * intros [H | [H1 H2]]; [subst; auto | split; auto].
      * intros [[H1 | H1] H2]; [auto |].
        destruct (Nat.eq_dec y x) as [-> | Hne]; [auto |].
        right. split; [exact H1 |]. intros [H | H]; auto.
Qed.

Lemma uniq_aux_NoDup seen l : NoDup (uniq_aux seen l).
Proof.
  revert seen. induction l as [| y l IH]; intros seen; simpl.
  - constructor.
  - destruct (existsb (Nat.eqb y) seen) eqn:E; [apply IH |].
    constructor; [| apply IH].
    rewrite uniq_aux_In. simpl. intros [_ H]. apply H. left. reflexivity.
Qed.

Lemma Array_from_Set_In l x : In x (Array_from_Set l) <-> In x l.
Proof. unfold Array_from_Set. rewrite uniq_aux_In. simpl. tauto. Qed.

Lemma Array_from_Set_NoDup l : NoDup (Array_from_Set l).
Proof. apply uniq_aux_NoDup. Qed.

(** A list without repetition is left as it is. *)
Lemma uniq_aux_id seen l :
  NoDup l -> (forall x, In x l -> ~ In x seen) -> uniq_aux seen l = l.
Proof.
  revert seen. induction l as [| y l IH]; intros seen Hnd Hdis; simpl.
  - reflexivity.
  - inversion Hnd as [| ? ? Hy Hl]; subst.
    destruct (existsb (Nat.eqb y) seen) eqn:E.
    + apply existsb_eqb_In in E. exfalso. apply (Hdis y); simpl; auto.
    + f_equal. apply IH; [exact Hl |].
      intros x Hx [H | H]; [subst; contradiction |].
      apply (Hdis x); simpl; auto.
Qed.

Lemma slice_first_length {A} n (l : list A) : length (slice_first n l) <= n.
Proof. unfold slice_first. rewrite length_firstn. lia. Qed.

Lemma slice_first_NoDup {A} n (l : list A) : NoDup l -> NoDup (slice_first n l).
Proof.
  unfold slice_first. intros H. rewrite <- (firstn_skipn n l) in H.
  exact (NoDup_app_remove_r _ _ H).
Qed.

Lemma slice_first_In {A} n (l : list A) x : In x (slice_first n l) -> In x l.
Proof.
  unfold slice_first. intros H. rewrite <- (firstn_skipn n l).
  apply in_or_app. left. exact H.
Qed.

Lemma slice_first_all {A} n (l : list A) : length l <= n -> slice_first n l = l.
Proof. unfold slice_first. apply firstn_all2. Qed.

Lemma kb_filter_In p r :
  In r (kb_filter p) <-> r < length therapeuticKnowledgeBase /\ p (item r) = true.
Proof.
  unfold kb_filter, kb_refs. rewrite filter_In, in_seq. simpl. intuition lia.
Qed.

Lemma topic_of_injective r1 r2 :
  r1 < length therapeuticKnowledgeBase -> r2 < length therapeuticKnowledgeBase ->
  topic_of r1 = topic_of r2 -> r1 = r2.
Proof.
  intros H1 H2 Heq.
  assert (Hall : forallb (fun x => forallb (fun y =>
                   implb (topic_of x =? topic_of y) (Nat.eqb x y)) kb_refs) kb_refs
                 = true) by (vm_compute; reflexivity).
  rewrite forallb_forall in Hall.
  assert (Hr1 : In r1 kb_refs) by (apply in_seq; simpl in *; lia).
  assert (Hr2 : In r2 kb_refs) by (apply in_seq; simpl in *; lia).
  specialize (Hall r1 Hr1). rewrite forallb_forall in Hall.
  specialize (Hall r2 Hr2). rewrite Heq, String.eqb_refl in Hall.
  simpl in Hall. apply Nat.eqb_eq. exact Hall.
Qed.

Lemma collectKnowledge_In message emotionalContext all r :
  collectKnowledge message emotionalContext = Resolved all ->
  (In r all <-> selected message emotionalContext r).
Proof.
  unfold collectKnowledge, selected.
  destruct (currentEmotion_truthy emotionalContext) as [label |].
  - destruct (emotionKeywords_get label) as [keys | |] eqn:Eget;
      intros H; inversion H; subst; clear H.
    + rewrite in_app_iff, !kb_filter_In. split.
      * intros [[H1 H2] | [H1 H2]]; split; auto.
        right. exists label, keys. auto.
      * intros [H1 [H2 | [l' [k' [Hl [Hk Hm]]]]]]; [left; auto |].
        inversion Hl; subst. rewrite Eget in Hk. inversion Hk; subst.
        right; auto.
    + rewrite in_app_iff, !kb_filter_In. split.
      * intros [[H1 H2] | [H1 H2]]; [split; auto |].
        simpl in H2. discriminate.
      * intros [H1 [H2 | [l' [k' [Hl [Hk Hm]]]]]]; [left; auto |].
        inversion Hl; subst. rewrite Eget in Hk. discriminate.
  - intros H; inversion H; subst; clear H.
    rewrite kb_filter_In. split.
    + intros [H1 H2]. auto.
    + intros [H1 [H2 | [l' [k' [Hl _]]]]]; [auto | discriminate].
Qed.

(** The contract of the matcher wherever it returns: at most five
    references, none twice (by reference and by topic), each of them
    selected, and every selected entry returned unless five others were
    found before it. *)
Lemma findRelevantKnowledge_contract message emotionalContext refs :
  findRelevantKnowledge_refs message emotionalContext = Resolved refs ->
  length refs <= 5 /\
  NoDup refs /\
  NoDup (map topic_of refs) /\
  (forall r, In r refs -> selected message emotionalContext r) /\
  (forall r, selected message emotionalContext r -> In r refs \/ length refs = 5).
Proof.
  unfold findRelevantKnowledge_refs.
  destruct (collectKnowledge message emotionalContext) as [all | e] eqn:Ecol;
    [intros H | discriminate].
  injection H as H.
  change (slice_first 5 (Array_from_Set all) = refs) in H. subst refs.
  assert (Hsel : forall r, In r (slice_first 5 (Array_from_Set all)) ->
                           selected message emotionalContext r).
  { intros r Hr. apply slice_first_In in Hr.
    rewrite Array_from_Set_In in Hr.
    apply (collectKnowledge_In _ _ r Ecol). exact Hr. }
  assert (Hnd : NoDup (slice_first 5 (Array_from_Set all)))
    by (apply slice_first_NoDup, Array_from_Set_NoDup).
  split; [apply slice_first_length |].
  split; [exact Hnd |].
  split.
  { apply NoDup_map_NoDup_ForallPairs; [| exact Hnd].
    intros x y Hx Hy Heq.
    apply topic_of_injective; [apply (Hsel x Hx) | apply (Hsel y Hy) | exact Heq]. }
  split; [exact Hsel |].
  intros r Hr. apply (collectKnowledge_In _ _ r Ecol) in Hr.
  rewrite <- Array_from_Set_In in Hr.
  destruct (Nat.le_gt_cases (length (Array_from_Set all)) 5) as [Hle | Hgt].
  - left. rewrite slice_first_all; assumption.
  - right. unfold slice_first. rewrite length_firstn. lia.
Qed.

(** The matcher returns unless the emotion label names a property that
    object literals inherit. *)
Lemma findRelevantKnowledge_returns message emotionalContext :
  (forall label, currentEmotion_truthy emotionalContext = Some label ->
                 array_includes Object_prototype_keys label = false) ->
  exists refs, findRelevantKnowledge_refs message emotionalContext = Resolved refs.
Proof.
  intros Hlabel. unfold findRelevantKnowledge_refs, collectKnowledge.
  destruct (currentEmotion_truthy emotionalContext) as [label |]; [| eauto].
  specialize (Hlabel label eq_refl).
  unfold emotionKeywords_get.
  destruct (find _ emotionKeywords); [eauto |].
  rewrite Hlabel. eauto.
Qed.

End KnowledgeMatcher.

(* ================================================================== *)
(** * The stages, run *)
(* ================================================================== *)

Ltac quiet_step :=
  match goal with
  | |- quiet _ (bind _ _) => apply quiet_bind
  | |- quiet _ (recover _ _) => apply quiet_recover
  | |- quiet _ (await _) => apply quiet_await
  | |- quiet _ (settle _) => apply quiet_settle
  | |- quiet _ (Ret _) => exact I
  | |- quiet _ (Throw _) => exact I
  | |- quiet _ (match ?x with _ => _ end) => destruct x
  | |- forall _, _ => intro
  end.

Lemma quiet_analyzeEmotions {B} (f : Entry -> option B) input :
  skips_emotion f -> quiet f (analyzeEmotions input).
Proof.
  intros (Hf & Hv & Ht & Hm & Hc).
  unfold analyzeEmotions, emotionAnalysisFlow, facialStage, voiceStage, textStage, fuse.
  repeat quiet_step; auto.
Qed.

Lemma quiet_emotionStep {B} (f : Entry -> option B) input :
  skips_emotion f -> quiet f (emotionStep input).
Proof.
  intros Hs. unfold emotionStep.
  apply quiet_recover; [apply Hs |].
  apply quiet_bind; [apply quiet_analyzeEmotions; exact Hs | intros; exact I].
Qed.

Lemma quiet_manageContext {B} (f : Entry -> option B) input :
  skips_context f -> quiet f (manageContext input).
Proof.
  intros (Hi & Hc & He).
  unfold manageContext, contextManagementFlow.
  repeat quiet_step; auto.
Qed.

Lemma quiet_contextStep {B} (f : Entry -> option B) input ea ha :
  skips_context f -> quiet f (contextStep input ea ha).
Proof.
  intros Hs. unfold contextStep.
  apply quiet_recover; [apply Hs |].
  apply quiet_bind; [apply quiet_manageContext; exact Hs | intros; exact I].
Qed.

Lemma skips_emotion_safetyCall : skips_emotion safetyCall.
Proof. repeat split. Qed.
Lemma skips_emotion_responseCall : skips_emotion responseCall.
Proof. repeat split. Qed.
Lemma skips_emotion_intentCall : skips_emotion intentCall.
Proof. repeat split. Qed.
Lemma skips_emotion_contextCall : skips_emotion contextCall.
Proof. repeat split. Qed.
Lemma skips_emotion_randomCall : skips_emotion randomCall.
Proof. repeat split. Qed.
Lemma skips_context_safetyCall : skips_context safetyCall.
Proof. repeat split. Qed.
Lemma skips_context_responseCall : skips_context responseCall.
Proof. repeat split. Qed.
Lemma skips_context_randomCall : skips_context randomCall.
Proof. repeat split. Qed.

(** ** The context-management flow, step by step *)

Section ManageContext.

Variable o : Oracle.
Arguments o : clear implicits.

Lemma run_manageContext input hist :
  run o (manageContext input) hist =
  let a1 := o _ hist (intentEvent input) in
  let l1 := Logged (intentEvent input) a1 in
  match a1 with
  | Rejected e => (Rejected e, [l1])
  | Resolved intentResult =>
      match knowledgeFor input with
      | Rejected e => (Rejected e, [l1])
      | Resolved relevantKnowledge =>
          let a2 := o _ (hist ++ [l1]) (contextAnalysisPrompt input) in
          let l2 := Logged (contextAnalysisPrompt input) a2 in
          match a2 with
          | Rejected e => (Rejected e, [l1; l2])
          | Resolved None =>
              (Rejected (Error "Context analysis failed to produce results"), [l1; l2])
          | Resolved (Some contextResult) =>
              match intentResult with
              | None =>
                  (Rejected (Error "Intent classification failed to produce results"),
                   [l1; l2])
              | Some intentResult =>
                  (Resolved (enhance contextResult relevantKnowledge intentResult),
                   [l1; l2])
              end
          end
      end
  end.
Proof.
  unfold manageContext, contextManagementFlow, knowledgeFor.
  fold (intentEvent input).
  rewrite run_bind, run_await.
  destruct (o _ hist (intentEvent input)) as [intentResult | e] eqn:E1; [| reflexivity].
  cbv zeta. rewrite run_bind, run_settle.
  destruct (findRelevantKnowledge _ _) as [kb | e] eqn:E2; [| reflexivity].
  rewrite app_nil_r, run_bind, run_await.
  destruct (o _ (hist ++ _) (contextAnalysisPrompt input)) as [[cr |] | e] eqn:E3;
    try reflexivity.
  destruct intentResult; reflexivity.
Qed.

End ManageContext.

(** ** The emotion-analysis flow, step by step *)

Section AnalyzeEmotions.

Variable o : Oracle.
Arguments o : clear implicits.

Lemma run_recover_resolved {A} label (m : Flow (option A)) hist :
  exists a tr, run o (recover label m) hist = (Resolved a, tr).
Proof.
  rewrite run_recover. destruct (run o m hist) as [[a | e] tr]; eauto.
Qed.

Lemma run_facialStage input hist :
  exists v tr, run o (facialStage input) hist = (Resolved v, tr) /\
               (hasSignal input = false -> v = None /\ tr = []).
Proof.
  unfold facialStage, hasSignal.
  destruct (EmotionAnalysisInput.imageData input) as [img |].
  - destruct (truthy_string img).
    + destruct (run_recover_resolved "Facial emotion analysis failed:"
                  (await (facialEmotionPrompt img)) hist) as (v & tr & H).
      exists v, tr. split; [exact H | simpl; discriminate].
    + exists None, []. split; [reflexivity | auto].
  - exists None, []. split; [reflexivity | auto].
Qed.

Lemma run_voiceStage input hist :
  exists v tr, run o (voiceStage input) hist = (Resolved v, tr) /\
               (hasSignal input = false -> v = None /\ tr = []).
Proof.
  unfold voiceStage, hasSignal.
  destruct (EmotionAnalysisInput.audioFeatures input) as [af |].
  - destruct (run_recover_resolved "Voice emotion analysis failed:"
                (await (voiceEmotionPrompt af)) hist) as (v & tr & H).
    exists v, tr. split; [exact H |].
    simpl. rewrite orb_true_r. discriminate.
  - exists None, []. split; [reflexivity | auto].
Qed.

Lemma run_textStage input hist :
  exists v tr, run o (textStage input) hist = (Resolved v, tr) /\
               (hasSignal input = false -> v = None /\ tr = []).
Proof.
  unfold textStage, hasSignal.
  destruct (EmotionAnalysisInput.textContent input) as [txt |].
  - destruct (truthy_string txt).
    + destruct (run_recover_resolved "Text emotion analysis failed:"
                  (await (textEmotionPrompt txt
                            (EmotionAnalysisInput.conversationHistory input))) hist)
        as (v & tr & H).
      exists v, tr. split; [exact H |].
      rewrite orb_true_r. discriminate.
    + exists None, []. split; [reflexivity | auto].
  - exists None, []. split; [reflexivity | auto].
Qed.

Lemma run_fuse facial voice text fusionResult hist :
  run o (fuse facial voice text fusionResult) hist =
  (match fusionResult with
   | Some f =>
       Resolved (EmotionAnalysisOutput.Build facial voice text (fusedRecord f)
                   (FusionOutput.recommendations f) (FusionOutput.avatarExpression f))
   | None => Rejected (TypeError "Cannot read properties of null (reading 'primary')")
   end, []).
Proof. destruct fusionResult; reflexivity. Qed.

(** The flow runs the analyzers, which never throw, then calls the fusion
    prompt, whatever the analyzers gave, and settles as that call and the
    unguarded reads of its output decide. *)
Lemma run_analyzeEmotions input hist :
  exists facial voice text tr,
    let ans := o _ (hist ++ tr) (fusionEvent facial voice text) in
    run o (analyzeEmotions input) hist =
    (match ans with
     | Resolved (Some f) =>
         Resolved (EmotionAnalysisOutput.Build facial voice text (fusedRecord f)
                     (FusionOutput.recommendations f)
                     (FusionOutput.avatarExpression f))
     | Resolved None =>
         Rejected (TypeError "Cannot read properties of null (reading 'primary')")
     | Rejected e => Rejected e
     end,
     tr ++ [Logged (fusionEvent facial voice text) ans]) /\
    (hasSignal input = false ->
     facial = None /\ voice = None /\ text = None /\ tr = []).
Proof.
  unfold analyzeEmotions, emotionAnalysisFlow.
  destruct (run_facialStage input hist) as (facial & tr1 & H1 & Z1).
  destruct (run_voiceStage input (hist ++ tr1)) as (voice & tr2 & H2 & Z2).
  destruct (run_textStage input ((hist ++ tr1) ++ tr2)) as (text & tr3 & H3 & Z3).
  exists facial, voice, text, (tr1 ++ tr2 ++ tr3).
  split.
  - rewrite run_bind, H1. rewrite run_bind, H2. rewrite run_bind, H3.
    rewrite run_bind, run_await. fold (fusionEvent facial voice text).
    replace (hist ++ tr1 ++ tr2 ++ tr3) with (((hist ++ tr1) ++ tr2) ++ tr3)
      by (rewrite <- !app_assoc; reflexivity).
    destruct (o _ (((hist ++ tr1) ++ tr2) ++ tr3) (fusionEvent facial voice text))
      as [fr | e]; cbv zeta.
    + rewrite run_fuse. rewrite <- !app_assoc.
      destruct fr; rewrite ?app_nil_r; reflexivity.
    + rewrite <- !app_assoc. reflexivity.
  - intros Hz. destruct (Z1 Hz) as [-> ->]. destruct (Z2 Hz) as [-> ->].
    destruct (Z3 Hz) as [-> ->]. auto.
Qed.

End AnalyzeEmotions.

(** ** The comprehensive flow, step by step *)

Section Comprehensive.

Variable o : Oracle.
Arguments o : clear implicits.

Lemma run_healthStep hist :
  run o healthStep hist =
  (Resolved (Some (minimalHealthAnalysis (o _ hist Math_random))),
   [Logged Math_random (o _ hist Math_random)]).
Proof. reflexivity. Qed.

Lemma run_emotionStep input hist :
  run o (emotionStep input) hist =
  match run o (analyzeEmotions (emotionInput input)) hist with
  | (Resolved ea, tr) => (Resolved (Some ea), tr)
  | (Rejected e, tr) =>
      (Resolved None,
       tr ++ [Logged (console_error "Emotion analysis failed:" e)
                (o _ (hist ++ tr) (console_error "Emotion analysis failed:" e))])
  end.
Proof.
  unfold emotionStep. rewrite run_recover, run_bind.
  destruct (run o (analyzeEmotions (emotionInput input)) hist) as [[ea | e] tr];
    simpl; rewrite ?app_nil_r; reflexivity.
Qed.

Lemma run_contextStep input ea ha hist :
  run o (contextStep input ea ha) hist =
  match run o (manageContext (contextInput input ea ha)) hist with
  | (Resolved cg, tr) => (Resolved (Some cg), tr)
  | (Rejected e, tr) =>
      (Resolved None,
       tr ++ [Logged (console_error "Context management failed:" e)
                (o _ (hist ++ tr) (console_error "Context management failed:" e))])
  end.
Proof.
  unfold contextStep. rewrite run_recover, run_bind.
  destruct (run o (manageContext (contextInput input ea ha)) hist) as [[cg | e] tr];
    simpl; rewrite ?app_nil_r; reflexivity.
Qed.

(** The shape of every run: the timestamp, the two recovered stages around
    the [Math.random] of the health stub, the safety call, and, when that
    resolves, the response call; the merge when both resolve. *)
Lemma run_comprehensive input hist :
  exists ts ea tre rnd cg trc sa,
    let h1 := hist ++ [Logged Date_toISOString ts] in
    let ha := Some (minimalHealthAnalysis rnd) in
    let h3 := (h1 ++ tre) ++ [Logged Math_random rnd] in
    let si := safetyInput input ea in
    let pre := Logged Date_toISOString ts :: tre ++ Logged Math_random rnd :: trc in
    ts = o _ hist Date_toISOString /\
    run o (emotionStep input) h1 = (Resolved ea, tre) /\
    run o (contextStep input ea ha) h3 = (Resolved cg, trc) /\
    match sa with
    | Rejected e =>
        run o (comprehensiveMitrFlow input) hist =
        (Rejected e, pre ++ [Logged (safetyAssessmentPrompt si) (Rejected e)])
    | Resolved so =>
        let ri := responseInput input ea cg so in
        exists ra,
          run o (comprehensiveMitrFlow input) hist =
          (match ra with
           | Resolved ro => Resolved (compileResponse ts ea ha cg so ro)
           | Rejected e => Rejected e
           end,
           pre ++ [Logged (safetyAssessmentPrompt si) (Resolved so);
                   Logged (therapeuticResponsePrompt ri) ra])
    end.
Proof.
  unfold comprehensiveMitrFlow.
  set (ts := o _ hist Date_toISOString).
  destruct (run_recover_resolved o "Emotion analysis failed:"
              (emotionAnalysis <- analyzeEmotions (emotionInput input) ;;
               Ret (Some emotionAnalysis))
              (hist ++ [Logged Date_toISOString ts])) as (ea & tre & He).
  fold (emotionStep input) in He.
  set (h2 := (hist ++ [Logged Date_toISOString ts]) ++ tre) in *.
  set (rnd := o _ h2 Math_random).
  set (ha := Some (minimalHealthAnalysis rnd)).
  destruct (run_recover_resolved o "Context management failed:"
              (contextualGuidance <- manageContext (contextInput input ea ha) ;;
               Ret (Some contextualGuidance))
              (h2 ++ [Logged Math_random rnd])) as (cg & trc & Hc).
  fold (contextStep input ea ha) in Hc.
  set (h4 := (h2 ++ [Logged Math_random rnd]) ++ trc) in *.
  set (sa := o _ h4 (safetyAssessmentPrompt (safetyInput input ea))).
  exists ts, ea, tre, rnd, cg, trc, sa.
  cbv zeta. fold h2. split; [reflexivity |]. split; [exact He |]. split; [exact Hc |].
  assert (Hrun : forall ra,
    ra = (match sa with
          | Resolved so =>
              o _ (h4 ++ [Logged (safetyAssessmentPrompt (safetyInput input ea)) sa])
                (therapeuticResponsePrompt (responseInput input ea cg so))
          | Rejected e => Rejected e
          end) ->
    run o (comprehensiveMitrFlow input) hist =
    match sa with
    | Resolved so =>
        (match ra with
         | Resolved ro => Resolved (compileResponse ts ea ha cg so ro)
         | Rejected e => Rejected e
         end,
         (Logged Date_toISOString ts :: tre ++ Logged Math_random rnd :: trc)
         ++ [Logged (safetyAssessmentPrompt (safetyInput input ea)) (Resolved so);
             Logged (therapeuticResponsePrompt (responseInput input ea cg so)) ra])
    | Rejected e =>
        ((Rejected e : Outcome ComprehensiveMitrOutput.t),
         (Logged Date_toISOString ts :: tre ++ Logged Math_random rnd :: trc)
         ++ [Logged (safetyAssessmentPrompt (safetyInput input ea)) (Rejected e)])
    end).
  { intros ra Hra. unfold comprehensiveMitrFlow.
    rewrite run_bind, run_trigger. fold ts.
    rewrite run_bind, He. fold h2.
    rewrite run_bind, run_healthStep. fold rnd. fold ha.
    rewrite run_bind, Hc. fold h4.
    rewrite run_bind, run_await. fold sa.
    destruct sa as [so | e].
    - rewrite run_bind, run_await. subst ra.
      destruct (o _ _ (therapeuticResponsePrompt (responseInput input ea cg so)))
        as [ro | e]; simpl; rewrite <- ?app_assoc; simpl;
        rewrite <- ?app_assoc; reflexivity.
    - simpl. rewrite <- ?app_assoc. simpl. rewrite <- ?app_assoc. reflexivity. }
  destruct sa as [so | e] eqn:Esa.
  - eexists. apply Hrun. reflexivity.
  - apply (Hrun (Rejected e)). reflexivity.
Qed.

End Comprehensive.

(** What the claims about the comprehensive flow need of a run, read off
    its trace: the calls of the two unguarded prompts, the [Math.random] of
    the health stub, and how the run settles. *)
Lemma comprehensive_digest (o : Oracle) input hist :
  exists ts ea tre rnd cg trc sa ra,
    let h1 := hist ++ [Logged Date_toISOString ts] in
    let ha := Some (minimalHealthAnalysis rnd) in
    let h3 := (h1 ++ tre) ++ [Logged Math_random rnd] in
    let tr := trace o (comprehensiveMitrFlow input) hist in
    ts = o _ hist Date_toISOString /\
    run o (emotionStep input) h1 = (Resolved ea, tre) /\
    run o (contextStep input ea ha) h3 = (Resolved cg, trc) /\
    safetyCalls tr = [(safetyInput input ea, sa)] /\
    responseCalls tr =
      match sa with
      | Resolved so => [(responseInput input ea cg so, ra)]
      | Rejected _ => []
      end /\
    randomCalls tr = [rnd] /\
    intentCalls tr = intentCalls trc /\
    contextCalls tr = contextCalls trc /\
    outcome o (comprehensiveMitrFlow input) hist =
      match sa with
      | Resolved so =>
          match ra with
          | Resolved ro => Resolved (compileResponse ts ea ha cg so ro)
          | Rejected e => Rejected e
          end
      | Rejected e => Rejected e
      end.
Proof.
  destruct (run_comprehensive o input hist)
    as (ts & ea & tre & rnd & cg & trc & sa & Hts & He & Hc & Hrun).
  cbv zeta in He, Hc, Hrun.
  pose proof (quiet_select safetyCall o (emotionStep input)
                (hist ++ [Logged Date_toISOString ts])
                (quiet_emotionStep _ skips_emotion_safetyCall)) as Qes.
  pose proof (quiet_select responseCall o (emotionStep input)
                (hist ++ [Logged Date_toISOString ts])
                (quiet_emotionStep _ skips_emotion_responseCall)) as Qer.
  pose proof (quiet_select randomCall o (emotionStep input)
                (hist ++ [Logged Date_toISOString ts])
                (quiet_emotionStep _ skips_emotion_randomCall)) as Qea.
  pose proof (quiet_select intentCall o (emotionStep input)
                (hist ++ [Logged Date_toISOString ts])
                (quiet_emotionStep _ skips_emotion_intentCall)) as Qei.
  pose proof (quiet_select contextCall o (emotionStep input)
                (hist ++ [Logged Date_toISOString ts])
                (quiet_emotionStep _ skips_emotion_contextCall)) as Qec.
  pose proof (quiet_select safetyCall o
                (contextStep input ea (Some (minimalHealthAnalysis rnd)))
                (((hist ++ [Logged Date_toISOString ts]) ++ tre) ++ [Logged Math_random rnd])
                (quiet_contextStep _ _ _ skips_context_safetyCall)) as Qcs.
  pose proof (quiet_select responseCall o
                (contextStep input ea (Some (minimalHealthAnalysis rnd)))
                (((hist ++ [Logged Date_toISOString ts]) ++ tre) ++ [Logged Math_random rnd])
                (quiet_contextStep _ _ _ skips_context_responseCall)) as Qcr.
  pose proof (quiet_select randomCall o
                (contextStep input ea (Some (minimalHealthAnalysis rnd)))
                (((hist ++ [Logged Date_toISOString ts]) ++ tre) ++ [Logged Math_random rnd])
                (quiet_contextStep _ _ _ skips_context_randomCall)) as Qca.
  unfold trace in *. rewrite He in Qes, Qer, Qea, Qei, Qec.
  rewrite Hc in Qcs, Qcr, Qca. simpl in Qes, Qer, Qea, Qei, Qec, Qcs, Qcr, Qca.
  destruct sa as [so | e].
  - destruct Hrun as [ra Hrun].
    exists ts, ea, tre, rnd, cg, trc, (Resolved so), ra.
    cbv zeta. unfold outcome, safetyCalls, responseCalls, randomCalls, intentCalls,
      contextCalls. rewrite Hrun. simpl.
    rewrite ?select_app. simpl. rewrite ?select_app. simpl.
    rewrite Qes, Qer, Qea, Qei, Qec, Qcs, Qcr, Qca. simpl.
    rewrite ?app_nil_r. repeat split; auto.
  - exists ts, ea, tre, rnd, cg, trc, (Rejected e), (Rejected e).
    cbv zeta. unfold outcome, safetyCalls, responseCalls, randomCalls, intentCalls,
      contextCalls. rewrite Hrun. simpl.
    rewrite ?select_app. simpl. rewrite ?select_app. simpl.
    rewrite Qes, Qer, Qea, Qei, Qec, Qcs, Qcr, Qca. simpl.
    rewrite ?app_nil_r. repeat split; auto.
Qed.

(* ================================================================== *)
(** * Claims *)
(* ================================================================== *)

(** ** The chat interface *)

Lemma run_handleSendMessageWith (o : Oracle) request ui history text hist :
  exists ui' tr',
    run o (handleSendMessageWith request ui history text) hist = (Resolved ui', tr') /\
    match run o (request (fastInputOf text history)) hist with
    | (Resolved aiOutput, tr) =>
        exists id timestamp, ui' = onFinally (onResponse ui aiOutput id timestamp)
    | (Rejected e, tr) =>
        exists id timestamp, ui' = onFinally (onError ui id timestamp)
    end.
Proof.
  unfold handleSendMessageWith. cbv zeta.
  rewrite run_bind, run_tryCatch, run_bind.
  destruct (run o (request (fastInputOf text history)) hist) as [[aiOutput | e] tr].
  - simpl. do 2 eexists. split; [reflexivity |]. do 2 eexists. reflexivity.
  - simpl. do 2 eexists. split; [reflexivity |]. do 2 eexists. reflexivity.
Qed.

(** C1. For every response that the chat interface consumes: when its
    [safetyAssessment.riskLevel] is ['critical'] the handler shows the
    destructive toast "CRITICAL Risk Detected" with the concerns, and for
    every other risk level it shows no toast at all. *)
Theorem critical_risk_raises_alert (o : Oracle) request ui history text hist aiOutput tr :
  run o (request (fastInputOf text history)) hist = (Resolved aiOutput, tr) ->
  exists ui',
    outcome o (handleSendMessageWith request ui history text) hist = Resolved ui' /\
    let assessment := FastMitrOutput.safetyAssessment aiOutput in
    (SafetyAssessment.riskLevel assessment = "critical" ->
     Ui.toasts ui' =
     Ui.toasts ui ++
       [Toast.Build (Some "destructive") "CRITICAL Risk Detected"
          (join ", " (SafetyAssessment.concerns assessment))]) /\
    (SafetyAssessment.riskLevel assessment <> "critical" ->
     Ui.toasts ui' = Ui.toasts ui).
Proof.
  intros Hreq.
  destruct (run_handleSendMessageWith o request ui history text hist)
    as (ui' & tr' & Hrun & Hui).
  rewrite Hreq in Hui. destruct Hui as (id & timestamp & ->).
  exists (onFinally (onResponse ui aiOutput id timestamp)).
  unfold outcome. rewrite Hrun. split; [reflexivity |].
  cbv zeta. simpl. split.
  - intros Hrisk. rewrite Hrisk. simpl. unfold criticalToast. rewrite Hrisk. reflexivity.
  - intros Hrisk. apply String.eqb_neq in Hrisk. rewrite Hrisk. reflexivity.
Qed.

Lemma critical_risk_raises_alert_witness :
  exists ui',
    outcome (scripted (allDown 0%Q))
      (handleSendMessageWith (fun _ => Ret criticalOutput) emptyUi [] "help") []
    = Resolved ui' /\
    Ui.toasts ui' =
    [Toast.Build (Some "destructive") "CRITICAL Risk Detected"
       "suicidal ideation, no support"].
Proof.
  destruct (@critical_risk_raises_alert (scripted (allDown 0%Q))
              (fun _ => Ret criticalOutput) emptyUi [] "help" [] criticalOutput []
              eq_refl) as (ui' & Hout & Hcrit & _).
  exists ui'. split; [exact Hout |]. exact (Hcrit eq_refl).
Defined.

(** The fast flow, which the component calls, reports the literal risk
    level ['low']: on its responses the handler never shows the alert. *)
Lemma fast_flow_never_alerts (o : Oracle) ui history text hist :
  exists ui',
    outcome o (handleSendMessage ui history text) hist = Resolved ui' /\
    Ui.toasts ui' = Ui.toasts ui.
Proof.
  destruct (run_handleSendMessageWith o processFastMitrRequest ui history text hist)
    as (ui' & tr' & Hrun & Hui).
  exists ui'. unfold outcome, handleSendMessage. rewrite Hrun. split; [reflexivity |].
  revert Hui. unfold processFastMitrRequest, fastMitrFlow.
  rewrite run_bind, run_trigger. cbv zeta. rewrite run_bind, run_await.
  destruct (o _ _ (fastTherapistPrompt _ _)) as [r | e]; simpl;
    intros (id & timestamp & ->); reflexivity.
Qed.

(** ** The comprehensive flow: the safety assessment *)

(** A run in which every stage answers: the trace has the timestamp, the
    text analyzer's call, which timed out, and its log line, the fusion
    call, the random number, the two calls of the context stage, the safety
    call and the response call: nine entries, six of them model calls. The
    risk level is the one of the safety call, not the echo of the response
    generator. *)
Example comprehensive_run_example :
  let r := run (scripted (allUp 0%Q)) (comprehensiveMitrFlow (sampleInput None)) [] in
  length (snd r) = 9 /\
  length (modelCalls (snd r)) = 6 /\
  map (fun c => SafetyInput.healthData (fst c)) (safetyCalls (snd r)) = [None] /\
  match fst r with
  | Resolved out =>
      SafetyAssessment.riskLevel (ComprehensiveMitrOutput.safetyAssessment out) = "medium" /\
      ContextualInsights.therapeuticIntent (ComprehensiveMitrOutput.contextualInsights out)
      = "depression_support"
  | Rejected _ => False
  end.
Proof. vm_compute. repeat split. Qed.

(** The flow never reads [wearablesData]: replacing it leaves the same flow. *)
Lemma comprehensiveMitrFlow_withWearables wearables input :
  comprehensiveMitrFlow (withWearables wearables input) = comprehensiveMitrFlow input.
Proof. destruct input. reflexivity. Qed.

(** C2. Two inputs of the comprehensive flow that differ only in their
    wearables data make the same calls of the safety prompt, in the same
    environment. There is exactly one such call, and its input is the user
    message, the emotion data, no health data, and the lines of the last
    three conversation turns. The emotion data is the serialised fused
    emotions of the emotion analysis of this run when that analysis
    resolved, and the text 'No emotion data' when it was rejected. *)
Theorem safety_input_excludes_health (o : Oracle) input wearables hist :
  safetyCalls (trace o (comprehensiveMitrFlow (withWearables wearables input)) hist)
  = safetyCalls (trace o (comprehensiveMitrFlow input) hist) /\
  let ts := o _ hist Date_toISOString in
  let emotionRun :=
    outcome o (analyzeEmotions (emotionInput input))
      (hist ++ [Logged Date_toISOString ts]) in
  exists answer,
    safetyCalls (trace o (comprehensiveMitrFlow input) hist) =
    [(SafetyInput.Build
        (ComprehensiveMitrInput.userMessage input)
        (match emotionRun with
         | Resolved ea => JSON_stringify (EmotionAnalysisOutput.fusedEmotions ea)
         | Rejected _ => Literal "No emotion data"
         end)
        None
        (option_map (fun h => join newline (map turn_line (slice_last 3 h)))
           (ComprehensiveMitrInput.conversationHistory input)),
      answer)].
Proof.
  split.
  - rewrite comprehensiveMitrFlow_withWearables. reflexivity.
  - cbv zeta.
    destruct (comprehensive_digest o input hist)
      as (ts & ea & tre & rnd & cg & trc & sa & ra & Hts & He & _ & Hs & _).
    cbv zeta in He. subst ts. exists sa. rewrite Hs.
    rewrite run_emotionStep in He. unfold outcome.
    destruct (run o (analyzeEmotions (emotionInput input))
                (hist ++ [Logged Date_toISOString (o _ hist Date_toISOString)]))
      as [[ea' | e] tr'] eqn:Hrun; cbn [fst];
      injection He as <- _; reflexivity.
Qed.

(** C3. In every run of the comprehensive flow, a rejection of the safety
    call or of the response call is the rejection of the whole request:
    the flow catches neither and substitutes nothing. *)
Theorem unguarded_stage_failure_propagates (o : Oracle) input hist e :
  let tr := trace o (comprehensiveMitrFlow input) hist in
  (exists si, In (si, Rejected e) (safetyCalls tr)) \/
  (exists ri, In (ri, Rejected e) (responseCalls tr)) ->
  outcome o (processComprehensiveMitrRequest input) hist = Rejected e.
Proof.
  cbv zeta. unfold processComprehensiveMitrRequest.
  destruct (comprehensive_digest o input hist)
    as (ts & ea & tre & rnd & cg & trc & sa & ra & _ & _ & _ & Hs & Hr & _ & _ & _ & Hout).
  cbv zeta in Hs, Hr, Hout. rewrite Hs, Hr, Hout.
  intros [[si Hin] | [ri Hin]].
  - destruct Hin as [Heq | []]. injection Heq as _ ->. reflexivity.
  - destruct sa as [so | e']; [| destruct Hin].
    destruct Hin as [Heq | []]. injection Heq as _ ->. reflexivity.
Qed.

Lemma unguarded_stage_failure_propagates_witness :
  outcome (scripted safetyDown) (processComprehensiveMitrRequest (sampleInput None)) []
  = Rejected timeout.
Proof.
  apply (@unguarded_stage_failure_propagates (scripted safetyDown) (sampleInput None)
           [] timeout).
  left. eexists. vm_compute. left. reflexivity.
Defined.

(** ** The emotion-analysis flow: fusion *)

(** C4, as stated, fails: on an input without any modality signal the flow
    surfaces the error of the fusion call, and a fusion output whose primary
    emotion is not in its map and whose confidence is 7 is returned as it
    is. *)
Lemma fusion_error_surfaces :
  hasSignal noSignalInput = false /\
  outcome (scripted (allDown 0%Q)) (analyzeEmotions noSignalInput) [] = Rejected timeout /\
  exists out,
    outcome (scripted skewed) (analyzeEmotions noSignalInput) [] = Resolved out /\
    ~ validFused (EmotionAnalysisOutput.fusedEmotions out).
Proof.
  split; [reflexivity |]. split; [reflexivity |].
  eexists. split; [reflexivity |].
  unfold validFused. simpl. intros [[H | []] _]. discriminate.
Qed.

(** C4, amended. For every input, also one without any modality signal, the
    flow calls the fusion prompt, once and last; without a signal the call
    carries no modality data and nothing is called before it. When the call
    returns an output, the fused record is that output's primary emotion,
    confidence, emotions, arousal, valence and distress level, unchanged;
    when the call fails, or returns no output, the flow throws. *)
Theorem fusion_result_passed_through (o : Oracle) input hist :
  exists facial voice text tr,
    let call := fusionEvent facial voice text in
    let answer := o _ (hist ++ tr) call in
    trace o (analyzeEmotions input) hist = tr ++ [Logged call answer] /\
    (hasSignal input = false ->
     tr = [] /\ call = multimodalFusionPrompt None None None) /\
    match answer with
    | Resolved (Some f) =>
        exists out,
          outcome o (analyzeEmotions input) hist = Resolved out /\
          EmotionAnalysisOutput.fusedEmotions out =
            FusedEmotions.Build (FusionOutput.primary f) (FusionOutput.confidence f)
              (FusionOutput.emotions f) (FusionOutput.arousal f)
              (FusionOutput.valence f) (FusionOutput.distressLevel f) /\
          EmotionAnalysisOutput.recommendations out = FusionOutput.recommendations f /\
          EmotionAnalysisOutput.avatarExpression out = FusionOutput.avatarExpression f
    | Resolved None =>
        outcome o (analyzeEmotions input) hist =
        Rejected (TypeError "Cannot read properties of null (reading 'primary')")
    | Rejected e => outcome o (analyzeEmotions input) hist = Rejected e
    end.
Proof.
  destruct (run_analyzeEmotions o input hist) as (facial & voice & text & tr & Hrun & Hz).
  exists facial, voice, text, tr. cbv zeta in *.
  unfold trace, outcome. rewrite Hrun. split; [reflexivity |]. split.
  - intros Hs. destruct (Hz Hs) as (-> & -> & -> & ->). split; reflexivity.
  - destruct (o _ (hist ++ tr) (fusionEvent facial voice text)) as [[f |] | e];
      simpl; eauto.
Qed.

Lemma fusion_result_passed_through_witness :
  trace (scripted (allUp 0%Q)) (analyzeEmotions noSignalInput) [] =
  [Logged (multimodalFusionPrompt None None None) (Resolved (Some sampleFusion))].
Proof.
  destruct (@fusion_result_passed_through (scripted (allUp 0%Q)) noSignalInput [])
    as (facial & voice & text & tr & Htr & Hz & _).
  destruct (Hz eq_refl) as [-> Hcall].
  rewrite Htr. cbv zeta. rewrite Hcall. reflexivity.
Defined.

(** ** The comprehensive flow: recovery and merge *)

(** C5. When the emotion analysis of a comprehensive run fails, the run
    still makes the safety call, without emotion data, and settles as the
    safety and the response call decide; what it merges has the emotion
    summary 'neutral', 0.5, 0.3 with no recommendations and the default
    avatar, and the default of every part whose upstream value is missing:
    the contextual insights, the safety assessment, the response text and
    the interventions. *)
Theorem emotion_failure_yields_defaults (o : Oracle) input hist e :
  let ts := o _ hist Date_toISOString in
  outcome o (analyzeEmotions (emotionInput input)) (hist ++ [Logged Date_toISOString ts])
  = Rejected e ->
  exists rnd cg sa ra,
    let ha := Some (minimalHealthAnalysis rnd) in
    let tr := trace o (comprehensiveMitrFlow input) hist in
    safetyCalls tr = [(safetyInput input None, sa)] /\
    responseCalls tr =
      match sa with
      | Resolved so => [(responseInput input None cg so, ra)]
      | Rejected _ => []
      end /\
    outcome o (comprehensiveMitrFlow input) hist =
      match sa with
      | Resolved so =>
          match ra with
          | Resolved ro => Resolved (compileResponse ts None ha cg so ro)
          | Rejected e' => Rejected e'
          end
      | Rejected e' => Rejected e'
      end /\
    forall so ro,
      let out := compileResponse ts None ha cg so ro in
      ComprehensiveMitrOutput.emotionAnalysis out
      = EmotionSummary.Build "neutral" 0.5%Q 0.3%Q [] /\
      ComprehensiveMitrOutput.avatarControl out
      = AvatarControl.Build "empathetic" 0.7%Q 5%Q "supportive" /\
      DataQuality.emotional
        (Metadata.dataQuality (ComprehensiveMitrOutput.metadata out)) = 0.3%Q /\
      (cg = None ->
       ComprehensiveMitrOutput.contextualInsights out
       = ContextualInsights.Build "emotional_support" "low" "exploration" 70%Q /\
       Metadata.confidenceScore (ComprehensiveMitrOutput.metadata out)
       = ((0.5 + 0.5) / 2)%Q) /\
      (so = None ->
       ComprehensiveMitrOutput.safetyAssessment out
       = SafetyAssessment.Build "low" [] [] false) /\
      (ro = None ->
       ComprehensiveMitrOutput.response out = apology /\
       ComprehensiveMitrOutput.interventions out = defaultInterventions).
Proof.
  cbv zeta. intros Hfail.
  destruct (comprehensive_digest o input hist)
    as (ts & ea & tre & rnd & cg & trc & sa & ra & Hts & He & _ & Hs & Hr & _ & _ & _ & Hout).
  cbv zeta in He, Hs, Hr, Hout. subst ts.
  rewrite run_emotionStep in He. unfold outcome in Hfail.
  destruct (run o (analyzeEmotions (emotionInput input)) _) as [[x | x] t];
    simpl in Hfail; [discriminate |].
  injection He as <- _.
  exists rnd, cg, sa, ra. split; [exact Hs |]. split; [exact Hr |]. split; [exact Hout |].
  intros so ro. repeat split.
  - subst cg. reflexivity.
  - subst cg. reflexivity.
  - intros ->. reflexivity.
  - subst ro. reflexivity.
  - subst ro. reflexivity.
Qed.

Lemma emotion_failure_yields_defaults_witness :
  exists out,
    outcome (scripted emotionDown) (comprehensiveMitrFlow (sampleInput None)) []
    = Resolved out /\
    ComprehensiveMitrOutput.emotionAnalysis out
    = EmotionSummary.Build "neutral" 0.5%Q 0.3%Q [] /\
    ComprehensiveMitrOutput.safetyAssessment out
    = SafetyAssessment.Build "low" [] [] false.
Proof.
  destruct (@emotion_failure_yields_defaults (scripted emotionDown) (sampleInput None)
              [] timeout eq_refl) as (rnd & cg & sa & ra & _ & _ & _ & Hdef).
  eexists. split; [vm_compute; reflexivity |].
  destruct (Hdef None None) as (_ & _ & _ & _ & Hsafe & _).
  split; [reflexivity | exact (Hsafe eq_refl)].
Defined.

(** ** The context-management flow *)

Lemma manageContext_failure (o : Oracle) input hist :
  contextFailure (trace o (manageContext input) hist) = true ->
  exists e, outcome o (manageContext input) hist = Rejected e.
Proof.
  unfold trace, outcome. rewrite run_manageContext. cbv zeta.
  destruct (o _ hist (intentEvent input)) as [intentResult | e]; [| simpl; eauto].
  destruct (knowledgeFor input) as [kb | e]; [| simpl; eauto].
  destruct (o _ _ (contextAnalysisPrompt input)) as [[cr |] | e]; try (simpl; eauto).
  destruct intentResult as [ir |]; [| simpl; eauto].
  unfold contextFailure. simpl. discriminate.
Qed.

Lemma select_console {B} (f : Entry -> option B) tr label e x :
  f (Logged (console_error label e) x) = None ->
  select f (tr ++ [Logged (console_error label e) x]) = select f tr.
Proof.
  intros H. rewrite select_app. simpl. rewrite H. apply app_nil_r.
Qed.

Lemma contextStep_failure (o : Oracle) input ea ha hist cg trc :
  run o (contextStep input ea ha) hist = (Resolved cg, trc) ->
  existsb (fun c => failed (snd c)) (intentCalls trc) ||
  existsb (fun c => failed (snd c)) (contextCalls trc) = true ->
  cg = None.
Proof.
  rewrite run_contextStep. intros Hrun Hfail.
  pose proof (manageContext_failure o (contextInput input ea ha) hist) as Hmc.
  unfold trace, outcome, contextFailure in Hmc.
  destruct (run o (manageContext (contextInput input ea ha)) hist) as [[x | x] t].
  - injection Hrun as <- <-. destruct (Hmc Hfail) as [e He]. discriminate.
  - injection Hrun as <- _. reflexivity.
Qed.

(** C6. [manageContext] rejects whenever its intent call or its context
    analysis call is rejected or returns no output, and substitutes nothing.
    In the comprehensive flow such a failure is caught: the run goes on to
    the safety call, the response prompt receives the text 'No contextual
    guidance available', and a merged output has the default contextual
    insights and the contextual data quality 0.5. *)
Theorem context_failure_policy (o : Oracle) :
  (forall input hist,
     contextFailure (trace o (manageContext input) hist) = true ->
     exists e, outcome o (manageContext input) hist = Rejected e) /\
  (forall input hist,
     let tr := trace o (comprehensiveMitrFlow input) hist in
     contextFailure tr = true ->
     (exists si sa, safetyCalls tr = [(si, sa)]) /\
     (forall ri ra, In (ri, ra) (responseCalls tr) ->
        ResponseInput.contextualGuidance ri
        = Literal "No contextual guidance available") /\
     (forall out, outcome o (comprehensiveMitrFlow input) hist = Resolved out ->
        ComprehensiveMitrOutput.contextualInsights out
        = ContextualInsights.Build "emotional_support" "low" "exploration" 70%Q /\
        DataQuality.contextual
          (Metadata.dataQuality (ComprehensiveMitrOutput.metadata out)) = 0.5%Q)).
Proof.
  split; [apply manageContext_failure |].
  intros input hist. cbv zeta. intros Hfail.
  destruct (comprehensive_digest o input hist)
    as (ts & ea & tre & rnd & cg & trc & sa & ra & _ & _ & Hc & Hs & Hr & _ & Hi & Hx & Hout).
  cbv zeta in Hc, Hs, Hr, Hi, Hx, Hout.
  unfold contextFailure in Hfail. rewrite Hi, Hx in Hfail.
  pose proof (contextStep_failure _ _ _ _ _ Hc Hfail) as ->.
  split; [eauto |]. split.
  - intros ri ra' Hin. rewrite Hr in Hin.
    destruct sa as [so | e]; [| destruct Hin].
    destruct Hin as [Heq | []]. injection Heq as <- _. reflexivity.
  - intros out Hres. rewrite Hout in Hres.
    destruct sa as [so | e]; [| discriminate].
    destruct ra as [ro | e]; [| discriminate].
    injection Hres as <-. split; reflexivity.
Qed.

Lemma context_failure_policy_witness :
  (exists e, outcome (scripted contextDown) (manageContext sampleContextInput) []
             = Rejected e) /\
  (exists si sa,
     safetyCalls (trace (scripted contextDown) (comprehensiveMitrFlow (sampleInput None)) [])
     = [(si, sa)]).
Proof.
  destruct (context_failure_policy (scripted contextDown)) as [Hstage Hflow].
  split.
  - apply (Hstage sampleContextInput []). vm_compute. reflexivity.
  - apply (Hflow (sampleInput None) []). vm_compute. reflexivity.
Defined.

(** C7. A successful [manageContext] made exactly two calls, which both
    returned an output, and returns the output of the context analysis with
    [therapeuticIntent] replaced by the output of the intent classifier and
    [knowledgeBaseMatches] replaced by the entries of the knowledge matcher,
    each with the relevance score 0.8; the other four fields are those of
    the context analysis. *)
Theorem manageContext_overrides (o : Oracle) input hist out :
  outcome o (manageContext input) hist = Resolved out ->
  exists intentResult contextResult relevantKnowledge,
    trace o (manageContext input) hist =
      [Logged (intentClassificationPrompt
                 (ContextManagementInput.currentMessage input)
                 (Some (recent_lines 5 (ContextManagementInput.conversationHistory input))))
         (Resolved (Some intentResult));
       Logged (contextAnalysisPrompt input) (Resolved (Some contextResult))] /\
    findRelevantKnowledge (ContextManagementInput.currentMessage input)
      (ContextManagementInput.emotionalContext input) = Resolved relevantKnowledge /\
    ContextManagementOutput.therapeuticIntent out = intentResult /\
    ContextManagementOutput.knowledgeBaseMatches out =
      map (fun it => KnowledgeMatch.Build (KnowledgeEntry.topic it)
                       (KnowledgeEntry.content it) 0.8%Q (KnowledgeEntry.category it))
        relevantKnowledge /\
    ContextManagementOutput.relevantContext out
      = ContextManagementOutput.relevantContext contextResult /\
    ContextManagementOutput.responseStrategy out
      = ContextManagementOutput.responseStrategy contextResult /\
    ContextManagementOutput.contextualFactors out
      = ContextManagementOutput.contextualFactors contextResult /\
    ContextManagementOutput.adaptivePrompt out
      = ContextManagementOutput.adaptivePrompt contextResult.
Proof.
  unfold outcome, trace. rewrite run_manageContext. cbv zeta.
  fold (intentEvent input). unfold knowledgeFor.
  destruct (o _ hist (intentEvent input)) as [intentResult | e]; [| discriminate].
  destruct (findRelevantKnowledge _ _) as [kb | e]; [| discriminate].
  destruct (o _ _ (contextAnalysisPrompt input)) as [[cr |] | e]; try discriminate.
  destruct intentResult as [ir |]; [| discriminate].
  simpl. intros [= <-]. exists ir, cr, kb. repeat split.
Qed.

Lemma manageContext_overrides_witness :
  exists out,
    outcome (scripted (allUp 0%Q)) (manageContext sampleContextInput) [] = Resolved out /\
    ContextManagementOutput.therapeuticIntent out = sampleIntent /\
    map KnowledgeMatch.topic (ContextManagementOutput.knowledgeBaseMatches out)
    = ["Depression Support"].
Proof.
  exists (enhance sampleContext [item 5] sampleIntent).
  assert (Hout : outcome (scripted (allUp 0%Q)) (manageContext sampleContextInput) []
                 = Resolved (enhance sampleContext [item 5] sampleIntent))
    by (vm_compute; reflexivity).
  split; [exact Hout |].
  destruct (manageContext_overrides _ _ _ Hout)
    as (ir & cr & kb & Htr & Hkb & Hint & Hm & _).
  split; [| reflexivity].
  apply (f_equal intentCalls) in Htr. vm_compute in Htr. injection Htr as Hir.
  rewrite Hint, <- Hir. reflexivity.
Defined.

(** ** The knowledge matcher *)

(** C8. The matcher does not return for every emotion label: for the label
    'constructor', a property that the object literal [emotionKeywords]
    inherits, the lookup gives a function, [|| []] keeps it, and the call of
    its missing method [some] throws, whatever the message. For the other
    labels [findRelevantKnowledge_contract] and
    [findRelevantKnowledge_returns] give the five-entry, no-duplicate
    contract. *)
Theorem inherited_label_throws (message : string) :
  findRelevantKnowledge message (Some (emotionalContext_of "constructor"))
  = Rejected (TypeError "emotionKeys.some is not a function").
Proof. reflexivity. Qed.

(** Inside [manageContext] the same label makes the stage fail after the
    intent call, before the context analysis is asked. *)
Example inherited_label_in_manageContext :
  run (scripted (allUp 0%Q))
    (manageContext
       (ContextManagementInput.Build "hello" [] None
          (Some (emotionalContext_of "constructor")) None)) []
  = (Rejected (TypeError "emotionKeys.some is not a function"),
     [Logged (intentClassificationPrompt "hello" (Some ""))
        (Resolved (Some sampleIntent))]).
Proof. reflexivity. Qed.

(** ** The comprehensive flow: the health stub *)

(** C9, as stated, fails: the same input gives the wellness score 75 in an
    environment where [Math.random()] is 0 and 82 where it is 1/2. *)
Lemma health_summary_varies :
  exists out1 out2,
    outcome (scripted (allUp 0%Q)) (comprehensiveMitrFlow (sampleInput None)) []
    = Resolved out1 /\
    outcome (scripted (allUp (1 # 2)%Q)) (comprehensiveMitrFlow (sampleInput None)) []
    = Resolved out2 /\
    option_map HealthSummary.wellnessScore (ComprehensiveMitrOutput.healthAnalysis out1)
    = Some (75 # 1)%Q /\
    option_map HealthSummary.wellnessScore (ComprehensiveMitrOutput.healthAnalysis out2)
    = Some (82 # 1)%Q /\
    ComprehensiveMitrOutput.healthAnalysis out1
    <> ComprehensiveMitrOutput.healthAnalysis out2.
Proof.
  do 2 eexists.
  split; [vm_compute; reflexivity |]. split; [vm_compute; reflexivity |].
  split; [vm_compute; reflexivity |]. split; [vm_compute; reflexivity |].
  vm_compute. discriminate.
Qed.

Lemma wellness_score_range (random : number) :
  (0 <= random)%Q -> (random < 1)%Q ->
  (75 <= 75 + inject_Z (Qfloor (random * 15)) <= 89)%Q.
Proof.
  intros Hlo Hhi.
  assert (H0 : (0 <= Qfloor (random * 15))%Z).
  { change 0%Z with (Qfloor 0). apply Qfloor_resp_le.
    apply Qmult_le_0_compat; [exact Hlo | discriminate]. }
  assert (H15 : (Qfloor (random * 15) < 15)%Z).
  { rewrite Zlt_Qlt. apply Qle_lt_trans with (random * 15)%Q; [apply Qfloor_le |].
    setoid_replace (inject_Z 15) with (1 * 15)%Q by reflexivity.
    apply Qmult_lt_compat_r; [reflexivity | exact Hhi]. }
  change 75%Q with (inject_Z 75). rewrite <- inject_Z_plus.
  change 89%Q with (inject_Z 89).
  rewrite <- !Zle_Qle. lia.
Qed.

(** C9, amended. The health stage calls no model: it draws one
    [Math.random()] and writes the record down. In the summary of a merged
    output the stress level 35, the empty alerts and the two recommendations
    are fixed; the wellness score is 75 plus the integer part of fifteen
    times the random number, so an integer from 75 to 89 that may differ
    between two runs on the same input. *)
Theorem health_stub_is_local (o : Oracle) input hist :
  modelCalls (trace o healthStep hist) = [] /\
  (exists random,
     randomCalls (trace o (comprehensiveMitrFlow input) hist) = [random] /\
     forall out,
       outcome o (comprehensiveMitrFlow input) hist = Resolved out ->
       ComprehensiveMitrOutput.healthAnalysis out =
       Some (HealthSummary.Build (75 + inject_Z (Qfloor (random * 15)))%Q 35%Q []
               ["Take a deep breath"; "Stay hydrated"])) /\
  (forall random,
     (0 <= random)%Q -> (random < 1)%Q ->
     (75 <= OverallWellness.score
              (WearablesAnalysisOutput.overallWellness (minimalHealthAnalysis random))
      <= 89)%Q).
Proof.
  split; [reflexivity |]. split.
  - destruct (comprehensive_digest o input hist)
      as (ts & ea & tre & rnd & cg & trc & sa & ra & _ & _ & _ & _ & _ & Hr & _ & _ & Hout).
    cbv zeta in Hr, Hout. exists rnd. split; [exact Hr |].
    intros out Hres. rewrite Hout in Hres.
    destruct sa as [so | e]; [| discriminate].
    destruct ra as [ro | e]; [| discriminate].
    injection Hres as <-. reflexivity.
  - intros random Hlo Hhi. apply wellness_score_range; assumption.
Qed.

Lemma health_stub_is_local_witness :
  (75 <= OverallWellness.score
           (WearablesAnalysisOutput.overallWellness (minimalHealthAnalysis (1 # 2)%Q))
   <= 89)%Q.
Proof.
  destruct (health_stub_is_local (scripted (allUp (1 # 2)%Q)) (sampleInput None) [])
    as (_ & _ & Hrange).
  apply Hrange; [discriminate | reflexivity].
Defined.

(** ** The merge *)

Lemma Qeq_bool_false (x : number) : ~ (x == 0)%Q -> Qeq_bool x 0 = false.
Proof.
  intros H. destruct (Qeq_bool x 0) eqn:E; [| reflexivity].
  apply Qeq_bool_iff in E. contradiction.
Qed.

Ltac falsy_or_kept :=
  intros;
  repeat match goal with
  | H : ~ (_ == 0)%Q |- _ => rewrite (Qeq_bool_false H); clear H
  | H : (_ == 0)%Q |- _ => apply Qeq_bool_iff in H; rewrite H; clear H
  | H : _ <> "" |- _ => apply String.eqb_neq in H; rewrite H; clear H
  | H : _ = "" |- _ => rewrite H; clear H
  | H : _ = true |- _ => rewrite H; clear H
  | H : _ = false |- _ => rewrite H; clear H
  end;
  reflexivity.

(** C10. The merge substitutes its defaults with [||], so a falsy upstream
    value is replaced like a missing one: a confidence of 0 becomes 0.5, a
    distress level of 0 becomes 0.3, a [followUp] of false gives the same
    field as an absent safety output, and an empty response text becomes the
    apology; a non-zero confidence and a non-empty response are kept. The
    same holds of every other default of the merge: an empty primary emotion
    becomes 'neutral', an empty therapeutic intent 'emotional_support', an
    empty urgency level 'low', an empty session phase 'exploration', a
    therapeutic alliance of 0 becomes 70, an empty risk level 'low', and a
    confidence of 0 of the emotions or of the intent enters the confidence
    score as 0.5; truthy values are kept, and so are the arrays and objects
    of a present upstream result, which are truthy also when empty. *)
Theorem falsy_values_take_defaults ts (ea : EmotionAnalysisOutput.t) ha cg
  (so : SafetyOutput.t) (ro : ResponseOutput.t) so' ro'
  (guidance : ContextManagementOutput.t) ea' :
  let fused := EmotionAnalysisOutput.fusedEmotions ea in
  let summary :=
    ComprehensiveMitrOutput.emotionAnalysis (compileResponse ts (Some ea) ha cg so' ro') in
  let intent := ContextManagementOutput.therapeuticIntent guidance in
  let factors := ContextManagementOutput.contextualFactors guidance in
  let insights :=
    ComprehensiveMitrOutput.contextualInsights
      (compileResponse ts ea' ha (Some guidance) so' ro') in
  let assessment :=
    ComprehensiveMitrOutput.safetyAssessment
      (compileResponse ts ea' ha cg (Some so) ro') in
  let score :=
    Metadata.confidenceScore
      (ComprehensiveMitrOutput.metadata
         (compileResponse ts (Some ea) ha (Some guidance) so' ro')) in
  ((FusedEmotions.confidence fused == 0)%Q -> EmotionSummary.confidence summary = 0.5%Q) /\
  (~ (FusedEmotions.confidence fused == 0)%Q ->
   EmotionSummary.confidence summary = FusedEmotions.confidence fused) /\
  ((FusedEmotions.distressLevel fused == 0)%Q ->
   EmotionSummary.distressLevel summary = 0.3%Q) /\
  (SafetyOutput.followUp so = false ->
   SafetyAssessment.followUp
     (ComprehensiveMitrOutput.safetyAssessment
        (compileResponse ts (Some ea) ha cg (Some so) ro'))
   = SafetyAssessment.followUp
       (ComprehensiveMitrOutput.safetyAssessment
          (compileResponse ts (Some ea) ha cg None ro'))) /\
  (ResponseOutput.response ro = "" ->
   ComprehensiveMitrOutput.response (compileResponse ts (Some ea) ha cg so' (Some ro))
   = apology) /\
  (ResponseOutput.response ro <> "" ->
   ComprehensiveMitrOutput.response (compileResponse ts (Some ea) ha cg so' (Some ro))
   = ResponseOutput.response ro) /\
  (FusedEmotions.primary fused = "" -> EmotionSummary.primary summary = "neutral") /\
  (FusedEmotions.primary fused <> "" ->
   EmotionSummary.primary summary = FusedEmotions.primary fused) /\
  (~ (FusedEmotions.distressLevel fused == 0)%Q ->
   EmotionSummary.distressLevel summary = FusedEmotions.distressLevel fused) /\
  EmotionSummary.recommendations summary = EmotionAnalysisOutput.recommendations ea /\
  (TherapeuticIntent.primary intent = "" ->
   ContextualInsights.therapeuticIntent insights = "emotional_support") /\
  (TherapeuticIntent.primary intent <> "" ->
   ContextualInsights.therapeuticIntent insights = TherapeuticIntent.primary intent) /\
  (ContextualFactors.urgencyLevel factors = "" ->
   ContextualInsights.urgencyLevel insights = "low") /\
  (ContextualFactors.urgencyLevel factors <> "" ->
   ContextualInsights.urgencyLevel insights = ContextualFactors.urgencyLevel factors) /\
  (ContextualFactors.sessionPhase factors = "" ->
   ContextualInsights.sessionPhase insights = "exploration") /\
  (ContextualFactors.sessionPhase factors <> "" ->
   ContextualInsights.sessionPhase insights = ContextualFactors.sessionPhase factors) /\
  ((ContextualFactors.therapeuticAlliance factors == 0)%Q ->
   ContextualInsights.therapeuticAlliance insights = 70%Q) /\
  (~ (ContextualFactors.therapeuticAlliance factors == 0)%Q ->
   ContextualInsights.therapeuticAlliance insights
   = ContextualFactors.therapeuticAlliance factors) /\
  (SafetyOutput.riskLevel so = "" -> SafetyAssessment.riskLevel assessment = "low") /\
  (SafetyOutput.riskLevel so <> "" ->
   SafetyAssessment.riskLevel assessment = SafetyOutput.riskLevel so) /\
  (SafetyOutput.followUp so = true -> SafetyAssessment.followUp assessment = true) /\
  SafetyAssessment.concerns assessment = SafetyOutput.concerns so /\
  SafetyAssessment.actions assessment = SafetyOutput.actions so /\
  ComprehensiveMitrOutput.interventions (compileResponse ts ea' ha cg so' (Some ro))
  = ResponseOutput.interventions ro /\
  ((FusedEmotions.confidence fused == 0)%Q ->
   (TherapeuticIntent.confidence intent == 0)%Q ->
   score = ((0.5 + 0.5) / 2)%Q) /\
  ((FusedEmotions.confidence fused == 0)%Q ->
   ~ (TherapeuticIntent.confidence intent == 0)%Q ->
   score = ((0.5 + TherapeuticIntent.confidence intent) / 2)%Q) /\
  (~ (FusedEmotions.confidence fused == 0)%Q ->
   (TherapeuticIntent.confidence intent == 0)%Q ->
   score = ((FusedEmotions.confidence fused + 0.5) / 2)%Q) /\
  (~ (FusedEmotions.confidence fused == 0)%Q ->
   ~ (TherapeuticIntent.confidence intent == 0)%Q ->
   score = ((FusedEmotions.confidence fused + TherapeuticIntent.confidence intent) / 2)%Q).
Proof.
  cbv zeta. unfold compileResponse, fused_of, intent_of, factors_of.
  cbn -[Qeq_bool String.eqb apology].
  unfold or_number, or_string, or_boolean, truthy_number, truthy_string.
  repeat split; falsy_or_kept.
Qed.

Lemma falsy_values_take_defaults_witness :
  let out := compileResponse "2025-01-01T00:00:00.000Z" (Some sampleAnalysis) None None
               (Some sampleSafety) (Some sampleResponse) in
  let guided := compileResponse "2025-01-01T00:00:00.000Z" None None (Some emptyGuidance)
                  (Some sampleSafety) (Some sampleResponse) in
  EmotionSummary.confidence (ComprehensiveMitrOutput.emotionAnalysis out) = 0.5%Q /\
  EmotionSummary.distressLevel (ComprehensiveMitrOutput.emotionAnalysis out) = 0.3%Q /\
  SafetyAssessment.followUp (ComprehensiveMitrOutput.safetyAssessment out) = false /\
  ComprehensiveMitrOutput.response out = apology /\
  ComprehensiveMitrOutput.contextualInsights guided
  = ContextualInsights.Build "emotional_support" "low" "exploration" 70%Q.
Proof.
  destruct (@falsy_values_take_defaults "2025-01-01T00:00:00.000Z" sampleAnalysis None
              None sampleSafety sampleResponse (Some sampleSafety) (Some sampleResponse)
              emptyGuidance None)
    as (Hc & _ & Hd & Hf & Hr & _ & _ & _ & _ & _ & Hi & _ & Hu & _ & Hp & _ & Ha & _).
  cbv zeta. split; [apply Hc; reflexivity |]. split; [apply Hd; reflexivity |].
  split; [rewrite (Hf eq_refl); reflexivity |]. split; [apply Hr; reflexivity |].
  cbv zeta in Hi, Hu, Hp, Ha.
  pose proof (Hi eq_refl) as Ei. pose proof (Hu eq_refl) as Eu.
  pose proof (Hp eq_refl) as Ep. pose proof (Ha ltac:(reflexivity)) as Ea.
  destruct (ComprehensiveMitrOutput.contextualInsights
              (compileResponse "2025-01-01T00:00:00.000Z" None None (Some emptyGuidance)
                 (Some sampleSafety) (Some sampleResponse))) as [i u p a].
  cbn in Ei, Eu, Ep, Ea. subst. reflexivity.
Defined.

(* ================================================================== *)
(** * Further properties *)
(* ================================================================== *)

(** ** Substrings *)

Lemma prefix_app (p s : string) :
  String.prefix p s = true <-> exists r, s = (p ++ r)%string.
Proof.
  revert s. induction p as [| c p IH]; intros s; simpl.
  - split; [intros _; exists s; reflexivity | intros _; destruct s; reflexivity].
  - destruct s as [| d s]; [split; [discriminate | intros [r H]; discriminate] |].
    simpl. destruct (Ascii.ascii_dec c d) as [-> | Hne].
    + rewrite IH. split; intros [r H]; exists r; [subst; reflexivity |].
      injection H as H. exact H.
    + split; [discriminate |]. intros [r H]. injection H as H _. congruence.
Qed.

Lemma includes_app (s sub : string) :
  includes s sub = true <-> exists pre post, s = (pre ++ sub ++ post)%string.
Proof.
  induction s as [| c s IH].
  - cbn [includes]. rewrite orb_false_r, prefix_app. split.
    + intros [r H]. exists "", r. exact H.
    + intros (pre & post & H). destruct pre; [exists post; exact H | discriminate].
  - cbn [includes]. rewrite orb_true_iff, prefix_app, IH. split.
    + intros [[r H] | (pre & post & H)].
      * exists "", r. exact H.
      * exists (String c pre), post. simpl. rewrite H. reflexivity.
    + intros (pre & post & H). destruct pre as [| d pre].
      * left. exists post. exact H.
      * right. injection H as _ H. exists pre, post. exact H.
Qed.

Lemma string_app_assoc (a b c : string) : ((a ++ b) ++ c = a ++ (b ++ c))%string.
Proof. induction a as [| x a IH]; simpl; [reflexivity | rewrite IH; reflexivity]. Qed.

(** A text that contains a string contains its substrings. *)
Lemma includes_trans (s big small : string) :
  includes s big = true -> includes big small = true -> includes s small = true.
Proof.
  rewrite !includes_app. intros (p1 & q1 & ->) (p2 & q2 & ->).
  exists (p1 ++ p2)%string, (q2 ++ q1)%string.
  rewrite !string_app_assoc. reflexivity.
Qed.

(** ** Counting keywords *)

Lemma countMatches_fold lowerText keywords acc :
  fold_left
    (fun count keyword => count + (if includes lowerText keyword then 1 else 0))
    keywords acc
  = acc + length (filter (includes lowerText) keywords).
Proof.
  revert acc. induction keywords as [| k ks IH]; intros acc; simpl; [lia |].
  rewrite IH. destruct (includes lowerText k); simpl; lia.
Qed.

Lemma countMatches_filter lowerText keywords :
  countMatches lowerText keywords = length (filter (includes lowerText) keywords).
Proof. unfold countMatches. rewrite countMatches_fold. reflexivity. Qed.

Lemma countMatches_le lowerText keywords :
  countMatches lowerText keywords <= length keywords.
Proof. rewrite countMatches_filter. apply filter_length_le. Qed.

Lemma countMatches_pos lowerText keywords keyword :
  In keyword keywords -> includes lowerText keyword = true ->
  1 <= countMatches lowerText keywords.
Proof.
  intros Hin Hinc. rewrite countMatches_filter.
  assert (H : In keyword (filter (includes lowerText) keywords))
    by (apply filter_In; auto).
  destruct (filter (includes lowerText) keywords); [destruct H | simpl; lia].
Qed.

Lemma countMatches_zero lowerText keywords :
  existsb (includes lowerText) keywords = false -> countMatches lowerText keywords = 0.
Proof.
  intros H. rewrite countMatches_filter.
  induction keywords as [| k ks IH]; simpl in *; [reflexivity |].
  apply orb_false_iff in H. destruct H as [-> H]. auto.
Qed.

(** ** The loop over the emotion table *)

(** What the loop leaves, for any table and any state it starts from. *)
Lemma scan_fold lowerText table st :
  let r := fold_left (scanStep lowerText) table st in
  Scan.emotionScores r
  = Scan.emotionScores st ++ map (fun e => (fst e, countOf lowerText e)) table /\
  Scan.maxScore st <= Scan.maxScore r /\
  (forall e, In e table -> countOf lowerText e <= Scan.maxScore r) /\
  ((Scan.maxScore r = Scan.maxScore st /\ Scan.primaryEmotion r = Scan.primaryEmotion st) \/
   (exists t1 e t2,
      table = t1 ++ e :: t2 /\ fst e = Scan.primaryEmotion r /\
      countOf lowerText e = Scan.maxScore r /\ Scan.maxScore st < Scan.maxScore r /\
      forall e', In e' t1 -> countOf lowerText e' < Scan.maxScore r)).
Proof.
  revert st. induction table as [| e table IH]; intros st; cbv zeta; simpl.
  - rewrite app_nil_r. repeat split; auto. intros e [].
  - specialize (IH (scanStep lowerText st e)). cbv zeta in IH.
    destruct IH as (Hs & Hm & Hall & Hp).
    set (r := fold_left (scanStep lowerText) table (scanStep lowerText st e)) in *.
    assert (Hstep : Scan.emotionScores (scanStep lowerText st e)
                    = Scan.emotionScores st ++ [(fst e, countOf lowerText e)] /\
                    countOf lowerText e <= Scan.maxScore (scanStep lowerText st e) /\
                    Scan.maxScore st <= Scan.maxScore (scanStep lowerText st e)).
    { unfold scanStep, countOf. cbv zeta.
      destruct (Nat.ltb_spec (Scan.maxScore st) (countMatches lowerText (snd e)));
        simpl; repeat split; lia. }
    destruct Hstep as (Hs1 & Hc1 & Hm1).
    split; [rewrite Hs, Hs1, <- app_assoc; reflexivity |].
    split; [lia |].
    split; [intros e' [<- | Hin]; [lia | auto] |].
    unfold scanStep in Hp, Hm. cbv zeta in Hp, Hm. fold (countOf lowerText e) in Hp, Hm.
    destruct (Nat.ltb_spec (Scan.maxScore st) (countOf lowerText e)) as [Hlt | Hge];
      simpl in Hp, Hm.
    + right. destruct Hp as [[Hmax Hprim] | (t1 & e1 & t2 & Ht & He1 & Hc & Hgt & Hbefore)].
      * exists [], e, table. repeat split; auto; try lia. intros e' [].
      * exists (e :: t1), e1, t2. rewrite Ht. repeat split; auto; try lia.
        intros e' [<- | Hin]; [lia | auto].
    + destruct Hp as [[Hmax Hprim] | (t1 & e1 & t2 & Ht & He1 & Hc & Hgt & Hbefore)].
      * left. split; assumption.
      * right. exists (e :: t1), e1, t2. rewrite Ht. repeat split; auto.
        intros e' [<- | Hin]; [lia | auto].
Qed.

Lemma scanEmotions_scores lowerText :
  Scan.emotionScores (scanEmotions lowerText)
  = map (fun e => (fst e, countOf lowerText e)) EMOTION_KEYWORDS.
Proof.
  unfold scanEmotions.
  destruct (scan_fold lowerText EMOTION_KEYWORDS (Scan.Build [] 0 "neutral")) as (H & _).
  exact H.
Qed.

Lemma distressScore_count text :
  totalOf (Scan.emotionScores (scanEmotions (toLowerCase text))) distressEmotions
  = distressCount text.
Proof. rewrite scanEmotions_scores. reflexivity. Qed.

Lemma positiveScore_count text :
  totalOf (Scan.emotionScores (scanEmotions (toLowerCase text))) positiveEmotions
  = positiveCount text.
Proof. rewrite scanEmotions_scores. reflexivity. Qed.

(** ** Numbers *)

Ltac qdiv :=
  unfold Qdiv in *;
  change (/ 3)%Q with (1 # 3)%Q in *;
  change (/ 5)%Q with (1 # 5)%Q in *;
  change (/ 2)%Q with (1 # 2)%Q in *.

Lemma Math_min_spec (a b : number) :
  ((a <= b)%Q /\ Math_min a b = a) \/ ((b < a)%Q /\ Math_min a b = b).
Proof.
  unfold Math_min. destruct (Qle_bool a b) eqn:E.
  - left. split; [apply Qle_bool_iff; exact E | reflexivity].
  - right. split; [| reflexivity]. apply Qnot_le_lt. intros H.
    apply Qle_bool_iff in H. congruence.
Qed.

Lemma Math_max_spec (a b : number) :
  ((a <= b)%Q /\ Math_max a b = b) \/ ((b < a)%Q /\ Math_max a b = a).
Proof.
  unfold Math_max. destruct (Qle_bool a b) eqn:E.
  - left. split; [apply Qle_bool_iff; exact E | reflexivity].
  - right. split; [| reflexivity]. apply Qnot_le_lt. intros H.
    apply Qle_bool_iff in H. congruence.
Qed.

Ltac minmax_at a b spec :=
  let H := fresh "Hcmp" in let E := fresh "Eval" in
  destruct (spec a b) as [[H E] | [H E]]; rewrite E in *; clear E.

Ltac minmax :=
  repeat match goal with
  | |- context [Math_min ?a ?b] => minmax_at a b Math_min_spec
  | |- context [Math_max ?a ?b] => minmax_at a b Math_max_spec
  | _ : context [Math_min ?a ?b] |- _ => minmax_at a b Math_min_spec
  | _ : context [Math_max ?a ?b] |- _ => minmax_at a b Math_max_spec
  end.

Lemma num_nonneg (n : nat) : (0 <= num n)%Q.
Proof. unfold num. change 0%Q with (inject_Z 0). rewrite <- Zle_Qle. lia. Qed.

Lemma num_le (n m : nat) : n <= m -> (num n <= num m)%Q.
Proof. intros H. unfold num. rewrite <- Zle_Qle. lia. Qed.

Lemma num_S (n : nat) : (num (S n) == num n + 1)%Q.
Proof.
  unfold num. rewrite Nat2Z.inj_succ, <- Z.add_1_r, inject_Z_plus. reflexivity.
Qed.

(** A number between [lo] and [hi] after [Math.max(lo, Math.min(hi, x))]. *)
Lemma clamp_bounds (lo hi x : number) :
  (lo <= hi)%Q -> (lo <= Math_max lo (Math_min hi x) <= hi)%Q.
Proof. intros H. minmax; split; lra. Qed.

(** ** The analysis, field by field *)

Lemma analyzeText_fields text :
  primaryOf text = Scan.primaryEmotion (scanEmotions (toLowerCase text)) /\
  confidenceOf text = Math_min 1%Q (num (topCount text) / 3)%Q /\
  distressOf text = Math_min 1%Q (num (distressCount text) / 5)%Q /\
  wellnessOf text =
    Math_max 0%Q
      (Math_min 100%Q (50 + num (positiveCount text) * 10 - num (distressCount text) * 10)%Q) /\
  stressOf text = Math_max 0%Q (Math_min 100%Q (distressOf text * 100)%Q) /\
  allianceOf text = estimateAlliance text.
Proof.
  unfold primaryOf, confidenceOf, distressOf, wellnessOf, stressOf, allianceOf, topCount,
    analyzeText.
  cbv zeta. cbn [SentimentMetrics.emotion SentimentMetrics.health SentimentMetrics.context
                 AnalysisEmotion.primary AnalysisEmotion.confidence
                 AnalysisEmotion.distressLevel SentimentHealth.wellnessScore
                 SentimentHealth.stressLevel SentimentContext.alliance].
  rewrite distressScore_count, positiveScore_count. repeat split.
Qed.

(** X1. Whatever the text, the analysis that [analyzeText] returns is in
    range: the confidence and the distress level lie between 0 and 1, the
    wellness score, the stress level and the alliance between 0 and 100. *)
Theorem analyzeText_bounds text :
  (0 <= confidenceOf text <= 1)%Q /\
  (0 <= distressOf text <= 1)%Q /\
  (0 <= wellnessOf text <= 100)%Q /\
  (0 <= stressOf text <= 100)%Q /\
  (0 <= allianceOf text <= 100)%Q.
Proof.
  destruct (analyzeText_fields text) as (_ & Hc & Hd & Hw & Hs & Ha).
  rewrite Hc, Hw, Hs, Ha. rewrite Hd.
  pose proof (num_nonneg (topCount text)) as H1.
  pose proof (num_nonneg (distressCount text)) as H2.
  split; [qdiv; minmax; split; lra |].
  split; [qdiv; minmax; split; lra |].
  split; [apply clamp_bounds; lra |].
  split; [apply clamp_bounds; lra |].
  unfold estimateAlliance. cbv zeta. apply clamp_bounds. lra.
Qed.

Lemma scanEmotions_spec text :
  (forall e, In e EMOTION_KEYWORDS -> countOf (toLowerCase text) e <= topCount text) /\
  ((topCount text = 0 /\ primaryOf text = "neutral") \/
   (exists t1 e t2,
      EMOTION_KEYWORDS = t1 ++ e :: t2 /\ fst e = primaryOf text /\
      countOf (toLowerCase text) e = topCount text /\ 0 < topCount text /\
      forall e', In e' t1 -> countOf (toLowerCase text) e' < topCount text)).
Proof.
  destruct (analyzeText_fields text) as (Hp & _). rewrite Hp. unfold topCount, scanEmotions.
  destruct (scan_fold (toLowerCase text) EMOTION_KEYWORDS (Scan.Build [] 0 "neutral"))
    as (_ & _ & Hall & Hcase).
  split; [exact Hall |]. exact Hcase.
Qed.

Lemma mentionsEmotion_false text e :
  mentionsEmotion text = false -> In e EMOTION_KEYWORDS ->
  countOf (toLowerCase text) e = 0.
Proof.
  unfold mentionsEmotion. intros H Hin. apply countMatches_zero.
  destruct (existsb (includes (toLowerCase text)) (snd e)) eqn:E; [| reflexivity].
  assert (Hex : existsb (fun e => existsb (includes (toLowerCase text)) (snd e))
                  EMOTION_KEYWORDS = true)
    by (apply existsb_exists; exists e; auto).
  congruence.
Qed.

Lemma emotionCount_countOf text emotion :
  In emotion (map fst EMOTION_KEYWORDS) ->
  exists e, In e EMOTION_KEYWORDS /\ emotionCount text emotion = countOf (toLowerCase text) e.
Proof.
  intros Hin. unfold emotionCount, keywordsOf, countOf.
  destruct (find (fun kv => fst kv =? emotion) EMOTION_KEYWORDS) as [kv |] eqn:E.
  - apply find_some in E. exists kv. split; [apply E | reflexivity].
  - exfalso. apply in_map_iff in Hin. destruct Hin as (e & <- & He).
    pose proof (@find_none _ _ _ E e He) as H. simpl in H.
    rewrite String.eqb_refl in H. discriminate.
Qed.

Lemma mentionsEmotion_counts text :
  mentionsEmotion text = false ->
  topCount text = 0 /\ distressCount text = 0 /\ positiveCount text = 0.
Proof.
  intros H.
  assert (Hz : forall emotion, In emotion (map fst EMOTION_KEYWORDS) ->
                               emotionCount text emotion = 0).
  { intros emotion Hin. destruct (@emotionCount_countOf text emotion Hin) as (e & He & ->).
    apply mentionsEmotion_false; assumption. }
  split.
  - destruct (scanEmotions_spec text) as (_ & [[Ht _] | (t1 & e & t2 & Ht & _ & Hc & Hpos & _)]).
    + exact Ht.
    + rewrite (@mentionsEmotion_false text e H) in Hc; [lia |].
      rewrite Ht. apply in_or_app. right. left. reflexivity.
  - unfold distressCount, positiveCount.
    rewrite !Hz; [split; reflexivity | simpl; tauto ..].
Qed.

(** X2. A text in which no keyword of [EMOTION_KEYWORDS] occurs is analysed
    as the primary emotion "neutral" with confidence 0, distress level 0,
    wellness score 50 and stress level 0. *)
Theorem analyzeText_without_keywords text :
  mentionsEmotion text = false ->
  primaryOf text = "neutral" /\
  (confidenceOf text == 0)%Q /\
  (distressOf text == 0)%Q /\
  (wellnessOf text == 50)%Q /\
  (stressOf text == 0)%Q.
Proof.
  intros H. destruct (mentionsEmotion_counts text H) as (Ht & Hd & Hp).
  destruct (analyzeText_fields text) as (_ & Hc & Hdl & Hw & Hs & _).
  rewrite Hs, Hdl, Hc, Hw, Ht, Hd, Hp.
  split.
  - destruct (scanEmotions_spec text) as (_ & [[_ Hn] | (t1 & e & t2 & _ & _ & _ & Hpos & _)]);
      [exact Hn | lia].
  - repeat split; vm_compute; reflexivity.
Qed.

Lemma analyzeText_without_keywords_witness :
  primaryOf "hello there" = "neutral" /\ (wellnessOf "hello there" == 50)%Q.
Proof.
  destruct (@analyzeText_without_keywords "hello there" eq_refl) as (Hp & _ & _ & Hw & _).
  split; assumption.
Defined.

(** X3. The primary emotion is the first row of [EMOTION_KEYWORDS], in the
    order of the table, whose number of matching keywords is the highest:
    no row matches more keywords than [topCount], the rows before the
    primary one match fewer, and the primary emotion is "neutral" when no
    keyword matches. The confidence is 1 exactly when some row has three or
    more of its keywords in the text. *)
Theorem primary_is_first_maximum text :
  (forall emotion keywords,
     In (emotion, keywords) EMOTION_KEYWORDS ->
     countMatches (toLowerCase text) keywords <= topCount text) /\
  (topCount text = 0 -> primaryOf text = "neutral") /\
  (0 < topCount text ->
   exists before keywords after,
     EMOTION_KEYWORDS = before ++ (primaryOf text, keywords) :: after /\
     countMatches (toLowerCase text) keywords = topCount text /\
     forall e, In e before -> countMatches (toLowerCase text) (snd e) < topCount text) /\
  ((confidenceOf text == 1)%Q <-> 3 <= topCount text).
Proof.
  destruct (scanEmotions_spec text) as (Hall & Hcase).
  split; [intros emotion keywords Hin; apply (Hall _ Hin) |].
  split.
  { intros Hz. destruct Hcase as [[_ Hn] | (t1 & e & t2 & _ & _ & _ & Hpos & _)];
      [exact Hn | lia]. }
  split.
  { intros Hpos. destruct Hcase as [[Hz _] | (t1 & e & t2 & Ht & He & Hc & _ & Hb)]; [lia |].
    exists t1, (snd e), t2. rewrite <- He. destruct e as [l k]. simpl in *.
    split; [exact Ht |]. split; [exact Hc | exact Hb]. }
  destruct (analyzeText_fields text) as (_ & -> & _).
  split.
  - intros Heq. destruct (Nat.le_gt_cases 3 (topCount text)) as [Hge | Hlt]; [exact Hge |].
    exfalso. assert (Hn : (num (topCount text) <= num 2)%Q) by (apply num_le; lia).
    change (num 2) with 2%Q in Hn. revert Heq. qdiv. minmax; lra.
  - intros Hge. assert (Hn : (num 3 <= num (topCount text))%Q) by (apply num_le; exact Hge).
    change (num 3) with 3%Q in Hn. qdiv. minmax; lra.
Qed.

Lemma primary_is_first_maximum_witness :
  primaryOf "hello there" = "neutral".
Proof.
  destruct (primary_is_first_maximum "hello there") as (_ & Hz & _).
  apply Hz. reflexivity.
Defined.

(** X4. Keywords are matched as substrings of the lower-cased text, not as
    words: when a word that contains a keyword of an emotion occurs in the
    text, the emotion counts at least one match ("hopeless" counts for
    hopeful, "unhappy" for happy). *)
Theorem keywords_match_inside_words text emotion keywords keyword word :
  In (emotion, keywords) EMOTION_KEYWORDS -> In keyword keywords ->
  includes word keyword = true ->
  includes (toLowerCase text) word = true ->
  1 <= emotionCount text emotion.
Proof.
  intros Htab Hkw Hword Htext.
  assert (Hcount : 1 <= countMatches (toLowerCase text) keywords).
  { apply countMatches_pos with keyword; [exact Hkw |].
    apply includes_trans with word; assumption. }
  assert (Hkeys : keywordsOf emotion = keywords).
  { simpl in Htab.
    repeat (destruct Htab as [Htab | Htab];
            [injection Htab as <- <-; reflexivity |]).
    destruct Htab. }
  unfold emotionCount. rewrite Hkeys. exact Hcount.
Qed.

Lemma keywords_match_inside_words_witness :
  1 <= emotionCount "I feel hopeless" "hopeful" /\
  1 <= emotionCount "So unhappy" "happy".
Proof.
  split.
  - apply (@keywords_match_inside_words "I feel hopeless" "hopeful"
             ["hope"; "looking forward"; "optimistic"; "better"; "improve"]
             "hope" "hopeless"); try reflexivity; simpl; tauto.
  - apply (@keywords_match_inside_words "So unhappy" "happy"
             ["happy"; "joy"; "great"; "excited"; "wonderful"; "awesome"; "good"]
             "happy" "unhappy"); try reflexivity; simpl; tauto.
Defined.

Lemma num_add (n m : nat) : (num (n + m) == num n + num m)%Q.
Proof. unfold num. rewrite Nat2Z.inj_add, inject_Z_plus. reflexivity. Qed.

(** X5. A text that contains "hopeless" and none of the keywords of the four
    distress emotions gets a wellness score of at least 60, above the 50 of
    a text without keywords: "hopeless" matches the keyword "hope" of the
    positive emotion hopeful and no distress keyword. *)
Theorem hopeless_scores_well text :
  includes (toLowerCase text) "hopeless" = true ->
  distressCount text = 0 ->
  (60 <= wellnessOf text)%Q.
Proof.
  intros Hinc Hd.
  assert (Hp : 1 <= positiveCount text).
  { unfold positiveCount.
    assert (1 <= emotionCount text "hopeful").
    { apply countMatches_pos with "hope"; [simpl; tauto |].
      apply includes_trans with "hopeless"; [exact Hinc | reflexivity]. }
    lia. }
  destruct (analyzeText_fields text) as (_ & _ & _ & -> & _).
  rewrite Hd. apply num_le in Hp. change (num 1) with 1%Q in Hp.
  change (num 0) with 0%Q. minmax; lra.
Qed.

Lemma hopeless_scores_well_witness : (60 <= wellnessOf "I feel hopeless")%Q.
Proof. apply hopeless_scores_well; reflexivity. Defined.

(** X6. [estimateAlliance]: a text without markers has the base alliance
    75; an alliance below 75 needs at least one negative marker; and a text
    with the negative marker "dont understand" or "don't understand" always
    counts the positive marker "understand" as well. *)
Theorem alliance_markers text :
  let lowerText := toLowerCase text in
  let positive := countMatches lowerText positiveMarkers in
  let negative := countMatches lowerText negativeMarkers in
  (positive = 0 -> negative = 0 -> (allianceOf text == 75)%Q) /\
  ((allianceOf text < 75)%Q -> 1 <= negative) /\
  (includes lowerText "dont understand" = true \/
   includes lowerText "don't understand" = true -> 1 <= positive).
Proof.
  cbv zeta. destruct (analyzeText_fields text) as (_ & _ & _ & _ & _ & ->).
  unfold estimateAlliance. cbv zeta.
  set (p := countMatches (toLowerCase text) positiveMarkers).
  set (n := countMatches (toLowerCase text) negativeMarkers).
  split; [| split].
  - intros -> ->. vm_compute. reflexivity.
  - intros Hlt. destruct n as [| n]; [| lia]. exfalso.
    pose proof (num_nonneg p). change (num 0) with 0%Q in Hlt.
    revert Hlt. minmax; lra.
  - intros Hinc. subst p. apply countMatches_pos with "understand"; [simpl; tauto |].
    destruct Hinc as [H | H];
      [apply includes_trans with "dont understand" |
       apply includes_trans with "don't understand"]; auto.
Qed.

Lemma alliance_markers_witness :
  (allianceOf "hello there" == 75)%Q /\
  1 <= countMatches (toLowerCase "You don't understand me") positiveMarkers.
Proof.
  destruct (alliance_markers "hello there") as (H75 & _).
  destruct (alliance_markers "You don't understand me") as (_ & _ & Hpos).
  split; [apply H75; reflexivity | apply Hpos; right; reflexivity].
Defined.

(** ** The typing analysis of the chat interface *)

Lemma num_gt_iff (a b : number) : num_gt a b = true <-> (b < a)%Q.
Proof.
  unfold num_gt. rewrite negb_true_iff. split.
  - intros H. apply Qnot_le_lt. intros Hle. apply Qle_bool_iff in Hle. congruence.
  - intros H. destruct (Qle_bool a b) eqn:E; [| reflexivity].
    apply Qle_bool_iff in E. exfalso. apply (Qlt_not_le _ _ H E).
Qed.

Lemma num_lt_iff (a b : number) : num_lt a b = true <-> (a < b)%Q.
Proof. unfold num_lt. apply (num_gt_iff b a). Qed.

(** The thresholds of the typing analysis, as counts of keywords. *)
Lemma distress_thresholds text :
  ((0.8 < distressOf text)%Q <-> 5 <= distressCount text) /\
  ((0.7 < distressOf text)%Q <-> 4 <= distressCount text) /\
  ((0.6 < distressOf text)%Q <-> 4 <= distressCount text) /\
  ((75 < stressOf text)%Q <-> 4 <= distressCount text) /\
  ((wellnessOf text < 40)%Q <-> positiveCount text + 2 <= distressCount text).
Proof.
  destruct (analyzeText_fields text) as (_ & _ & Hd & Hw & Hs & _).
  rewrite Hs, Hd, Hw.
  set (d := distressCount text). set (p := positiveCount text).
  pose proof (num_nonneg d) as Hd0. pose proof (num_nonneg p) as Hp0.
  assert (Hcases : forall k, (d <= k /\ (num d <= num k)%Q) \/
                             (S k <= d /\ (num k + 1 <= num d)%Q)).
  { intros k. destruct (Nat.le_gt_cases d k) as [H | H].
    - left. split; [exact H | apply num_le; exact H].
    - right. split; [exact H |]. rewrite <- num_S. apply num_le. exact H. }
  repeat split.
  - intros H. destruct (Hcases 4) as [[Hk Hq] | [Hk Hq]]; [| exact Hk].
    exfalso. change (num 4) with 4%Q in Hq. revert H. qdiv. minmax; lra.
  - intros H. destruct (Hcases 4) as [[Hk Hq] | [Hk Hq]]; [lia |].
    change (num 4) with 4%Q in Hq. qdiv. minmax; lra.
  - intros H. destruct (Hcases 3) as [[Hk Hq] | [Hk Hq]]; [| exact Hk].
    exfalso. change (num 3) with 3%Q in Hq. revert H. qdiv. minmax; lra.
  - intros H. destruct (Hcases 3) as [[Hk Hq] | [Hk Hq]]; [lia |].
    change (num 3) with 3%Q in Hq. qdiv. minmax; lra.
  - intros H. destruct (Hcases 3) as [[Hk Hq] | [Hk Hq]]; [| exact Hk].
    exfalso. change (num 3) with 3%Q in Hq. revert H. qdiv. minmax; lra.
  - intros H. destruct (Hcases 3) as [[Hk Hq] | [Hk Hq]]; [lia |].
    change (num 3) with 3%Q in Hq. qdiv. minmax; lra.
  - intros H. destruct (Hcases 3) as [[Hk Hq] | [Hk Hq]]; [| exact Hk].
    exfalso. change (num 3) with 3%Q in Hq. revert H. qdiv. minmax; lra.
  - intros H. destruct (Hcases 3) as [[Hk Hq] | [Hk Hq]]; [lia |].
    change (num 3) with 3%Q in Hq. qdiv. minmax; lra.
  - intros H. destruct (Hcases (p + 1)) as [[Hk Hq] | [Hk Hq]]; [| lia].
    exfalso. rewrite num_add in Hq. change (num 1) with 1%Q in Hq.
    revert H. minmax; lra.
  - intros H. destruct (Hcases (p + 1)) as [[Hk Hq] | [Hk Hq]]; [lia |].
    rewrite num_add in Hq. change (num 1) with 1%Q in Hq. minmax; lra.
Qed.

#[local] Opaque analyzeText.

Lemma typingRisk_cases text :
  (5 <= distressCount text /\ typingRisk (analyzeText text) = "high") \/
  (distressCount text = 4 /\ typingRisk (analyzeText text) = "medium") \/
  (distressCount text <= 3 /\ typingRisk (analyzeText text) = "low").
Proof.
  destruct (distress_thresholds text) as (H8 & _ & H6 & _).
  unfold distressOf in *. unfold typingRisk.
  destruct (num_gt _ 0.8%Q) eqn:E8.
  - left. split; [apply H8, num_gt_iff; exact E8 | reflexivity].
  - assert (N8 : ~ 5 <= distressCount text).
    { intros H. apply H8, num_gt_iff in H. congruence. }
    destruct (num_gt _ 0.6%Q) eqn:E6.
    + right. left. apply num_gt_iff, H6 in E6. split; [lia | reflexivity].
    + right. right. split; [| reflexivity].
      assert (N6 : ~ 4 <= distressCount text).
      { intros H. apply H6, num_gt_iff in H. congruence. }
      lia.
Qed.

Lemma healthAlertsOf_cases text :
  healthAlertsOf (analyzeText text) =
  (if Nat.leb 4 (distressCount text) then [stressAlert] else [])
  ++ (if Nat.leb (positiveCount text + 2) (distressCount text) then [wellnessAlert] else [])
  ++ (if Nat.leb 4 (distressCount text) then [emotionalAlert] else []).
Proof.
  destruct (distress_thresholds text) as (_ & H7 & _ & Hs & Hw).
  unfold distressOf, stressOf, wellnessOf in *. unfold healthAlertsOf.
  assert (E1 : num_gt (SentimentHealth.stressLevel (SentimentMetrics.health (analyzeText text)))
                 75%Q = Nat.leb 4 (distressCount text)).
  { apply eq_iff_eq_true. rewrite num_gt_iff, Nat.leb_le. exact Hs. }
  assert (E2 : num_lt (SentimentHealth.wellnessScore
                         (SentimentMetrics.health (analyzeText text))) 40%Q
               = Nat.leb (positiveCount text + 2) (distressCount text)).
  { apply eq_iff_eq_true. rewrite num_lt_iff, Nat.leb_le. exact Hw. }
  assert (E3 : num_gt (AnalysisEmotion.distressLevel
                         (SentimentMetrics.emotion (analyzeText text))) 0.7%Q
               = Nat.leb 4 (distressCount text)).
  { apply eq_iff_eq_true. rewrite num_gt_iff, Nat.leb_le. exact H7. }
  rewrite E1, E2, E3. reflexivity.
Qed.

(** X7. The analysis of the text being typed sets the risk level from the
    number of distress keywords (of sad, angry, anxious, overwhelmed) in the
    text: "high" exactly for five or more, "medium" exactly for four, "low"
    exactly for three or fewer, and never "critical"; a risk level other
    than "low" comes with at least two concerns. *)
Theorem typing_risk_levels prev text :
  let a := typingUpdate prev (analyzeText text) in
  let risk := AnalysisSafety.riskLevel (AnalysisData.safety a) in
  (risk = "high" <-> 5 <= distressCount text) /\
  (risk = "medium" <-> distressCount text = 4) /\
  (risk = "low" <-> distressCount text <= 3) /\
  risk <> "critical" /\
  (risk <> "low" -> 2 <= length (AnalysisSafety.concerns (AnalysisData.safety a))).
Proof.
  cbv zeta. unfold typingUpdate. cbv zeta.
  cbn [AnalysisData.safety AnalysisSafety.riskLevel AnalysisSafety.concerns].
  rewrite healthAlertsOf_cases.
  destruct (typingRisk_cases text) as [[Hd ->] | [[Hd ->] | [Hd ->]]].
  - repeat split; try discriminate; try lia; intros _.
    destruct (Nat.leb_spec 4 (distressCount text)); [| lia].
    rewrite length_map, !length_app. simpl. lia.
  - repeat split; try discriminate; try lia; intros _.
    destruct (Nat.leb_spec 4 (distressCount text)); [| lia].
    rewrite length_map, !length_app. simpl. lia.
  - repeat split; try discriminate; try lia. intros H. contradiction.
Qed.

Lemma typing_risk_levels_witness :
  2 <= length (AnalysisSafety.concerns
                 (AnalysisData.safety
                    (typingUpdate None
                       (analyzeText "sad, angry, anxious, overwhelmed and hurt")))).
Proof.
  destruct (typing_risk_levels None "sad, angry, anxious, overwhelmed and hurt")
    as (_ & _ & _ & _ & H).
  apply H. vm_compute. discriminate.
Defined.


(** X8. The alerts of the typing analysis, by keyword counts: the stress
    alert is raised exactly when four or more distress keywords occur, the
    emotional alert exactly when the stress alert is, and the wellness alert
    exactly when the distress keywords outnumber the positive ones by two or
    more; the safety concerns are the messages of the alerts, in order. *)
Theorem typing_alerts prev text :
  let a := typingUpdate prev (analyzeText text) in
  (hasAlert "stress" a = true <-> 4 <= distressCount text) /\
  (hasAlert "emotional" a = hasAlert "stress" a) /\
  (hasAlert "wellness" a = true <-> positiveCount text + 2 <= distressCount text) /\
  AnalysisSafety.concerns (AnalysisData.safety a)
  = map HealthAlert.message
      (match AnalysisData.health a with Some h => AnalysisHealth.alerts h | None => [] end).
Proof.
  cbv zeta. unfold typingUpdate, hasAlert. cbv zeta.
  cbn [AnalysisData.safety AnalysisSafety.concerns AnalysisData.health
       AnalysisHealth.alerts].
  rewrite healthAlertsOf_cases.
  generalize (distressCount text) (positiveCount text). intros d p.
  destruct (Nat.leb_spec 4 d) as [H4 | H4];
    destruct (Nat.leb_spec (p + 2) d) as [Hw | Hw];
    (split; [| split; [| split]]); try reflexivity;
    cbn; split; intros; try discriminate; try reflexivity; try lia.
Qed.

Lemma typing_alerts_witness :
  hasAlert "stress"
    (typingUpdate None (analyzeText "sad, angry, anxious, overwhelmed and hurt")) = true.
Proof.
  destruct (typing_alerts None "sad, angry, anxious, overwhelmed and hurt") as (H & _).
  apply H. vm_compute. lia.
Defined.

(** ** History windows *)

Lemma slice_last_app {A} (n : nat) (old recent : list A) :
  length recent = n -> slice_last n (old ++ recent) = recent.
Proof.
  intros H. unfold slice_last. rewrite length_app, H.
  replace (length old + n - n) with (length old + 0) by lia.
  rewrite skipn_app, Nat.add_0_r, skipn_all.
  replace (length old - length old) with 0 by lia. reflexivity.
Qed.

Lemma slice_last_all {A} (n : nat) (l : list A) : length l <= n -> slice_last n l = l.
Proof.
  intros H. unfold slice_last. replace (length l - n) with 0 by lia. reflexivity.
Qed.

(** ** The fast flow *)

Lemma run_fastMitrFlow (o : Oracle) input hist :
  exists ts ans,
    trace o (fastMitrFlow input) hist =
      [Logged Date_toISOString ts;
       Logged (fastTherapistPrompt (FastMitrInput.userMessage input) (fastHistoryOf input))
         ans] /\
    match ans with
    | Rejected e => outcome o (fastMitrFlow input) hist = Rejected e
    | Resolved r =>
        exists out,
          outcome o (fastMitrFlow input) hist = Resolved out /\
          FastMitrOutput.response out
          = opt_or_string r FastTherapistOutput.response
              "I understand. How can I help you today?" /\
          FastMitrOutput.emotionAnalysis out
          = EmotionSummary.Build "neutral" 0.8%Q 0.3%Q
              ["Focus on the present"; "Express your feelings"] /\
          FastMitrOutput.healthAnalysis out
          = HealthSummary.Build 75%Q 35%Q [] ["Take regular breaks"; "Stay hydrated"] /\
          FastMitrOutput.contextualInsights out
          = ContextualInsights.Build "supportive_listening" "low" "exploration" 75%Q /\
          FastMitrOutput.safetyAssessment out = SafetyAssessment.Build "low" [] [] false /\
          Metadata.analysisTimestamp (FastMitrOutput.metadata out) = ts
    end.
Proof.
  unfold trace, outcome, fastMitrFlow. rewrite run_bind, run_trigger. cbv zeta.
  rewrite run_bind, run_await. fold (fastHistoryOf input).
  exists (o _ hist Date_toISOString).
  exists (o _ (hist ++ [Logged Date_toISOString (o _ hist Date_toISOString)])
            (fastTherapistPrompt (FastMitrInput.userMessage input) (fastHistoryOf input))).
  destruct (o _ _ (fastTherapistPrompt _ _)) as [r | e].
  - split; [reflexivity |]. eexists. split; [reflexivity |]. repeat split.
  - split; reflexivity.
Qed.

Lemma or_string_nonempty (a d : string) : d <> "" -> or_string a d <> "".
Proof.
  intros Hd. unfold or_string, truthy_string.
  destruct (a =? "") eqn:E; simpl; [exact Hd |].
  apply String.eqb_neq. exact E.
Qed.

Lemma opt_or_string_nonempty {A} (a : option A) (f : A -> string) (d : string) :
  d <> "" -> opt_or_string a f d <> "".
Proof.
  intros Hd. destruct a; simpl; [apply or_string_nonempty; exact Hd | exact Hd].
Qed.

(** X9. The output of the fast flow is static but for the response text
    and the timestamp: two resolved runs, whatever their inputs, oracles and
    histories, agree on the emotion, health, context, avatar, intervention
    and safety parts and on the confidence score and data quality; the risk
    level is "low" and the response is never empty. *)
Theorem fast_flow_is_static (o1 o2 : Oracle) input1 input2 hist1 hist2 out1 out2 :
  outcome o1 (processFastMitrRequest input1) hist1 = Resolved out1 ->
  outcome o2 (processFastMitrRequest input2) hist2 = Resolved out2 ->
  FastMitrOutput.emotionAnalysis out1 = FastMitrOutput.emotionAnalysis out2 /\
  FastMitrOutput.healthAnalysis out1 = FastMitrOutput.healthAnalysis out2 /\
  FastMitrOutput.contextualInsights out1 = FastMitrOutput.contextualInsights out2 /\
  FastMitrOutput.avatarControl out1 = FastMitrOutput.avatarControl out2 /\
  FastMitrOutput.interventions out1 = FastMitrOutput.interventions out2 /\
  FastMitrOutput.safetyAssessment out1 = FastMitrOutput.safetyAssessment out2 /\
  Metadata.confidenceScore (FastMitrOutput.metadata out1)
  = Metadata.confidenceScore (FastMitrOutput.metadata out2) /\
  Metadata.dataQuality (FastMitrOutput.metadata out1)
  = Metadata.dataQuality (FastMitrOutput.metadata out2) /\
  SafetyAssessment.riskLevel (FastMitrOutput.safetyAssessment out1) = "low" /\
  FastMitrOutput.response out1 <> "".
Proof.
  unfold outcome, processFastMitrRequest, fastMitrFlow.
  rewrite !run_bind, !run_trigger. cbv zeta. rewrite !run_bind, !run_await.
  destruct (o1 _ _ (fastTherapistPrompt _ _)) as [r1 | e1]; [| discriminate].
  destruct (o2 _ _ (fastTherapistPrompt _ _)) as [r2 | e2]; [| discriminate].
  simpl. intros [= <-] [= <-]. simpl. repeat split.
  apply opt_or_string_nonempty. discriminate.
Qed.

Lemma fast_flow_is_static_witness :
  exists out1 out2,
    outcome (scripted fastUp) (processFastMitrRequest (FastMitrInput.Build "hi" None)) []
    = Resolved out1 /\
    outcome (scripted fastUp)
      (processFastMitrRequest (FastMitrInput.Build "I want to die" (Some (fastTurns 4)))) []
    = Resolved out2 /\
    FastMitrOutput.safetyAssessment out1 = FastMitrOutput.safetyAssessment out2.
Proof.
  assert (H1 : exists out1,
             outcome (scripted fastUp)
               (processFastMitrRequest (FastMitrInput.Build "hi" None)) [] = Resolved out1)
    by (eexists; vm_compute; reflexivity).
  assert (H2 : exists out2,
             outcome (scripted fastUp)
               (processFastMitrRequest
                  (FastMitrInput.Build "I want to die" (Some (fastTurns 4)))) []
             = Resolved out2)
    by (eexists; vm_compute; reflexivity).
  destruct H1 as [out1 H1]. destruct H2 as [out2 H2].
  exists out1, out2. split; [exact H1 |]. split; [exact H2 |].
  pose proof (@fast_flow_is_static _ _ _ _ _ _ _ _ H1 H2) as H.
  apply H.
Defined.

(** X10. The fast flow makes exactly one model call, and only the last
    three turns of the conversation history reach it: dropping the turns
    before them changes neither the outcome nor the trace of the run. *)
Theorem fast_flow_one_call_last_three (o : Oracle) userMessage old recent hist :
  length recent = 3 ->
  let input := FastMitrInput.Build userMessage (Some (old ++ recent)) in
  length (modelCalls (trace o (fastMitrFlow input) hist)) = 1 /\
  run o (fastMitrFlow input) hist
  = run o (fastMitrFlow (FastMitrInput.Build userMessage (Some recent))) hist.
Proof.
  intros Hlen. cbv zeta. split.
  - destruct (run_fastMitrFlow o
                (FastMitrInput.Build userMessage (Some (old ++ recent))) hist)
      as (ts & ans & Htr & _).
    rewrite Htr. reflexivity.
  - unfold fastMitrFlow. cbn [FastMitrInput.conversationHistory option_map].
    rewrite (slice_last_app old recent Hlen), (slice_last_all recent); [reflexivity | lia].
Qed.

Lemma fast_flow_one_call_last_three_witness :
  run (scripted fastUp) (fastMitrFlow (FastMitrInput.Build "hi" (Some (fastTurns 5)))) []
  = run (scripted fastUp) (fastMitrFlow (FastMitrInput.Build "hi" (Some (fastTurns 3)))) [].
Proof.
  apply (@fast_flow_one_call_last_three (scripted fastUp) "hi" (fastTurns 2) (fastTurns 3) []
           eq_refl).
Defined.

(** ** The chat interface, end to end *)


(** ** The knowledge matcher, for the labels it accepts *)

Lemma item_In r : r < length therapeuticKnowledgeBase -> In (item r) therapeuticKnowledgeBase.
Proof. intros H. unfold item. apply nth_In. exact H. Qed.

(** X12. For an emotion label that is not a property name inherited from
    Object.prototype, [findRelevantKnowledge] returns, without throwing, at
    most five entries of the knowledge base with pairwise different topics,
    each selected by one of its keywords occurring in the lower-cased
    message or by the keywords of the emotion. *)
Theorem knowledge_matcher_contract message emotionalContext :
  (forall label, currentEmotion_truthy emotionalContext = Some label ->
                 array_includes Object_prototype_keys label = false) ->
  exists entries,
    findRelevantKnowledge message emotionalContext = Resolved entries /\
    length entries <= 5 /\
    NoDup (map KnowledgeEntry.topic entries) /\
    forall it, In it entries ->
      In it therapeuticKnowledgeBase /\
      (keyword_match (toLowerCase message) it = true \/
       exists label emotionKeys,
         currentEmotion_truthy emotionalContext = Some label /\
         emotionKeywords_get label = OwnArray emotionKeys /\
         emotion_match emotionKeys it = true).
Proof.
  intros Hlabel.
  destruct (findRelevantKnowledge_returns message emotionalContext Hlabel) as [refs Hrefs].
  destruct (findRelevantKnowledge_contract _ _ Hrefs) as (Hlen & _ & Htopics & Hsel & _).
  exists (map item refs). unfold findRelevantKnowledge. rewrite Hrefs.
  split; [reflexivity |]. split; [rewrite length_map; exact Hlen |].
  split; [rewrite map_map; exact Htopics |].
  intros it Hin. apply in_map_iff in Hin. destruct Hin as (r & <- & Hr).
  destruct (Hsel r Hr) as [Hlt Hwhy]. split; [apply item_In; exact Hlt | exact Hwhy].
Qed.

Lemma knowledge_matcher_contract_witness :
  exists entries,
    findRelevantKnowledge "I feel sad and full of fear" (Some (emotionalContext_of "sad"))
    = Resolved entries /\
    length entries <= 5.
Proof.
  destruct (@knowledge_matcher_contract "I feel sad and full of fear"
              (Some (emotionalContext_of "sad"))) as (entries & H & Hlen & _).
  - intros label [= <-]. reflexivity.
  - exists entries. split; assumption.
Defined.

Lemma kb_filter_NoDup p : NoDup (kb_filter p).
Proof. unfold kb_filter, kb_refs. apply NoDup_filter, seq_NoDup. Qed.

Lemma uniq_aux_app seen l1 l2 :
  NoDup l1 -> (forall x, In x l1 -> ~ In x seen) ->
  uniq_aux seen (l1 ++ l2) = l1 ++ uniq_aux (rev l1 ++ seen) l2.
Proof.
  revert seen. induction l1 as [| y l1 IH]; intros seen Hnd Hdis; simpl; [reflexivity |].
  inversion Hnd as [| ? ? Hy Hl]; subst.
  destruct (existsb (Nat.eqb y) seen) eqn:E.
  - apply existsb_eqb_In in E. exfalso. apply (Hdis y); simpl; auto.
  - f_equal. rewrite IH; [rewrite <- app_assoc; reflexivity | exact Hl |].
    intros x Hx [H | H]; [subst; contradiction |]. apply (Hdis x); simpl; auto.
Qed.

(** X13. Keyword matches take precedence in [findRelevantKnowledge]: the
    result is the first five entries of a list that starts with all keyword
    matches, in the order of the knowledge base, and goes on with entries
    that are not keyword matches; without an emotional context nothing
    follows the keyword matches, and with five or more keyword matches the
    result is the first five of them. *)
Theorem keyword_matches_come_first message emotionalContext refs :
  findRelevantKnowledge_refs message emotionalContext = Resolved refs ->
  let byKeyword := kb_filter (keyword_match (toLowerCase message)) in
  exists rest,
    refs = slice_first 5 (byKeyword ++ rest) /\
    (forall r, In r rest -> ~ In r byKeyword) /\
    (emotionalContext = None -> rest = []) /\
    (5 <= length byKeyword -> refs = slice_first 5 byKeyword).
Proof.
  unfold findRelevantKnowledge_refs, collectKnowledge. cbv zeta.
  set (kw := kb_filter (keyword_match (toLowerCase message))).
  assert (Hkw : NoDup kw) by apply kb_filter_NoDup.
  assert (Hshape : forall em,
            exists rest,
              Array_from_Set (kw ++ em) = kw ++ rest /\
              (forall r, In r rest -> ~ In r kw) /\ (em = [] -> rest = [])).
  { intros em. unfold Array_from_Set. rewrite uniq_aux_app; [| exact Hkw | auto].
    exists (uniq_aux (rev kw ++ []) em). split; [reflexivity |]. split.
    - intros r Hr. apply uniq_aux_In in Hr. destruct Hr as [_ Hr].
      intros Hin. apply Hr. apply in_or_app. left. apply in_rev.
      rewrite rev_involutive. exact Hin.
    - intros ->. reflexivity. }
  assert (Hfirst : forall rest, 5 <= length kw ->
                     slice_first 5 (kw ++ rest) = slice_first 5 kw).
  { intros rest Hlen. unfold slice_first. rewrite firstn_app.
    replace (5 - length kw) with 0 by lia. simpl. apply app_nil_r. }
  destruct (currentEmotion_truthy emotionalContext) as [label |] eqn:Elabel.
  - destruct (emotionKeywords_get label) as [keys | |]; [| discriminate |].
    + intros H. injection H as H.
      destruct (Hshape (kb_filter (emotion_match keys))) as (rest & Heq & Hdis & _).
      change (slice_first 5 (Array_from_Set (kw ++ kb_filter (emotion_match keys))) = refs)
        in H.
      rewrite Heq in H. subst refs. exists rest.
      split; [reflexivity |]. split; [exact Hdis |].
      split; [intros ->; discriminate | apply Hfirst].
    + intros H. injection H as H.
      destruct (Hshape (kb_filter (emotion_match []))) as (rest & Heq & Hdis & _).
      change (slice_first 5 (Array_from_Set (kw ++ kb_filter (emotion_match []))) = refs)
        in H.
      rewrite Heq in H. subst refs. exists rest.
      split; [reflexivity |]. split; [exact Hdis |].
      split; [intros ->; discriminate | apply Hfirst].
  - intros H. injection H as H.
    change (slice_first 5 (Array_from_Set kw) = refs) in H.
    destruct (Hshape []) as (rest & Heq & Hdis & Hnil).
    rewrite app_nil_r in Heq. rewrite Heq in H. subst refs.
    rewrite (Hnil eq_refl). exists []. rewrite app_nil_r.
    split; [reflexivity |]. split; [intros r [] |]. split; [reflexivity | intros _; reflexivity].
Qed.

Lemma keyword_matches_come_first_witness :
  exists rest,
    [4; 5] = slice_first 5 (kb_filter (keyword_match (toLowerCase "I panic")) ++ rest).
Proof.
  destruct (@keyword_matches_come_first "I panic" (Some (emotionalContext_of "sad")) [4; 5])
    as (rest & H & _).
  - vm_compute. reflexivity.
  - exists rest. exact H.
Defined.

(** ** The context-management flow: its calls *)

(** X14. The calls of [manageContext]: the intent classifier is called
    exactly once, with the message and the lines of the last five turns; the
    context analysis is called at most once, with the whole input, and is
    skipped exactly when the classifier call is rejected or the knowledge
    matcher throws. A classifier that answers without an output is detected
    only after the context analysis was called, and the flow then rejects. *)
Theorem manageContext_calls (o : Oracle) input hist :
  let tr := trace o (manageContext input) hist in
  let matcher :=
    findRelevantKnowledge (ContextManagementInput.currentMessage input)
      (ContextManagementInput.emotionalContext input) in
  exists intentAnswer,
    intentCalls tr =
      [(ContextManagementInput.currentMessage input,
        Some (recent_lines 5 (ContextManagementInput.conversationHistory input)),
        intentAnswer)] /\
    (contextCalls tr = [] \/ exists r, contextCalls tr = [(input, r)]) /\
    (contextCalls tr = [] <->
     (exists e, intentAnswer = Rejected e) \/ (exists e, matcher = Rejected e)) /\
    length (modelCalls tr) = 1 + length (contextCalls tr) /\
    (intentAnswer = Resolved None ->
     forall kb, matcher = Resolved kb ->
     length (contextCalls tr) = 1 /\
     exists e, outcome o (manageContext input) hist = Rejected e).
Proof.
  cbv zeta. unfold trace, outcome. rewrite run_manageContext. cbv zeta.
  unfold knowledgeFor, intentEvent.
  exists (o _ hist
            (intentClassificationPrompt (ContextManagementInput.currentMessage input)
               (Some (recent_lines 5 (ContextManagementInput.conversationHistory input))))).
  destruct (o _ hist (intentClassificationPrompt _ _)) as [ir | e].
  - destruct (findRelevantKnowledge _ _) as [kb | e].
    + destruct (o _ _ (contextAnalysisPrompt input)) as [[cr |] | e];
        try destruct ir as [ir |]; simpl;
        (split; [reflexivity |]); (split; [right; eexists; reflexivity |]);
        (split; [split; [discriminate | intros [[e' He] | [e' He]]; discriminate] |]);
        (split; [reflexivity |]);
        intros Hnone kb' _; try discriminate; (split; [reflexivity | eexists; reflexivity]).
    + simpl. split; [reflexivity |]. split; [left; reflexivity |].
      split; [split; [intros _; right; eauto | reflexivity] |].
      split; [reflexivity |]. intros _ kb' [=].
  - simpl. split; [reflexivity |]. split; [left; reflexivity |].
    split; [split; [intros _; left; eauto | reflexivity] |].
    split; [reflexivity |]. discriminate.
Qed.

Lemma manageContext_calls_witness :
  length (contextCalls (trace (scripted intentSilent) (manageContext sampleContextInput) []))
  = 1 /\
  exists e, outcome (scripted intentSilent) (manageContext sampleContextInput) []
            = Rejected e.
Proof.
  destruct (manageContext_calls (scripted intentSilent) sampleContextInput [])
    as (a & Hi & _ & _ & _ & Hnone).
  apply (f_equal (map snd)) in Hi. injection Hi as Ha.
  destruct (findRelevantKnowledge
              (ContextManagementInput.currentMessage sampleContextInput)
              (ContextManagementInput.emotionalContext sampleContextInput))
    as [kb | e] eqn:Ekb; [| discriminate].
  exact (Hnone (eq_sym Ha) kb eq_refl).
Defined.

(** X15. With a history longer than five turns, the intent classifier sees
    the lines of the last five turns only, while the context analysis
    receives the whole history. *)
Theorem intent_sees_last_five (o : Oracle) message old recent profile emotional health hist :
  length recent = 5 ->
  let input :=
    ContextManagementInput.Build message (old ++ recent) profile emotional health in
  let tr := trace o (manageContext input) hist in
  (exists answer,
     intentCalls tr = [(message, Some (join newline (map turn_line recent)), answer)]) /\
  (forall i r, In (i, r) (contextCalls tr) ->
     ContextManagementInput.conversationHistory i = old ++ recent).
Proof.
  intros Hlen. cbv zeta. unfold trace. rewrite run_manageContext. cbv zeta.
  unfold knowledgeFor, intentEvent, recent_lines.
  cbn [ContextManagementInput.currentMessage ContextManagementInput.conversationHistory
       ContextManagementInput.emotionalContext].
  rewrite (slice_last_app old recent Hlen).
  destruct (o _ hist (intentClassificationPrompt _ _)) as [ir | e].
  - destruct (findRelevantKnowledge _ _) as [kb | e].
    + destruct (o _ _ (contextAnalysisPrompt _)) as [[cr |] | e];
        try destruct ir as [ir |]; cbn;
        (split; [eexists; reflexivity |]);
        intros i r [[= <- _] | []]; reflexivity.
    + cbn. split; [eexists; reflexivity | intros i r []].
  - cbn. split; [eexists; reflexivity | intros i r []].
Qed.

Lemma intent_sees_last_five_witness :
  exists answer,
    intentCalls
      (trace (scripted (allUp 0%Q))
         (manageContext
            (ContextManagementInput.Build "hi" (contextTurns 2 ++ contextTurns 5)
               None None None)) [])
    = [("hi", Some (join newline (map turn_line (contextTurns 5))), answer)].
Proof.
  apply (@intent_sees_last_five (scripted (allUp 0%Q)) "hi" (contextTurns 2)
           (contextTurns 5) None None None [] eq_refl).
Defined.

(** ** The emotion-analysis flow: the analyzers *)

Lemma run_facialStage_eq (o : Oracle) input hist :
  run o (facialStage input) hist =
  match facialSignal input with
  | Some img =>
      let ev := facialEmotionPrompt img in
      match o _ hist ev with
      | Resolved v => (Resolved v, [Logged ev (Resolved v)])
      | Rejected e =>
          let err := console_error "Facial emotion analysis failed:" e in
          (Resolved None,
           [Logged ev (Rejected e);
            Logged err (o _ (hist ++ [Logged ev (Rejected e)]) err)])
      end
  | None => (Resolved None, [])
  end.
Proof.
  unfold facialStage, facialSignal.
  destruct (EmotionAnalysisInput.imageData input) as [img |]; [| reflexivity].
  destruct (truthy_string img); [| reflexivity].
  rewrite run_recover, run_await. cbv zeta.
  destruct (o _ hist (facialEmotionPrompt img)); reflexivity.
Qed.

Lemma run_voiceStage_eq (o : Oracle) input hist :
  run o (voiceStage input) hist =
  match EmotionAnalysisInput.audioFeatures input with
  | Some af =>
      let ev := voiceEmotionPrompt af in
      match o _ hist ev with
      | Resolved v => (Resolved v, [Logged ev (Resolved v)])
      | Rejected e =>
          let err := console_error "Voice emotion analysis failed:" e in
          (Resolved None,
           [Logged ev (Rejected e);
            Logged err (o _ (hist ++ [Logged ev (Rejected e)]) err)])
      end
  | None => (Resolved None, [])
  end.
Proof.
  unfold voiceStage.
  destruct (EmotionAnalysisInput.audioFeatures input) as [af |]; [| reflexivity].
  rewrite run_recover, run_await. cbv zeta.
  destruct (o _ hist (voiceEmotionPrompt af)); reflexivity.
Qed.

Lemma run_textStage_eq (o : Oracle) input hist :
  run o (textStage input) hist =
  match textSignal input with
  | Some txt =>
      let ev := textEmotionPrompt txt (EmotionAnalysisInput.conversationHistory input) in
      match o _ hist ev with
      | Resolved v => (Resolved v, [Logged ev (Resolved v)])
      | Rejected e =>
          let err := console_error "Text emotion analysis failed:" e in
          (Resolved None,
           [Logged ev (Rejected e);
            Logged err (o _ (hist ++ [Logged ev (Rejected e)]) err)])
      end
  | None => (Resolved None, [])
  end.
Proof.
  unfold textStage, textSignal.
  destruct (EmotionAnalysisInput.textContent input) as [txt |]; [| reflexivity].
  destruct (truthy_string txt); [| reflexivity].
  rewrite run_recover, run_await. cbv zeta.
  destruct (o _ hist (textEmotionPrompt txt _)); reflexivity.
Qed.

Ltac emotion_cases o input :=
  unfold trace, outcome, analyzeEmotions, emotionAnalysisFlow;
  rewrite run_bind, run_facialStage_eq;
  destruct (facialSignal input) as [img |];
    [cbv zeta; destruct (o _ _ (facialEmotionPrompt img)) as [facial | e1] |];
    rewrite run_bind, run_voiceStage_eq;
    (destruct (EmotionAnalysisInput.audioFeatures input) as [af |];
     [cbv zeta; destruct (o _ _ (voiceEmotionPrompt af)) as [voice | e2] |]);
    rewrite run_bind, run_textStage_eq;
    (destruct (textSignal input) as [txt |];
     [cbv zeta; destruct (o _ _ (textEmotionPrompt txt _)) as [text | e3] |]);
    rewrite run_bind, run_await;
    (destruct (o _ _ (multimodalFusionPrompt _ _ _)) as [[f |] | e4]);
    cbv zeta; rewrite ?run_fuse; cbn.

(** What the emotion analysis adds to a trace, counted. *)
Lemma analyzeEmotions_counts (o : Oracle) input hist :
  let tr := trace o (analyzeEmotions input) hist in
  length (facialCalls tr) <= 1 /\ length (voiceCalls tr) <= 1 /\
  length (textCalls tr) <= 1 /\ length (fusionCalls tr) = 1 /\
  intentCalls tr = [] /\ contextCalls tr = [] /\
  length (modelCalls tr)
  = length (facialCalls tr) + length (voiceCalls tr) + length (textCalls tr) + 1.
Proof.
  cbv zeta. emotion_cases o input; repeat split; lia.
Qed.

(** X16. In [analyzeEmotions] a modality analyzer is called once exactly
    when its signal is present (a non-empty image, audio features, a
    non-empty text), and its failure never fails the flow: the fusion prompt
    is called once with the outputs of the analyzers that answered, the flow
    resolves exactly when the fusion call resolves with an output, and the
    result carries the same modality outputs; the number of model calls is
    the number of analyzer calls plus one. *)
Theorem modality_failures_are_isolated (o : Oracle) input hist :
  let tr := trace o (analyzeEmotions input) hist in
  map fst (facialCalls tr) = asList (facialSignal input) /\
  map fst (voiceCalls tr) = asList (EmotionAnalysisInput.audioFeatures input) /\
  map fst (textCalls tr)
  = asList (option_map (fun t => (t, EmotionAnalysisInput.conversationHistory input))
              (textSignal input)) /\
  (exists fusionAnswer,
     fusionCalls tr =
       [(stringify_if_present (heard (facialCalls tr)),
         stringify_if_present (heard (voiceCalls tr)),
         stringify_if_present (heard (textCalls tr)), fusionAnswer)] /\
     ((exists out, outcome o (analyzeEmotions input) hist = Resolved out) <->
      (exists f, fusionAnswer = Resolved (Some f)))) /\
  length (modelCalls tr)
  = length (facialCalls tr) + length (voiceCalls tr) + length (textCalls tr) + 1 /\
  (forall out,
     outcome o (analyzeEmotions input) hist = Resolved out ->
     EmotionAnalysisOutput.facialEmotions out = heard (facialCalls tr) /\
     EmotionAnalysisOutput.voiceEmotions out = heard (voiceCalls tr) /\
     EmotionAnalysisOutput.textEmotions out = heard (textCalls tr)).
Proof.
  cbv zeta. emotion_cases o input;
    (split; [reflexivity |]); (split; [reflexivity |]); (split; [reflexivity |]);
    (split; [eexists; split; [reflexivity |];
             split; [intros [out [=]]; eauto | intros [f' [=]]; eauto] |]);
    (split; [reflexivity |]);
    intros out [= <-]; repeat split.
Qed.

Lemma modality_failures_are_isolated_witness :
  exists out,
    outcome (scripted (voiceOnly calmVoice)) (analyzeEmotions voiceAndText) []
    = Resolved out /\
    EmotionAnalysisOutput.facialEmotions out = None /\
    EmotionAnalysisOutput.voiceEmotions out = Some calmVoice /\
    EmotionAnalysisOutput.textEmotions out = None.
Proof.
  destruct (@modality_failures_are_isolated (scripted (voiceOnly calmVoice))
              voiceAndText []) as (_ & _ & _ & (a & Hf & Hiff) & _ & Hout).
  apply (f_equal (map snd)) in Hf. injection Hf as Ha.
  destruct (proj2 Hiff (ex_intro _ sampleFusion (eq_sym Ha))) as [out Hres].
  exists out. split; [exact Hres |]. exact (Hout out Hres).
Defined.

(** ** The comprehensive flow: how it settles, and its calls *)

(** X17. The comprehensive flow calls the safety assessment exactly once.
    When that call is rejected the response prompt is not called; otherwise
    it is called exactly once. The flow resolves exactly when both calls
    resolve, whatever became of the emotion and context stages. *)
Theorem comprehensive_settles (o : Oracle) input hist :
  let tr := trace o (comprehensiveMitrFlow input) hist in
  exists si sa,
    safetyCalls tr = [(si, sa)] /\
    (forall e, sa = Rejected e -> responseCalls tr = []) /\
    (forall so, sa = Resolved so -> exists ri ra, responseCalls tr = [(ri, ra)]) /\
    ((exists out, outcome o (comprehensiveMitrFlow input) hist = Resolved out) <->
     (exists so ri ro, sa = Resolved so /\ responseCalls tr = [(ri, Resolved ro)])).
Proof.
  cbv zeta.
  destruct (comprehensive_digest o input hist)
    as (ts & ea & tre & rnd & cg & trc & sa & ra & H).
  cbv zeta in H. destruct H as (_ & _ & _ & Hs & Hr & _ & _ & _ & Hout).
  exists (safetyInput input ea), sa. split; [exact Hs |].
  rewrite Hr, Hout. destruct sa as [so | e].
  - split; [discriminate |]. split; [eauto |].
    destruct ra as [ro | e]; split.
    + intros _. eauto.
    + eauto.
    + intros [out [=]].
    + intros (so' & ri & ro & _ & [=]).
  - split; [reflexivity |]. split; [discriminate |].
    split; [intros [out [=]] | intros (so' & ri & ro & [=] & _)].
Qed.

Lemma comprehensive_settles_witness :
  exists out,
    outcome (scripted (allUp 0%Q)) (comprehensiveMitrFlow (sampleInput None)) []
    = Resolved out.
Proof.
  destruct (comprehensive_settles (scripted (allUp 0%Q)) (sampleInput None) [])
    as (si & sa & Hs & _ & Hso & Hiff).
  apply (f_equal (map snd)) in Hs. injection Hs as Ha.
  destruct (Hso (Some sampleSafety) (eq_sym Ha)) as (ri & ra & Hr).
  pose proof (f_equal (map snd) Hr) as Hb. injection Hb as Hb.
  apply (proj2 Hiff). exists (Some sampleSafety), ri, (Some sampleResponse).
  split; [symmetry; exact Ha |]. rewrite Hr. rewrite <- Hb. reflexivity.
Defined.

Lemma or_boolean_false (b : bool) : or_boolean b false = b.
Proof. destruct b; reflexivity. Qed.

(** X18. In a resolved run of the comprehensive flow, the response prompt
    receives the JSON text of the output of the safety call, and the safety
    assessment of the result is built from that output alone (risk level
    defaulting to "low", concerns, actions, follow-up): the safety assessment
    echoed by the response prompt is not used. The response and the
    interventions come from the response call, with their defaults. *)
Theorem safety_call_is_authoritative (o : Oracle) input hist out :
  outcome o (comprehensiveMitrFlow input) hist = Resolved out ->
  let tr := trace o (comprehensiveMitrFlow input) hist in
  exists si so ri ro,
    safetyCalls tr = [(si, Resolved so)] /\
    responseCalls tr = [(ri, Resolved ro)] /\
    ResponseInput.safetyFactors ri = JSON_stringify so /\
    ComprehensiveMitrOutput.safetyAssessment out =
      match so with
      | Some s =>
          SafetyAssessment.Build (or_string (SafetyOutput.riskLevel s) "low")
            (SafetyOutput.concerns s) (SafetyOutput.actions s) (SafetyOutput.followUp s)
      | None => SafetyAssessment.Build "low" [] [] false
      end /\
    ComprehensiveMitrOutput.response out
    = opt_or_string ro ResponseOutput.response apology /\
    ComprehensiveMitrOutput.interventions out
    = opt_or_object ro ResponseOutput.interventions defaultInterventions.
Proof.
  intros Hres. cbv zeta.
  destruct (comprehensive_digest o input hist)
    as (ts & ea & tre & rnd & cg & trc & sa & ra & H).
  cbv zeta in H. destruct H as (_ & _ & _ & Hs & Hr & _ & _ & _ & Hout).
  rewrite Hres in Hout. rewrite Hs, Hr.
  destruct sa as [so | e]; [| discriminate].
  destruct ra as [ro | e]; [| discriminate].
  injection Hout as ->.
  exists (safetyInput input ea), so, (responseInput input ea cg so), ro.
  repeat split.
  destruct so as [s |]; [| reflexivity].
  unfold compileResponse. cbn. rewrite or_boolean_false. reflexivity.
Qed.

Lemma safety_call_is_authoritative_witness :
  exists out,
    outcome (scripted (allUp 0%Q)) (comprehensiveMitrFlow (sampleInput None)) []
    = Resolved out /\
    SafetyAssessment.riskLevel (ComprehensiveMitrOutput.safetyAssessment out) = "medium".
Proof.
  eexists. split; [reflexivity |].
  destruct (@safety_call_is_authoritative (scripted (allUp 0%Q)) (sampleInput None) [] _
              eq_refl) as (si & so & ri & ro & Hs & _ & _ & Hsa & _).
  apply (f_equal (map snd)) in Hs. injection Hs as <-.
  rewrite Hsa. reflexivity.
Defined.

Lemma modelCalls_app (l1 l2 : list Entry) :
  modelCalls (l1 ++ l2) = modelCalls l1 ++ modelCalls l2.
Proof. apply filter_app. Qed.

Lemma modelCalls_emotionStep (o : Oracle) input hist :
  modelCalls (trace o (emotionStep input) hist)
  = modelCalls (trace o (analyzeEmotions (emotionInput input)) hist).
Proof.
  unfold trace. rewrite run_emotionStep.
  destruct (run o (analyzeEmotions (emotionInput input)) hist) as [[ea | e] tr];
    [reflexivity |].
  cbn [snd]. rewrite modelCalls_app. cbn. apply app_nil_r.
Qed.

Lemma modelCalls_contextStep (o : Oracle) input ea ha hist :
  modelCalls (trace o (contextStep input ea ha) hist)
  = modelCalls (trace o (manageContext (contextInput input ea ha)) hist) /\
  contextCalls (trace o (contextStep input ea ha) hist)
  = contextCalls (trace o (manageContext (contextInput input ea ha)) hist).
Proof.
  unfold trace. rewrite run_contextStep.
  destruct (run o (manageContext (contextInput input ea ha)) hist) as [[cg | e] tr];
    [split; reflexivity |].
  cbn [snd]. rewrite modelCalls_app. unfold contextCalls. rewrite select_app.
  cbn. rewrite !app_nil_r. split; reflexivity.
Qed.

Lemma length_asList_le {A} (a : option A) : length (asList a) <= 1.
Proof. destruct a; simpl; lia. Qed.

Lemma manageContext_counts (o : Oracle) input hist :
  let tr := trace o (manageContext input) hist in
  length (intentCalls tr) = 1 /\ length (contextCalls tr) <= 1 /\
  facialCalls tr = [] /\ voiceCalls tr = [] /\ textCalls tr = [] /\
  fusionCalls tr = [] /\
  length (modelCalls tr) = 1 + length (contextCalls tr).
Proof.
  cbv zeta. unfold trace. rewrite run_manageContext. cbv zeta.
  unfold knowledgeFor, intentEvent.
  destruct (o _ hist (intentClassificationPrompt _ _)) as [ir | e];
    [destruct (findRelevantKnowledge _ _) as [kb | e];
     [destruct (o _ _ (contextAnalysisPrompt input)) as [[cr |] | e];
      try destruct ir as [ir |] |] |];
    cbn; repeat split; lia.
Qed.

(** The trace of the comprehensive flow, stage by stage. *)
Lemma comprehensive_trace (o : Oracle) input hist :
  exists ts ea rnd cg sa ra,
    let h1 := hist ++ [Logged Date_toISOString ts] in
    let tre := trace o (emotionStep input) h1 in
    let ha := Some (minimalHealthAnalysis rnd) in
    let h3 := (h1 ++ tre) ++ [Logged Math_random rnd] in
    let trc := trace o (contextStep input ea ha) h3 in
    trace o (comprehensiveMitrFlow input) hist =
    [Logged Date_toISOString ts] ++ tre ++ [Logged Math_random rnd] ++ trc ++
    Logged (safetyAssessmentPrompt (safetyInput input ea)) sa ::
    match sa with
    | Resolved so =>
        [Logged (therapeuticResponsePrompt (responseInput input ea cg so)) ra]
    | Rejected _ => []
    end.
Proof.
  destruct (run_comprehensive o input hist)
    as (ts & ea & tre & rnd & cg & trc & sa & Hts & He & Hc & Hrun).
  cbv zeta in He, Hc, Hrun.
  destruct sa as [so | e].
  - destruct Hrun as [ra Hrun].
    exists ts, ea, rnd, cg, (Resolved so), ra. cbv zeta.
    unfold trace. rewrite He. cbn [snd]. rewrite Hc, Hrun. cbn [snd].
    cbn [app]. rewrite <- app_assoc. reflexivity.
  - exists ts, ea, rnd, cg, (Rejected e), (Rejected e). cbv zeta.
    unfold trace. rewrite He. cbn [snd]. rewrite Hc, Hrun. cbn [snd].
    cbn [app]. rewrite <- app_assoc. reflexivity.
Qed.

Lemma select_emotionStep {B} (f : Entry -> option B) (o : Oracle) input hist :
  (forall l e x, f (Logged (console_error l e) x) = None) ->
  select f (trace o (emotionStep input) hist)
  = select f (trace o (analyzeEmotions (emotionInput input)) hist).
Proof.
  intros Hc. unfold trace. rewrite run_emotionStep.
  destruct (run o (analyzeEmotions (emotionInput input)) hist) as [[ea | e] tr];
    [reflexivity |].
  cbn [snd]. apply select_console. apply Hc.
Qed.

Lemma select_contextStep {B} (f : Entry -> option B) (o : Oracle) input ea ha hist :
  (forall l e x, f (Logged (console_error l e) x) = None) ->
  select f (trace o (contextStep input ea ha) hist)
  = select f (trace o (manageContext (contextInput input ea ha)) hist).
Proof.
  intros Hc. unfold trace. rewrite run_contextStep.
  destruct (run o (manageContext (contextInput input ea ha)) hist) as [[cg | e] tr];
    [reflexivity |].
  cbn [snd]. apply select_console. apply Hc.
Qed.

(** X19. Every run of the comprehensive flow makes between three and eight
    model calls: at most one call of the facial analyzer, at most one of the
    voice analyzer and at most one of the text analyzer, exactly one fusion
    call, one intent classification, at most one context analysis, exactly
    one safety assessment and at most one response generation, and no other
    model call. *)
Theorem comprehensive_call_budget (o : Oracle) input hist :
  let tr := trace o (comprehensiveMitrFlow input) hist in
  3 <= length (modelCalls tr) <= 8 /\
  length (facialCalls tr) <= 1 /\
  length (voiceCalls tr) <= 1 /\
  length (textCalls tr) <= 1 /\
  length (fusionCalls tr) = 1 /\
  length (intentCalls tr) = 1 /\
  length (contextCalls tr) <= 1 /\
  length (safetyCalls tr) = 1 /\
  length (responseCalls tr) <= 1 /\
  length (modelCalls tr)
  = length (facialCalls tr) + length (voiceCalls tr) + length (textCalls tr)
    + length (fusionCalls tr) + length (intentCalls tr) + length (contextCalls tr)
    + length (safetyCalls tr) + length (responseCalls tr).
Proof.
  cbv zeta.
  destruct (comprehensive_trace o input hist) as (ts & ea & rnd & cg & sa & ra & Htr).
  cbv zeta in Htr. rewrite Htr. clear Htr.
  set (h1 := hist ++ [Logged Date_toISOString ts]).
  set (h3 := (h1 ++ trace o (emotionStep input) h1) ++ [Logged Math_random rnd]).
  set (ha := Some (minimalHealthAnalysis rnd)).
  destruct (analyzeEmotions_counts o (emotionInput input) h1)
    as (Ef & Ev & Et & Eu & Ei & Ec & Em).
  destruct (manageContext_counts o (contextInput input ea ha) h3)
    as (Ci & Cc & Cf & Cv & Ct & Cu & Cm).
  cbv zeta in *.
  pose proof (modelCalls_emotionStep o input h1) as Me.
  destruct (modelCalls_contextStep o input ea ha h3) as [Mc _].
  unfold facialCalls, voiceCalls, textCalls, fusionCalls, intentCalls, contextCalls,
    safetyCalls, responseCalls in *.
  rewrite !modelCalls_app, !select_app, !length_app, Me, Mc.
  rewrite !(select_emotionStep _ o input h1) by reflexivity.
  rewrite !(select_contextStep _ o input ea ha h3) by reflexivity.
  rewrite (quiet_select safetyCall o _ h1 (quiet_analyzeEmotions _ skips_emotion_safetyCall)).
  rewrite (quiet_select responseCall o _ h1
             (quiet_analyzeEmotions _ skips_emotion_responseCall)).
  rewrite (quiet_select safetyCall o _ h3 (quiet_manageContext _ skips_context_safetyCall)).
  rewrite (quiet_select responseCall o _ h3
             (quiet_manageContext _ skips_context_responseCall)).
  rewrite Ei, Ec, Cf, Cv, Ct, Cu.
  set (te := trace o (analyzeEmotions (emotionInput input)) h1) in *.
  set (tc := trace o (manageContext (contextInput input ea ha)) h3) in *.
  clearbody te tc.
  destruct sa as [so | e]; cbn; lia.
Qed.

(** ** The performance monitor *)

Import PerformanceMonitor.

Lemma updateLast_length {A} (p : A -> bool) (f : A -> A) l y l' :
  updateLast p f l = Some (y, l') -> length l' = length l.
Proof.
  revert y l'. induction l as [| x r IH]; intros y l'; simpl; [discriminate |].
  destruct (updateLast p f r) as [[z r'] |].
  - intros [= <- <-]. simpl. f_equal. eapply IH. reflexivity.
  - destruct (p x); [| discriminate]. intros [= <- <-]. reflexivity.
Qed.

Lemma updateLast_Forall {A} (P : A -> Prop) (p : A -> bool) (f : A -> A) l y l' :
  (forall x, P x -> P (f x)) -> Forall P l ->
  updateLast p f l = Some (y, l') -> Forall P l'.
Proof.
  intros Hf. revert y l'. induction l as [| x r IH]; intros y l' Hl; simpl;
    [discriminate |].
  inversion Hl as [| ? ? Hx Hr]; subst.
  destruct (updateLast p f r) as [[z r'] |].
  - intros [= <- <-]. constructor; [exact Hx | eapply IH; eauto].
  - destruct (p x); [| discriminate]. intros [= <- <-]. constructor; auto.
Qed.

Lemma updateLast_none {A} (p : A -> bool) (f : A -> A) l :
  filter p l = [] -> updateLast p f l = None.
Proof.
  induction l as [| x r IH]; simpl; [reflexivity |].
  destruct (p x) eqn:Hp; [discriminate |]. intros H. rewrite (IH H). reflexivity.
Qed.

Lemma updateLast_last {A} (p : A -> bool) (f : A -> A) l x :
  p x = true -> updateLast p f (l ++ [x]) = Some (f x, l ++ [f x]).
Proof.
  intros Hp. induction l as [| y r IH]; simpl.
  - rewrite Hp. reflexivity.
  - rewrite IH. reflexivity.
Qed.

Lemma split_head_id (operation rest : string) :
  split_head (operation ++ "_" ++ rest) = split_head operation.
Proof.
  induction operation as [| c r IH]; simpl in *; [reflexivity |].
  rewrite IH. reflexivity.
Qed.

Lemma includes_underscore (c : ascii) (r : string) :
  includes (String c r) "_" = Ascii.eqb c "_" || includes r "_".
Proof.
  cbn [includes]. f_equal. simpl.
  destruct (Ascii.eqb_spec c "_") as [-> | Hne].
  - destruct r; reflexivity.
  - destruct (ascii_dec "_" c) as [E | E]; [congruence |].
    destruct c as [[] [] [] [] [] [] [] []]; try reflexivity; congruence.
Qed.

Lemma split_head_plain (operation : string) :
  includes operation "_" = false <-> split_head operation = operation.
Proof.
  induction operation as [| c r IH].
  - split; reflexivity.
  - rewrite includes_underscore. simpl.
    destruct (Ascii.eqb c "_"); simpl.
    + split; discriminate.
    + rewrite IH. split; [intros ->; reflexivity | intros [= H]; exact H].
Qed.

Lemma started_shape operation now random t0 metrics :
  let metric := PerformanceMetric.Build operation t0 None None false None None in
  exists dropped older,
    metrics = dropped ++ older /\
    startTiming operation now random t0 metrics
    = ((operation ++ "_" ++ now ++ "_" ++ random)%string, older ++ [metric]) /\
    length (older ++ [metric]) = Nat.min (length metrics + 1) 100.
Proof.
  cbv zeta. unfold startTiming, maxMetrics.
  rewrite length_app. cbn [length].
  destruct (Nat.ltb 100 (length metrics + 1)) eqn:Hlt.
  - apply Nat.ltb_lt in Hlt.
    exists (firstn (length metrics + 1 - 100) metrics),
           (skipn (length metrics + 1 - 100) metrics).
    split; [symmetry; apply firstn_skipn |].
    unfold slice_last. rewrite length_app. cbn [length].
    rewrite skipn_app.
    replace (length metrics + 1 - 100 - length metrics) with 0 by lia.
    cbn [skipn]. split; [reflexivity |].
    rewrite length_app, length_skipn. cbn [length]. lia.
  - apply Nat.ltb_ge in Hlt. exists [], metrics.
    split; [reflexivity |]. split; [reflexivity |].
    rewrite length_app. cbn [length]. lia.
Qed.

Lemma finish_wellFormed t1 success cacheHit error m :
  wellFormed (finish t1 success cacheHit error m).
Proof. unfold wellFormed, finish. simpl. split; [reflexivity | discriminate]. Qed.

Lemma step_invariant metrics c :
  length metrics <= 100 /\ Forall wellFormed metrics ->
  length (step metrics c) <= 100 /\ Forall wellFormed (step metrics c).
Proof.
  intros [Hlen Hwf]. destruct c as [operation now random t0 | id success hit err t1 |].
  - cbn [step]. destruct (started_shape operation now random t0 metrics)
      as (dropped & older & Hm & -> & Hl). cbn [snd].
    split; [rewrite Hl; lia |].
    subst metrics. apply Forall_app in Hwf. destruct Hwf as [_ Hwf].
    apply Forall_app. split; [exact Hwf |].
    constructor; [| constructor]. unfold wellFormed. simpl. auto.
  - cbn [step]. unfold endTiming.
    destruct (updateLast _ _ metrics) as [[y l'] |] eqn:Hu; cbn [snd].
    + split.
      * rewrite (updateLast_length _ _ _ Hu). exact Hlen.
      * eapply updateLast_Forall; [| exact Hwf | exact Hu].
        intros x _. apply finish_wellFormed.
    + auto.
  - simpl. split; [lia | constructor].
Qed.

(** X20. Whatever sequence of [startTiming], [endTiming] and [clear] is
    applied to the monitor, it holds at most 100 metrics, and every metric
    is either open (no end time, no duration, not successful) or finished
    with a duration equal to its end time minus its start time. *)
Theorem monitor_invariant (calls : list Call) :
  length (after calls) <= 100 /\ Forall wellFormed (after calls).
Proof.
  unfold after.
  assert (H : forall metrics,
             length metrics <= 100 /\ Forall wellFormed metrics ->
             length (fold_left step calls metrics) <= 100 /\
             Forall wellFormed (fold_left step calls metrics)).
  { induction calls as [| c r IH]; intros metrics Hm; simpl; [exact Hm |].
    apply IH. apply step_invariant. exact Hm. }
  apply H. split; [simpl; lia | constructor].
Qed.

(** What [endTiming] does right after a [startTiming] of an operation
    whose name is what [split('_')[0]] gives for the id. *)
Lemma endTiming_after_start id operation now random t0 success cacheHit error t1 metrics :
  split_head id = operation ->
  exists older,
    snd (startTiming operation now random t0 metrics)
    = older ++ [PerformanceMetric.Build operation t0 None None false None None] /\
    endTiming id success cacheHit error t1
      (snd (startTiming operation now random t0 metrics))
    = ((t1 - t0)%Q,
       older ++ [PerformanceMetric.Build operation t0 (Some t1) (Some (t1 - t0)%Q)
                   success (Some cacheHit) error]).
Proof.
  intros Hid.
  destruct (started_shape operation now random t0 metrics)
    as (dropped & older & Hm & -> & Hl).
  exists older. cbn [snd]. split; [reflexivity |].
  unfold endTiming. rewrite Hid. rewrite updateLast_last.
  - reflexivity.
  - unfold unfinished. simpl. rewrite String.eqb_refl. reflexivity.
Qed.

(** X21. For an operation name without an underscore, [endTiming] called
    with the id that [startTiming] returned, right after it, completes the
    metric just started, which is the last one: it returns the end time
    minus the start time and records the success, cache-hit and error
    arguments. *)
Theorem endTiming_completes_newest operation now random t0 success cacheHit error t1
  metrics :
  includes operation "_" = false ->
  let id := fst (startTiming operation now random t0 metrics) in
  let started := snd (startTiming operation now random t0 metrics) in
  exists older,
    started = older ++ [PerformanceMetric.Build operation t0 None None false None None] /\
    endTiming id success cacheHit error t1 started
    = ((t1 - t0)%Q,
       older ++ [PerformanceMetric.Build operation t0 (Some t1) (Some (t1 - t0)%Q)
                   success (Some cacheHit) error]).
Proof.
  intros Hplain. cbv zeta.
  apply endTiming_after_start.
  unfold startTiming. cbn [fst]. rewrite split_head_id.
  apply split_head_plain. exact Hplain.
Qed.

Lemma endTiming_completes_newest_witness :
  fst (endTiming (fst (startTiming "chat" "1700000000000" "0.5" 10%Q []))
         true false None 25%Q (snd (startTiming "chat" "1700000000000" "0.5" 10%Q [])))
  = (25 - 10)%Q.
Proof.
  destruct (@endTiming_completes_newest "chat" "1700000000000" "0.5" 10%Q true false None
              25%Q [] eq_refl) as (older & _ & H).
  cbv zeta in H. rewrite H. reflexivity.
Defined.

(** X22. An operation whose name contains an underscore is never completed
    by its own id: [endTiming] looks for the part of the id before the first
    underscore, so, unless an open metric of that shorter name exists, it
    returns 0 and leaves the monitor, with the metric just started still
    open, unchanged. *)
Theorem underscore_operation_never_completes operation now random t0 success cacheHit
  error t1 metrics :
  includes operation "_" = true ->
  openFor (split_head operation) metrics = [] ->
  let id := fst (startTiming operation now random t0 metrics) in
  let started := snd (startTiming operation now random t0 metrics) in
  endTiming id success cacheHit error t1 started = (0%Q, started) /\
  exists older,
    started = older ++ [PerformanceMetric.Build operation t0 None None false None None].
Proof.
  intros Hunder Hopen. cbv zeta.
  destruct (started_shape operation now random t0 metrics)
    as (dropped & older & Hm & Hs & Hl).
  rewrite Hs. cbn [fst snd]. split; [| exists older; reflexivity].
  unfold endTiming. rewrite split_head_id.
  rewrite updateLast_none; [reflexivity |].
  rewrite filter_app. unfold openFor in Hopen. subst metrics.
  rewrite filter_app in Hopen. apply app_eq_nil in Hopen. destruct Hopen as [_ ->].
  simpl. unfold unfinished. simpl.
  destruct (String.eqb_spec operation (split_head operation)) as [E | E];
    [| reflexivity].
  symmetry in E. apply split_head_plain in E. congruence.
Qed.

Lemma underscore_operation_never_completes_witness :
  endTiming (fst (startTiming "fast_response" "1700000000000" "0.5" 10%Q []))
    true false None 25%Q (snd (startTiming "fast_response" "1700000000000" "0.5" 10%Q []))
  = (0%Q, [PerformanceMetric.Build "fast_response" 10%Q None None false None None]).
Proof.
  destruct (@underscore_operation_never_completes "fast_response" "1700000000000" "0.5"
              10%Q true false None 25%Q [] eq_refl eq_refl) as [H _].
  exact H.
Defined.










Lemma filter_all {A} (p : A -> bool) (l : list A) :
  Forall (fun x => p x = true) l -> filter p l = l.
Proof.
  induction 1 as [| x r Hx _ IH]; simpl; [reflexivity |].
  rewrite Hx, IH. reflexivity.
Qed.

Lemma filter_Forall {A} (p : A -> bool) (l : list A) :
  Forall (fun x => p x = true) (filter p l).
Proof. apply Forall_forall. intros x Hx. apply filter_In in Hx. apply Hx. Qed.

(** What [getTrends] computes from ten or more metrics with a duration. *)
Lemma getTrends_eq (plus div : number -> number -> number) metrics previous middle
  recent :
  filter hasDuration metrics = previous ++ middle ++ recent ->
  length previous = length recent ->
  length middle <= 1 ->
  10 <= length (filter hasDuration metrics) ->
  getTrends plus div metrics
  = Trends.Build
      (num_lt (averageOf plus div recent) (averageOf plus div previous))
      (averageOf plus div recent) (averageOf plus div previous).
Proof.
  intros Hsplit Hlen Hmid Hge. unfold getTrends. rewrite Hsplit in *.
  destruct (Nat.ltb_spec (length (previous ++ middle ++ recent)) 10) as [H | _];
    [lia |].
  rewrite !length_app in *.
  assert (Hhalf : Nat.div (length previous + (length middle + length recent)) 2
                  = length recent).
  { symmetry. apply Nat.div_unique with (length middle); lia. }
  rewrite Hhalf.
  assert (Hr : slice_last (length recent) (previous ++ middle ++ recent) = recent).
  { rewrite app_assoc. apply slice_last_app. reflexivity. }
  assert (Hp : slice_first (length recent) (previous ++ middle ++ recent) = previous).
  { unfold slice_first. rewrite <- Hlen. rewrite firstn_app, firstn_all.
    replace (length previous - length previous) with 0 by lia.
    cbn [firstn]. apply app_nil_r. }
  rewrite Hr, Hp. reflexivity.
Qed.

(** X25. [getTrends] reports no trend (not improving, averages 0) for
    fewer than ten metrics with a duration. Otherwise it compares the two
    halves of them, leaving out the middle one when their number is odd:
    the averages are those that the code computes for the two halves, the
    trend is improving exactly when the computed average of the later half
    is smaller than that of the earlier half, and the result is the same as
    without the middle metric. This holds however the additions and
    divisions round. *)
Theorem getTrends_halves (plus div : number -> number -> number) metrics previous middle
  recent :
  filter hasDuration metrics = previous ++ middle ++ recent ->
  length previous = length recent ->
  length middle <= 1 ->
  let completed := length (filter hasDuration metrics) in
  let trends := getTrends plus div metrics in
  (completed < 10 -> trends = Trends.Build false 0%Q 0%Q) /\
  (10 <= completed ->
   Trends.recentAverage trends = averageOf plus div recent /\
   Trends.previousAverage trends = averageOf plus div previous /\
   (Trends.improving trends = true <->
    (averageOf plus div recent < averageOf plus div previous)%Q) /\
   trends = getTrends plus div (previous ++ recent)).
Proof.
  intros Hsplit Hlen Hmid. cbv zeta. split.
  - intros Hlt. unfold getTrends. apply Nat.ltb_lt in Hlt. rewrite Hlt. reflexivity.
  - intros Hge.
    rewrite (@getTrends_eq plus div _ _ _ _ Hsplit Hlen Hmid Hge).
    cbn [Trends.recentAverage Trends.previousAverage Trends.improving].
    split; [reflexivity |]. split; [reflexivity |].
    split; [apply num_lt_iff |].
    assert (Hall : filter hasDuration (previous ++ recent) = previous ++ recent).
    { apply filter_all.
      pose proof (filter_Forall hasDuration metrics) as HF. rewrite Hsplit in HF.
      apply Forall_app in HF. destruct HF as [HFp HF].
      apply Forall_app in HF. destruct HF as [_ HFr].
      apply Forall_app. split; assumption. }
    symmetry. apply getTrends_eq with (middle := []).
    + rewrite Hall. reflexivity.
    + exact Hlen.
    + simpl. lia.
    + rewrite Hall. rewrite Hsplit in Hge. rewrite !length_app in *. lia.
Qed.

Lemma getTrends_halves_witness :
  Trends.improving (getTrends Qplus Qdiv tenAndOne) = true /\
  getTrends Qplus Qdiv tenAndOne
  = getTrends Qplus Qdiv
      (map (fun k => finished "chat" 0%Q 30%Q true) (seq 0 5)
       ++ map (fun k => finished "chat" 0%Q 20%Q true) (seq 0 5)).
Proof.
  destruct (@getTrends_halves Qplus Qdiv tenAndOne
              (map (fun k => finished "chat" 0%Q 30%Q true) (seq 0 5))
              [finished "chat" 0%Q 1000%Q true]
              (map (fun k => finished "chat" 0%Q 20%Q true) (seq 0 5))
              eq_refl eq_refl (le_n 1)) as [_ H].
  cbv zeta in H. destruct (H ltac:(vm_compute; lia)) as (_ & _ & Hi & Hsame).
  split; [| exact Hsame].
  apply Hi. vm_compute. reflexivity.
Defined.

(** ** The keys of the client cache *)

Lemma toInt32_wraps (z : Z) : exists k, toInt32 z = (z + k * 2 ^ 32)%Z.
Proof.
  unfold toInt32. exists (- ((z + 2 ^ 31) / 2 ^ 32))%Z.
  rewrite Z.mod_eq by lia. lia.
Qed.

Lemma toInt32_range (z : Z) : (- 2 ^ 31 <= toInt32 z < 2 ^ 31)%Z.
Proof.
  unfold toInt32.
  pose proof (Z.mod_pos_bound (z + 2 ^ 31) (2 ^ 32) ltac:(lia)). lia.
Qed.

Lemma toInt32_congr (x y k : Z) : x = (y + k * 2 ^ 32)%Z -> toInt32 x = toInt32 y.
Proof.
  intros ->. unfold toInt32.
  replace (y + k * 2 ^ 32 + 2 ^ 31)%Z with (y + 2 ^ 31 + k * 2 ^ 32)%Z by lia.
  rewrite Z_mod_plus_full. reflexivity.
Qed.

Lemma toInt32_small (z : Z) : (- 2 ^ 31 <= z < 2 ^ 31)%Z -> toInt32 z = z.
Proof.
  intros H. unfold toInt32. rewrite Z.mod_small by lia. lia.
Qed.

Lemma hashStep_eq (hash char : Z) :
  ClientCache.hashStep hash char = toInt32 (31 * hash + char).
Proof.
  unfold ClientCache.hashStep, bitAnd, shiftLeft. cbv zeta.
  rewrite Z.land_diag, Z.shiftl_mul_pow2 by lia.
  destruct (toInt32_wraps hash) as [k1 ->].
  destruct (toInt32_wraps ((hash + k1 * 2 ^ 32) * 2 ^ 5)) as [k2 ->].
  apply toInt32_congr with (k := (32 * k1 + k2)%Z). lia.
Qed.

Lemma hash_fold (codes : list Z) (h1 h2 k : Z) :
  h1 = (h2 + k * 2 ^ 32)%Z ->
  exists k',
    fold_left ClientCache.hashStep codes h1
    = (fold_left (fun h c => 31 * h + c) codes h2 + k' * 2 ^ 32)%Z.
Proof.
  revert h1 h2 k. induction codes as [| c r IH]; intros h1 h2 k H; cbn [fold_left].
  - exists k. exact H.
  - rewrite hashStep_eq. destruct (toInt32_wraps (31 * h1 + c)) as [k1 ->].
    apply IH with (k := (31 * k + k1)%Z). lia.
Qed.

Lemma hash_fold_range (codes : list Z) (h : Z) :
  (- 2 ^ 31 <= h < 2 ^ 31)%Z ->
  (- 2 ^ 31 <= fold_left ClientCache.hashStep codes h < 2 ^ 31)%Z.
Proof.
  revert h. induction codes as [| c r IH]; intros h H; cbn [fold_left]; [exact H |].
  apply IH. rewrite hashStep_eq. apply toInt32_range.
Qed.

Lemma charCodes_app (a b : string) : charCodes (a ++ b) = charCodes a ++ charCodes b.
Proof.
  unfold charCodes. rewrite <- map_app. f_equal.
  induction a as [| c r IH]; simpl; [reflexivity | rewrite IH; reflexivity].
Qed.

(** X26. The hash of [generateKey] is the polynomial hash with base 31 of
    the code units of the combined string, wrapped to a signed 32-bit
    integer; the number in the key, its absolute value, lies between 0 and
    2^31. *)
Theorem generateKey_hash (combined : string) :
  ClientCache.hashOf combined = toInt32 (polynomial31 (charCodes combined)) /\
  (- 2 ^ 31 <= ClientCache.hashOf combined < 2 ^ 31)%Z /\
  (0 <= Z.abs (ClientCache.hashOf combined) <= 2 ^ 31)%Z.
Proof.
  assert (Hr : (- 2 ^ 31 <= ClientCache.hashOf combined < 2 ^ 31)%Z)
    by (apply hash_fold_range; lia).
  split; [| split; [exact Hr | lia]].
  rewrite <- (toInt32_small Hr). unfold ClientCache.hashOf, polynomial31.
  destruct (@hash_fold (charCodes combined) 0 0 0 eq_refl) as [k Hk].
  apply toInt32_congr with (k := k). exact Hk.
Qed.

(** X27. Cache keys are not injective: replacing "Aa" by "BB" anywhere in
    the message, or anywhere in the text of the context, leaves the key
    unchanged. *)
Theorem generateKey_collides (before after userMessage contextString : string) :
  ClientCache.generateKey (before ++ "Aa" ++ after) contextString
  = ClientCache.generateKey (before ++ "BB" ++ after) contextString /\
  ClientCache.generateKey userMessage (before ++ "Aa" ++ after)
  = ClientCache.generateKey userMessage (before ++ "BB" ++ after).
Proof.
  assert (E : forall h,
             fold_left ClientCache.hashStep (charCodes "Aa") h
             = fold_left ClientCache.hashStep (charCodes "BB") h).
  { intros h.
    change (charCodes "Aa") with [65%Z; 97%Z].
    change (charCodes "BB") with [66%Z; 66%Z].
    cbn [fold_left]. rewrite !hashStep_eq.
    destruct (toInt32_wraps (31 * h + 65)) as [k1 ->].
    destruct (toInt32_wraps (31 * h + 66)) as [k2 ->].
    apply toInt32_congr with (k := (31 * k1 - 31 * k2)%Z). lia. }
  split; unfold ClientCache.generateKey, ClientCache.hashOf; cbv zeta; do 3 f_equal;
    rewrite !charCodes_app, !fold_left_app, E; reflexivity.
Qed.
